(** * DC External Links: metafield reconciliation and storefront rendering

    A shallow embedding of the save/delete/load handlers of the admin route
    (app/routes/app._index.tsx and its later revision with the metafield
    reconciler and the theme auto-install gate) and of the storefront script
    (extensions/external-button-block/assets/custom_button.js).

    Conventions.
    - A JavaScript string is a [string]: the bytes of its UTF-8 encoding.
    - A JavaScript exception is an explicit result ([Throw], [inl]); a
      [try]/[catch] is a case distinction on it.
    - Every [admin.graphql] call is a node of a program tree ([Remote]); the
      remote side is an arbitrary function from the history of requests to a
      reply, so that a theorem quantified over it covers every behaviour of
      the remote store, failures included. *)

From stdpp Require Import gmap strings list pretty.
From Stdlib Require Import ZArith Ascii.

Open Scope string_scope.
Open Scope list_scope.

(** ** JavaScript built-ins used by the code *)

Module JS.

(** [WhiteSpace] and [LineTerminator] of ECMAScript, the characters that
    [String.prototype.trim] strips and that [\s] matches, as UTF-8 byte
    sequences: U+0009..U+000D, U+0020, U+00A0, U+1680, U+2000..U+200A,
    U+2028, U+2029, U+202F, U+205F, U+3000, U+FEFF. *)
Definition whitespace : list (list N) :=
  [ [9]; [10]; [11]; [12]; [13]; [32];
    [194; 160];
    [225; 154; 128];
    [226; 128; 128]; [226; 128; 129]; [226; 128; 130]; [226; 128; 131];
    [226; 128; 132]; [226; 128; 133]; [226; 128; 134]; [226; 128; 135];
    [226; 128; 136]; [226; 128; 137]; [226; 128; 138];
    [226; 128; 168]; [226; 128; 169]; [226; 128; 175];
    [226; 129; 159];
    [227; 128; 128];
    [239; 187; 191] ]%N.

Definition bytes (s : string) : list N :=
  N_of_ascii <$> String.list_ascii_of_string s.

Definition of_bytes (l : list N) : string :=
  String.string_of_list_ascii (ascii_of_N <$> l).

Fixpoint starts_with (p l : list N) : bool :=
  match p, l with
  | [], _ => true
  | x :: p', y :: l' => (x =? y)%N && starts_with p' l'
  | _ :: _, [] => false
  end.

(** Length of the white-space character [l] begins with, [0] if none. *)
Definition leading (ws : list (list N)) (l : list N) : nat :=
  match List.find (fun p => starts_with p l) ws with
  | Some p => length p
  | None => 0
  end.

Fixpoint strip (ws : list (list N)) (fuel : nat) (l : list N) : list N :=
  match fuel with
  | O => l
  | S fuel' =>
      match leading ws l with
      | O => l
      | n => strip ws fuel' (drop n l)
      end
  end.

Definition trimStart (l : list N) : list N :=
  strip whitespace (length l) l.

Definition trimEnd (l : list N) : list N :=
  reverse (strip (reverse <$> whitespace) (length l) (reverse l)).

(** [s.trim()] *)
Definition trim (s : string) : string :=
  of_bytes (trimEnd (trimStart (bytes s))).

(** [!s] for a string [s]: only the empty string is falsy. *)
Definition falsy (s : string) : bool := bool_decide (s = "").

(** [s || d] for a string [s]. *)
Definition or_else (s d : string) : string := if falsy s then d else s.

(** [o || d] where [o] is a string or [null]/[undefined]. *)
Definition opt_or (o : option string) (d : string) : string :=
  match o with
  | Some s => or_else s d
  | None => d
  end.

(** [parseInt(s, 10)]: leading white space is skipped, then an optional
    sign, then the longest run of decimal digits; [None] is [NaN]. *)
Definition digit (b : N) : option N :=
  if ((48 <=? b) && (b <=? 57))%N then Some (b - 48)%N else None.

Fixpoint digits (l : list N) (acc : option N) : option N :=
  match l with
  | b :: l' =>
      match digit b with
      | Some d => digits l' (Some (10 * default 0 acc + d))%N
      | None => acc
      end
  | [] => acc
  end.

Definition parseInt (s : string) : option Z :=
  match trimStart (bytes s) with
  | 45%N :: l => (fun n => (- Z.of_N n)%Z) <$> digits l None
  | 43%N :: l => Z.of_N <$> digits l None
  | l => Z.of_N <$> digits l None
  end.

(** [for (let i = 0; i < n; i++)] runs [n] times for a positive [n] and
    not at all for [NaN], zero or a negative number. *)
Definition iterations (n : option Z) : nat :=
  match n with
  | Some z => Z.to_nat z
  | None => 0
  end.

(** [`${i}`] and [i.toString()] for an array index or length. *)
Definition of_nat (i : nat) : string := pretty i.

(** [l.join(sep)] *)
Fixpoint join (sep : string) (l : list string) : string :=
  match l with
  | [] => ""
  | [x] => x
  | x :: l' => x +:+ sep +:+ join sep l'
  end.

Fixpoint take_while {A} (f : A -> bool) (l : list A) : list A :=
  match l with
  | x :: l' => if f x then x :: take_while f l' else []
  | [] => []
  end.

Fixpoint drop_while {A} (f : A -> bool) (l : list A) : list A :=
  match l with
  | x :: l' => if f x then drop_while f l' else l
  | [] => []
  end.

(** [QuoteJSONString] of [JSON.stringify]: the two-character escapes, a
    [\u00xx] escape for the other control characters, everything else as
    it is (a UTF-8 string has no lone surrogate). *)
Definition hex_digit (n : N) : N :=
  if (n <? 10)%N then (48 + n)%N else (87 + n)%N.

Definition quote_byte (b : N) : list N :=
  if (b =? 34)%N then [92; 34]%N
  else if (b =? 92)%N then [92; 92]%N
  else if (b =? 8)%N then [92; 98]%N
  else if (b =? 12)%N then [92; 102]%N
  else if (b =? 10)%N then [92; 110]%N
  else if (b =? 13)%N then [92; 114]%N
  else if (b =? 9)%N then [92; 116]%N
  else if (b <? 32)%N then [92; 117; 48; 48; hex_digit (b / 16); hex_digit (b mod 16)]%N
  else [b].

Definition quote (s : string) : string :=
  of_bytes ([34%N] ++ mbind quote_byte (bytes s) ++ [34%N]).

(** A literal written with apostrophes for its double quotes, to keep
    JSON texts readable here: [dq "{'a':1}"] is the text [{"a":1}]. *)
Definition dq (s : string) : string :=
  of_bytes ((fun b => if (b =? 39)%N then 34%N else b) <$> bytes s).

(** What V8 reports for [undefined.message]. *)
Definition undefined_message : string :=
  "Cannot read properties of undefined (reading 'message')".

End JS.

(** ** The record model (admin side, as typed in the route) *)

(** [interface ExternalLink { text: string; url: string; enabled: boolean }] *)
Record ExternalLink := mkLink {
  url : string;
  text : string;
  enabled : bool
}.

Global Instance ExternalLink_eq_dec : EqDecision ExternalLink.
Proof. solve_decision. Defined.

(** [const isEmptyLink = (link) => (!link.url || link.url.trim() === '')] *)
Definition isEmptyLink (link : ExternalLink) : bool :=
  JS.falsy (url link) || bool_decide (JS.trim (url link) = "").

(** [expandedProduct.externalLinks.filter(link => !isEmptyLink(link))], the
    array every save path of the editor builds before it fills the form. *)
Definition validLinks (externalLinks : list ExternalLink) : list ExternalLink :=
  List.filter (fun link => negb (isEmptyLink link)) externalLinks.

(** The specification's [normalize], in its own words: keep the entries
    whose [url] is not empty after trimming, as they are. *)
Definition blank (link : ExternalLink) : Prop := JS.trim (url link) = "".

Global Instance blank_dec link : Decision (blank link).
Proof. unfold blank. apply _. Defined.

Definition normalize_spec (L : list ExternalLink) : list ExternalLink :=
  List.filter (fun link => bool_decide (¬ blank link)) L.


(** ** The remote store, as the route sees it *)

(** One node of [metafields { nodes { id key value type } }]. *)
Record MetafieldNode := mkNode {
  mf_id : string;
  mf_key : string;
  mf_value : string;
  mf_type : string
}.

(** [MetafieldIdentifierInput] *)
Record MetafieldIdentifier := mkIdent {
  ownerId : string;
  ident_namespace : string;
  ident_key : string
}.

(** An entry of [ProductInput.metafields]; [None] is an [id] left out. *)
Record MetafieldInput := mkInput {
  in_namespace : string;
  in_id : option string;
  in_key : string;
  in_value : string;
  in_type : string
}.

Record Theme := mkTheme { theme_id : string; theme_name : string; role : string }.
Record ThemeFile := mkFile { filename : string; body : string }.

(** An element of [errors] or of [userErrors]; only [message] is read. *)
Record RemoteError := mkError { message : string }.

(** The GraphQL operations the route and its helpers issue. *)
Inductive Request :=
| getProductMetafields (id : string)
    (* save: nodes { id key value type } of bl_custom_button *)
| getProductMetafieldKeys (id : string)
    (* delete: title and nodes { key } of bl_custom_button *)
| metafieldsDelete (metafields : list MetafieldIdentifier)
| productUpdate (id : string) (metafields : list MetafieldInput)
| getThemes
| getProductsWithMetafields (namespace : string)
| currentAppInstallation_block_installed
    (* metafields(first: 1, namespace: "auto_install", key: "block_installed") *)
| themes_MAIN
| getThemeFiles (themeId : string)
| themeFilesUpsert (themeId : string) (files : list ThemeFile)
| metafieldsSet (metafields : list MetafieldInput).

(** A product of [products(first: 100)] with its metafield nodes. *)
Record ProductNode := mkProductNode {
  node_id : string;
  node_title : string;
  node_handle : string;
  node_metafields : option (list MetafieldNode)
}.

(** [data] of a response, by the operation that shaped it. Optional
    chaining on a [data] of another shape yields [undefined]. *)
Inductive Data :=
| data_product (product : option (string * list MetafieldNode))
    (* product: null, or its title and metafields.nodes *)
| data_metafieldsDelete (userErrors : list RemoteError)
| data_productUpdate (userErrors : list RemoteError)
| data_products (nodes : list ProductNode)
| data_currentAppInstallation (nodes : list MetafieldNode)
| data_themes (nodes : list Theme)
| data_theme (files : option (list ThemeFile))
| data_themeFilesUpsert (userErrors : list RemoteError)
| data_metafieldsSet (userErrors : list RemoteError).

(** [GraphQLResponse<T>]: [{ data?: T; errors?: ... }] *)
Record GraphQLResponse := mkResponse {
  errors : option (list RemoteError);
  data : option Data
}.

(** What [await admin.graphql(...)] followed by [await response.json()]
    does: it throws an error with a message, or yields the parsed body.
    A rejection with a value that has no [message] to read ([null],
    [undefined]) is not a [Reply]: the [catch] of [action] reads
    [error.message], and what the action does on such a rejection is
    stated nowhere below. *)
Inductive Reply :=
| Threw (error_message : string)
| Json (response : GraphQLResponse).

(** Programs that talk to the remote store. *)
Inductive Remote (A : Type) : Type :=
| Ret (a : A)
| Throw (error_message : string)
| Graphql (q : Request) (k : Reply -> Remote A).

Arguments Ret {A} a.
Arguments Throw {A} error_message.
Arguments Graphql {A} q k.

Fixpoint bind {A B} (p : Remote A) (f : A -> Remote B) : Remote B :=
  match p with
  | Ret a => f a
  | Throw e => Throw e
  | Graphql q k => Graphql q (fun r => bind (k r) f)
  end.

(** [try { p } catch (error) { h error.message }] *)
Fixpoint try_catch {A} (p : Remote A) (h : string -> Remote A) : Remote A :=
  match p with
  | Ret a => Ret a
  | Throw e => h e
  | Graphql q k => Graphql q (fun r => try_catch (k r) h)
  end.

(** [await (await admin.graphql(q)).json()] *)
Definition graphql (q : Request) : Remote GraphQLResponse :=
  Graphql q (fun r =>
    match r with
    | Threw e => Throw e
    | Json response => Ret response
    end).

Global Instance Remote_ret : MRet Remote := @Ret.
Global Instance Remote_bind : MBind Remote := fun A B f p => bind p f.

(** The remote side: a reply for each request, given the requests so far. *)
Definition Env := list Request -> Request -> Reply.

(** Runs [p] after the requests [hist]; yields what [p] returns or throws
    and the requests it issued, in order. *)
Fixpoint run {A} (env : Env) (hist : list Request) (p : Remote A)
  : (string + A) * list Request :=
  match p with
  | Ret a => (inr a, [])
  | Throw e => (inl e, [])
  | Graphql q k =>
      let '(res, trace) := run env (hist ++ [q]) (k (env hist q)) in
      (res, q :: trace)
  end.

(** ** Form data *)

(** A [FormData] with string values: its entries, in order. *)
Module FormData.

Definition t := list (string * string).

(** [formData.get(name)]: the first value under [name], or [null]. *)
Fixpoint get (name : string) (formData : t) : option string :=
  match formData with
  | [] => None
  | (n, v) :: rest => if bool_decide (n = name) then Some v else get name rest
  end.

Definition remove (name : string) (formData : t) : t :=
  List.filter (fun e => negb (bool_decide (e.1 = name))) formData.

(** [formData.set(name, value)]: the first entry under [name] takes the
    value and the others go; without one the entry is appended. *)
Fixpoint set (name value : string) (formData : t) : t :=
  match formData with
  | [] => [(name, value)]
  | (n, v) :: rest =>
      if bool_decide (n = name) then (name, value) :: remove name rest
      else (n, v) :: set name value rest
  end.

End FormData.

(** ** The route's [action] (revision with the reconciler) *)

(** What the action hands to [json(...)]. *)
Record ActionData := mkActionData {
  success : bool;
  action_message : option string;
  action_error : option string
}.

Definition ok (msg : string) : ActionData := mkActionData true (Some msg) None.
Definition failed (err : string) : ActionData := mkActionData false None (Some err).

Definition METAFIELD_NAMESPACE : string := "bl_custom_button".

(** [JSON.stringify] of an [ExternalLink[]] built by the action: every
    object has the keys [url], [text], [enabled], in this order. *)
Definition stringify_link (link : ExternalLink) : string :=
  JS.dq "{'url':" +:+ JS.quote (url link) +:+
  JS.dq ",'text':" +:+ JS.quote (text link) +:+
  JS.dq ",'enabled':" +:+ (if enabled link then "true" else "false") +:+ "}".

Definition JSON_stringify (externalLinks : list ExternalLink) : string :=
  "[" +:+ JS.join "," (stringify_link <$> externalLinks) +:+ "]".

(** The links the save branch reads from the form:
    [for (let i = 0; i < linkCount; i++) externalLinks.push({...})]. *)
Definition form_link (formData : FormData.t) (i : nat) : ExternalLink :=
  {| url := JS.opt_or (FormData.get ("link_" +:+ JS.of_nat i +:+ "_url") formData) "";
     text := JS.opt_or (FormData.get ("link_" +:+ JS.of_nat i +:+ "_text") formData) "";
     enabled :=
       bool_decide (FormData.get ("link_" +:+ JS.of_nat i +:+ "_enabled") formData = Some "on") |}.

Definition form_links (formData : FormData.t) : list ExternalLink :=
  let linkCount := JS.parseInt (JS.opt_or (FormData.get "linkCount" formData) "0") in
  form_link formData <$> seq 0 (JS.iterations linkCount).

Definition form_hideAtc (formData : FormData.t) : bool :=
  bool_decide (FormData.get "hideAtc" formData = Some "on").

(** [existingData.data?.product?.metafields?.nodes || []] *)
Definition product_nodes (response : GraphQLResponse) : list MetafieldNode :=
  match data response with
  | Some (data_product (Some (_, nodes))) => nodes
  | _ => []
  end.

(** [new Map(existingMetafields.map(mf => [mf.key, mf]))]: a later node
    replaces an earlier one with the same key. *)
Definition existingMetafieldMap (existingMetafields : list MetafieldNode)
  : gmap string MetafieldNode :=
  foldl (fun m mf => <[mf_key mf := mf]> m) ∅ existingMetafields.

(** [new Set(['external_links'])], plus ['hide_atc'] if [hideAtc]. *)
Definition keysToKeep (hideAtc : bool) : gset string :=
  if hideAtc then {["external_links"]} ∪ {["hide_atc"]} else {["external_links"]}.

(** [existingMetafields.filter(mf => !keysToKeep.has(mf.key))] *)
Definition metafieldsToDelete (existingMetafields : list MetafieldNode) (hideAtc : bool)
  : list MetafieldNode :=
  List.filter (fun mf => negb (bool_decide (mf_key mf ∈ keysToKeep hideAtc)))
    existingMetafields.

(** An entry of [metafieldsToSave]: [{ id?, key, value, type }]. *)
Record SaveField := mkField {
  field_id : option string;
  field_key : string;
  field_value : string;
  field_type : string
}.

(** [...(existing ? { id: existing.id } : {})] *)
Definition existing_id (existing : option MetafieldNode) : option string :=
  mf_id <$> existing.

Definition metafieldsToSave (existingMetafields : list MetafieldNode)
    (externalLinks : list ExternalLink) (hideAtc : bool) : list SaveField :=
  let m := existingMetafieldMap existingMetafields in
  [ mkField (existing_id (m !! "external_links")) "external_links"
      (JSON_stringify externalLinks) "json" ]
  ++ (if hideAtc
      then [ mkField (existing_id (m !! "hide_atc")) "hide_atc" "true"
               "single_line_text_field" ]
      else []).

(** [{ namespace, ...(field.id ? { id: field.id } : {}), key, value, type }] *)
Definition to_input (field : SaveField) : MetafieldInput :=
  {| in_namespace := METAFIELD_NAMESPACE;
     in_id := match field_id field with
              | Some i => if JS.falsy i then None else Some i
              | None => None
              end;
     in_key := field_key field;
     in_value := field_value field;
     in_type := field_type field |}.

(** [data?.productUpdate?.userErrors] *)
Definition productUpdate_userErrors (response : GraphQLResponse)
  : option (list RemoteError) :=
  match data response with
  | Some (data_productUpdate userErrors) => Some userErrors
  | _ => None
  end.

(** [data?.metafieldsDelete?.userErrors || []] *)
Definition metafieldsDelete_userErrors (response : GraphQLResponse)
  : list RemoteError :=
  match data response with
  | Some (data_metafieldsDelete userErrors) => userErrors
  | _ => []
  end.

(** [product?.title] inside a template literal *)
Definition product_title (response : GraphQLResponse) : string :=
  match data response with
  | Some (data_product (Some (title, _))) => title
  | _ => "undefined"
  end.

(** [errors[0].message] *)
Definition first_message (errs : list RemoteError) : Remote string :=
  match errs with
  | e :: _ => Ret (message e)
  | [] => Throw JS.undefined_message
  end.

Definition save (productId : string) (formData : FormData.t) : Remote ActionData :=
  let hideAtc := form_hideAtc formData in
  let externalLinks := form_links formData in
  existingData ← graphql (getProductMetafields productId);
  let existingMetafields := product_nodes existingData in
  let toDelete := metafieldsToDelete existingMetafields hideAtc in
  (if (0 <? length toDelete)%nat
   then graphql (metafieldsDelete
          ((fun mf => mkIdent productId METAFIELD_NAMESPACE (mf_key mf)) <$> toDelete));;
        Ret ()
   else Ret ());;
  let toSave := metafieldsToSave existingMetafields externalLinks hideAtc in
  if (0 <? length toSave)%nat
  then
    saveData ← graphql (productUpdate productId (to_input <$> toSave));
    match errors saveData, productUpdate_userErrors saveData with
    | Some errs, _ =>
        Ret (failed ("Failed to save: " +:+ JS.join ", " (message <$> errs)))
    | None, Some (e :: userErrors) =>
        Ret (failed ("Failed to save: " +:+ JS.join ", " (message <$> e :: userErrors)))
    | None, _ => Ret (ok "Product configuration saved successfully!")
    end
  else Ret (ok "Product configuration saved successfully!").

Definition delete (productId : string) : Remote ActionData :=
  metafieldsData ← graphql (getProductMetafieldKeys productId);
  match errors metafieldsData with
  | Some errs =>
      m ← first_message errs;
      Ret (failed ("Failed to fetch metafields: " +:+ m))
  | None =>
      let existingMetafields := product_nodes metafieldsData in
      if (0 <? length existingMetafields)%nat
      then
        deleteData ← graphql (metafieldsDelete
          ((fun mf => mkIdent productId METAFIELD_NAMESPACE (mf_key mf))
             <$> existingMetafields));
        match errors deleteData with
        | Some errs =>
            m ← first_message errs;
            Ret (failed ("Failed to delete product configuration: " +:+ m))
        | None =>
            if (0 <? length (metafieldsDelete_userErrors deleteData))%nat
            then Ret (failed "Failed to delete product configuration")
            else Ret (ok (JS.dq "Configuration for '" +:+ product_title metafieldsData
                          +:+ JS.dq "' has been removed successfully."))
        end
      else Ret (ok "Product configuration was already removed.")
  end.

(** [export const action], after authentication. *)
Definition action (formData : FormData.t) : Remote ActionData :=
  try_catch
    (let actionType := FormData.get "actionType" formData in
     let productId := FormData.get "productId" formData in
     match productId with
     | Some id =>
         if JS.falsy id then Ret (failed "Invalid action")
         else if bool_decide (actionType = Some "save") then save id formData
         else if bool_decide (actionType = Some "delete") then delete id
         else Ret (failed "Invalid action")
     | None => Ret (failed "Invalid action")
     end)
    (fun error_message =>
       Ret (failed ("Failed to delete product configuration: " +:+ error_message))).

(** ** The editor's save paths *)

(** The part of [ExpandedProduct] a save reads. *)
Record ExpandedProduct := mkExpanded {
  externalLinks : list ExternalLink;
  hideAtc : bool
}.

(** [validLinks.forEach((link, index) => { formData.set(...) ... })] *)
Definition set_link (formData : FormData.t) (entry : nat * ExternalLink) : FormData.t :=
  let '(index, link) := entry in
  let formData :=
    FormData.set ("link_" +:+ JS.of_nat index +:+ "_url") (JS.or_else (url link) "") formData in
  let formData :=
    FormData.set ("link_" +:+ JS.of_nat index +:+ "_text") (JS.or_else (text link) "") formData in
  if enabled link
  then FormData.set ("link_" +:+ JS.of_nat index +:+ "_enabled") "on" formData
  else formData.

(** The form [saveProductConfiguration] and [handleSaveBarSave] submit. *)
Definition saveProductConfiguration (productId : string) (expandedProduct : ExpandedProduct)
  : FormData.t :=
  let validLinks := validLinks (externalLinks expandedProduct) in
  let formData := FormData.set "actionType" "save" [] in
  let formData := FormData.set "productId" productId formData in
  let formData := FormData.set "linkCount" (JS.of_nat (length validLinks)) formData in
  let formData := foldl set_link formData (imap (fun index link => (index, link)) validLinks) in
  if hideAtc expandedProduct then FormData.set "hideAtc" "on" formData else formData.

(** The form the product picker submits for each newly selected product. *)
Definition addProduct (productId : string) : FormData.t :=
  FormData.set "linkCount" "0"
    (FormData.set "productId" productId (FormData.set "actionType" "save" [])).

(** ** JSON values *)

Module JSON.

(** A value that [JSON.parse] yields. A number is kept as the decimal
    [mantissa * 10 ^ exponent] its text denotes; an object as its members
    in the order of the text, where the last member under a key is the
    property. *)
#[warnings="-register-all"]
Inductive json :=
| JNull
| JBool (b : bool)
| JNum (mantissa exponent : Z)
| JStr (s : string)
| JArr (items : list json)
| JObj (members : list (string * json)).

(** [ToBoolean] of the double nearest to [mantissa * 10 ^ exponent]: it is
    zero iff the decimal is at most [2 ^ -1075] in absolute value. *)
Definition number_truthy (mantissa exponent : Z) : bool :=
  if (mantissa =? 0)%Z then false
  else if (0 <=? exponent)%Z then true
  else (10 ^ (- exponent) <? Z.abs mantissa * 2 ^ 1075)%Z.

(** [ToBoolean] of a value or of [undefined] ([None]). *)
Definition truthy (v : option json) : bool :=
  match v with
  | None | Some JNull => false
  | Some (JBool b) => b
  | Some (JNum m e) => number_truthy m e
  | Some (JStr s) => negb (JS.falsy s)
  | Some (JArr _) | Some (JObj _) => true
  end.

Fixpoint member (key : string) (members : list (string * json)) : option json :=
  match members with
  | [] => None
  | (k, v) :: rest =>
      match member key rest with
      | Some v' => Some v'
      | None => if bool_decide (k = key) then Some v else None
      end
  end.

(** [v.key] for one of the keys [enabled], [url], [text]: a [TypeError]
    ([None]) on [null], the member of an object, [undefined] otherwise. *)
Definition get (v : json) (key : string) : option (option json) :=
  match v with
  | JNull => None
  | JObj members => Some (member key members)
  | _ => Some None
  end.

(** *** A reference [JSON.parse] *)

Definition skip_ws (l : list N) : list N :=
  JS.drop_while (fun b => bool_decide (b ∈ [32; 9; 10; 13]%N)) l.

Definition hex (b : N) : option N :=
  if ((48 <=? b) && (b <=? 57))%N then Some (b - 48)%N
  else if ((97 <=? b) && (b <=? 102))%N then Some (b - 87)%N
  else if ((65 <=? b) && (b <=? 70))%N then Some (b - 55)%N
  else None.

Definition hex4 (a b c d : N) : option N :=
  a ← hex a; b ← hex b; c ← hex c; d ← hex d;
  Some (((a * 16 + b) * 16 + c) * 16 + d)%N.

(** UTF-8 of a code point (a lone surrogate gets its three-byte form). *)
Definition utf8 (cp : N) : list N :=
  if (cp <? 128)%N then [cp]
  else if (cp <? 2048)%N then [192 + cp / 64; 128 + cp mod 64]%N
  else if (cp <? 65536)%N
       then [224 + cp / 4096; 128 + (cp / 64) mod 64; 128 + cp mod 64]%N
       else [240 + cp / 262144; 128 + (cp / 4096) mod 64;
             128 + (cp / 64) mod 64; 128 + cp mod 64]%N.

(** The characters of a string after its opening quote, up to the
    closing one; [acc] holds the bytes read, last first. *)
Fixpoint parse_chars (l acc : list N) : option (list N * list N) :=
  match l with
  | [] => None
  | 34%N :: rest => Some (reverse acc, rest)
  | 92%N :: rest =>
      match rest with
      | 34%N :: r => parse_chars r (34 :: acc)%N
      | 92%N :: r => parse_chars r (92 :: acc)%N
      | 47%N :: r => parse_chars r (47 :: acc)%N
      | 98%N :: r => parse_chars r (8 :: acc)%N
      | 102%N :: r => parse_chars r (12 :: acc)%N
      | 110%N :: r => parse_chars r (10 :: acc)%N
      | 114%N :: r => parse_chars r (13 :: acc)%N
      | 116%N :: r => parse_chars r (9 :: acc)%N
      | 117%N :: a :: b :: c :: d :: r =>
          match hex4 a b c d with
          | None => None
          | Some hi =>
              match r with
              | 92%N :: 117%N :: a' :: b' :: c' :: d' :: r' =>
                  match hex4 a' b' c' d' with
                  | Some lo =>
                      if ((55296 <=? hi) && (hi <? 56320)
                          && (56320 <=? lo) && (lo <? 57344))%N
                      then parse_chars r'
                             (reverse (utf8 (65536 + (hi - 55296) * 1024 + (lo - 56320))%N)
                              ++ acc)
                      else parse_chars r (reverse (utf8 hi) ++ acc)
                  | None => parse_chars r (reverse (utf8 hi) ++ acc)
                  end
              | _ => parse_chars r (reverse (utf8 hi) ++ acc)
              end
          end
      | _ => None
      end
  | b :: rest => if (b <? 32)%N then None else parse_chars rest (b :: acc)
  end.

Definition is_digit (b : N) : bool := ((48 <=? b) && (b <=? 57))%N.

Definition digits_value (ds : list N) (init : Z) : Z :=
  foldl (fun acc d => (10 * acc + Z.of_N (d - 48))%Z) init ds.

(** A number: an optional minus, an integer part without a leading zero
    (or a single zero), an optional fraction, an optional exponent. *)
Definition parse_number (l : list N) : option (json * list N) :=
  let '(neg, l) := match l with 45%N :: r => (true, r) | _ => (false, l) end in
  let int := JS.take_while is_digit l in
  let l := JS.drop_while is_digit l in
  match int with
  | [] => None
  | 48%N :: _ :: _ => None
  | _ =>
      let '(frac, l) :=
        match l with
        | 46%N :: r => (Some (JS.take_while is_digit r), JS.drop_while is_digit r)
        | _ => (None, l)
        end in
      match frac with
      | Some [] => None
      | _ =>
          let frac := default [] frac in
          let mantissa := digits_value frac (digits_value int 0) in
          let mantissa := if neg then (- mantissa)%Z else mantissa in
          let scale := (- Z.of_nat (length frac))%Z in
          match l with
          | e :: r =>
              if bool_decide (e ∈ [101; 69]%N) then
                let '(eneg, r) :=
                  match r with
                  | 45%N :: r' => (true, r')
                  | 43%N :: r' => (false, r')
                  | _ => (false, r)
                  end in
                match JS.take_while is_digit r with
                | [] => None
                | ds =>
                    let x := digits_value ds 0 in
                    Some (JNum mantissa (scale + (if eneg then - x else x))%Z,
                          JS.drop_while is_digit r)
                end
              else Some (JNum mantissa scale, l)
          | [] => Some (JNum mantissa scale, l)
          end
      end
  end.

Inductive mode :=
| Value
| Elements (acc : list json)
| Members (acc : list (string * json)).

(** [Value]: one value. [Elements acc]: the rest of an array from one of
    its elements on. [Members acc]: the rest of an object from one of its
    members on. *)
Fixpoint parse (fuel : nat) (m : mode) (l : list N) : option (json * list N) :=
  match fuel with
  | O => None
  | S fuel =>
      match m with
      | Value =>
          match skip_ws l with
          | 110%N :: 117%N :: 108%N :: 108%N :: r => Some (JNull, r)
          | 116%N :: 114%N :: 117%N :: 101%N :: r => Some (JBool true, r)
          | 102%N :: 97%N :: 108%N :: 115%N :: 101%N :: r => Some (JBool false, r)
          | 34%N :: r =>
              match parse_chars r [] with
              | Some (s, r) => Some (JStr (JS.of_bytes s), r)
              | None => None
              end
          | 91%N :: r =>
              match skip_ws r with
              | 93%N :: r' => Some (JArr [], r')
              | r => parse fuel (Elements []) r
              end
          | 123%N :: r =>
              match skip_ws r with
              | 125%N :: r' => Some (JObj [], r')
              | r => parse fuel (Members []) r
              end
          | l => parse_number l
          end
      | Elements acc =>
          match parse fuel Value l with
          | Some (v, r) =>
              match skip_ws r with
              | 44%N :: r => parse fuel (Elements (v :: acc)) r
              | 93%N :: r => Some (JArr (reverse (v :: acc)), r)
              | _ => None
              end
          | None => None
          end
      | Members acc =>
          match skip_ws l with
          | 34%N :: r =>
              match parse_chars r [] with
              | Some (k, r) =>
                  match skip_ws r with
                  | 58%N :: r =>
                      match parse fuel Value r with
                      | Some (v, r) =>
                          match skip_ws r with
                          | 44%N :: r =>
                              parse fuel (Members ((JS.of_bytes k, v) :: acc)) r
                          | 125%N :: r =>
                              Some (JObj (reverse ((JS.of_bytes k, v) :: acc)), r)
                          | _ => None
                          end
                      | None => None
                      end
                  | _ => None
                  end
              | None => None
              end
          | _ => None
          end
      end
  end.

(** [JSON.parse(text)]; [None] is a [SyntaxError]. *)
Definition parse_text (text : string) : option json :=
  let l := JS.bytes text in
  match parse (2 * length l + 2) Value l with
  | Some (v, r) =>
      match skip_ws r with
      | [] => Some v
      | _ => None
      end
  | None => None
  end.

End JSON.

Export JSON(json, JNull, JBool, JNum, JStr, JArr, JObj).

(** ** The storefront script (custom_button.js) *)

(** [s.replace(/pat/g, rep)] for a pattern without metacharacters: the
    occurrences are replaced from left to right, without overlap. *)
Fixpoint replace_bytes (pat rep : list N) (fuel : nat) (l : list N) : list N :=
  match fuel with
  | O => l
  | S fuel =>
      match l with
      | [] => []
      | b :: rest =>
          if JS.starts_with pat l
          then rep ++ replace_bytes pat rep fuel (drop (length pat) l)
          else b :: replace_bytes pat rep fuel rest
      end
  end.

Definition replace_all (pat rep : string) (s : string) : string :=
  JS.of_bytes (replace_bytes (JS.bytes pat) (JS.bytes rep)
                 (length (JS.bytes s)) (JS.bytes s)).

(** [\w] *)
Definition is_word (b : N) : bool :=
  ((48 <=? b) && (b <=? 57) || (65 <=? b) && (b <=? 90)
   || (97 <=? b) && (b <=? 122) || (b =? 95))%N.

(** The replacement of the key pattern: an opening brace or a comma, any
    white space, one or more word characters and a colon; the word is put
    between double quotes. At a brace or comma the longest run of white
    space and then the longest run of word characters are taken; as neither
    class contains a character of the other nor the colon, no shorter run
    can match where these do not. *)
Fixpoint quote_keys (fuel : nat) (l : list N) : list N :=
  match fuel with
  | O => l
  | S fuel =>
      match l with
      | [] => []
      | b :: rest =>
          let after_space := JS.strip JS.whitespace (length rest) rest in
          let space := take (length rest - length after_space) rest in
          let word := JS.take_while is_word after_space in
          match JS.drop_while is_word after_space with
          | 58%N :: after =>
              if bool_decide (b ∈ [123; 44]%N) && negb (bool_decide (word = []))
              then b :: space ++ [34%N] ++ word ++ [34; 58]%N ++ quote_keys fuel after
              else b :: quote_keys fuel rest
          | _ => b :: quote_keys fuel rest
          end
      end
  end.

(** The text of the second parse attempt: entities decoded, then [=>]
    turned into [:] and bare keys quoted. *)
Definition decoded (externalLinksData : string) : string :=
  let decoded :=
    replace_all "&gt;" ">"
      (replace_all "&lt;" "<"
         (replace_all "&amp;" "&"
            (replace_all "&#39;" "'"
               (replace_all "&quot;" (JS.dq "'") externalLinksData)))) in
  let arrows := JS.bytes (replace_all "=>" ":" decoded) in
  JS.of_bytes (quote_keys (length arrows) arrows).

(** How a function call ends. *)
Inductive completion := normal | abrupt.

(** What [getBlockSettings] reads: a [data-block-*] value is [true],
    [false], a number or the string itself. *)
Record BlockSettings := mkSettings {
  button_preset : option json;
  show_tracking_notice : option json;
  tracking_notice_text : option json
}.

(** A rendered button. [data_external_url] and [textContent] hold the
    values the script assigns, before the DOM turns them into strings. *)
Record Button := mkButton {
  className : string;
  data_external_url : option json;
  data_button_index : nat;
  data_product_id : string;
  textContent : json
}.

Inductive Node :=
| button (b : Button)
| notice (textContent : json).

(** [s.replace('_', '-')]: the first underscore only. *)
Fixpoint replace_first (l : list N) : list N :=
  match l with
  | [] => []
  | b :: rest => if (b =? 95)%N then 45%N :: rest else b :: replace_first rest
  end.

(** [`[data-product-id="${productId}"]`] *)
Definition product_selector (productId : string) : string :=
  JS.dq "[data-product-id='" +:+ productId +:+ JS.dq "']".

(** What [container.querySelector(`#external-buttons-${productId}`)]
    does: it throws on a selector it cannot parse, finds nothing, or finds
    the element, given here by its children. *)
Inductive Lookup :=
| lookup_throws
| lookup_null
| lookup_element (children : list Node).

(** An element of class [custom-external-button-container]. *)
Record Container := mkContainer {
  attributes : list (string * string);
  target : Lookup
}.

(** [container.getAttribute(name)] *)
Definition getAttribute (c : Container) (name : string) : option string :=
  FormData.get name (attributes c).

(** What [init] does to the page, in order: a call of [initHideATC] with
    its [productId] and [customSelector], a call of
    [renderExternalButtons] on the target of the container at [index]. *)
Inductive Event :=
| hide_atc (index : nat) (productId customSelector : option string)
| render (index : nat).

Section Storefront.

(** [JSON.parse]; [None] is a thrown [SyntaxError]. *)
Variable JSON_parse : string -> option json.

(** [this.getBlockSettings(document.querySelector(selector))]; [None] when
    [querySelector] throws on the selector. The element found is taken
    not to change while one container is rendered (in [init] it is the
    container itself, which precedes the buttons put into it). *)
Variable blockSettings : string -> option BlockSettings.

(** The filter callback
    [link => link.enabled && link.url && link.url.trim() !== ''];
    [None] is a [TypeError]: [link] is [null], or [link.url] is truthy
    and has no [trim] method. *)
Definition enabled_link (link : json) : option bool :=
  match JSON.get link "enabled" with
  | None => None
  | Some e =>
      if negb (JSON.truthy e) then Some false
      else
        match JSON.get link "url" with
        | None => None
        | Some u =>
            if negb (JSON.truthy u) then Some false
            else match u with
                 | Some (JStr s) => Some (negb (bool_decide (JS.trim s = "")))
                 | _ => None
                 end
        end
  end.

(** [items.filter(callback)] with a callback that may throw. *)
Fixpoint filter_links (items : list json) : option (list json) :=
  match items with
  | [] => Some []
  | link :: rest =>
      shown ← enabled_link link;
      others ← filter_links rest;
      Some (if (shown : bool) then link :: others else others)
  end.

(** [externalLinks.filter(...)]: only an array has [filter]. *)
Definition enabledLinks (externalLinks : json) : option (list json) :=
  match externalLinks with
  | JArr items => filter_links items
  | _ => None
  end.

Definition createButton (linkData : json) (index : nat) (productId : string)
  : option Button :=
  url ← JSON.get linkData "url";
  settings ← blockSettings (product_selector productId);
  preset ← match (if JSON.truthy (button_preset settings)
                  then button_preset settings
                  else Some (JStr "primary_medium")) with
           | Some (JStr p) => Some p
           | _ => None
           end;
  text ← JSON.get linkData "text";
  Some {| className := "external-link-button" +:+ " preset-"
                       +:+ JS.of_bytes (replace_first (JS.bytes preset));
          data_external_url := url;
          data_button_index := index;
          data_product_id := productId;
          textContent := if JSON.truthy text then default JNull text
                         else JStr "External Link" |}.

(** [enabledLinks.forEach((link, index) => container.appendChild(
    this.createButton(link, index, productId)))]: the buttons appended
    before a throw stay. *)
Fixpoint append_buttons (links : list json) (index : nat) (productId : string)
    (container : list Node) : completion * list Node :=
  match links with
  | [] => (normal, container)
  | link :: rest =>
      match createButton link index productId with
      | Some b => append_buttons rest (S index) productId (container ++ [button b])
      | None => (abrupt, container)
      end
  end.

(** From [container.innerHTML = ''] on, for the parsed [externalLinks]. *)
Definition render_parsed (externalLinks : json) (productId : string)
  : completion * list Node :=
  let container := [] in
  match enabledLinks externalLinks with
  | None => (abrupt, container)
  | Some [] => (normal, container)
  | Some links =>
      match blockSettings (product_selector productId) with
      | None => (abrupt, container)
      | Some settings =>
          match append_buttons links 0 productId container with
          | (abrupt, container) => (abrupt, container)
          | (normal, container) =>
              if JSON.truthy (show_tracking_notice settings)
                 && JSON.truthy (tracking_notice_text settings)
              then (normal,
                    (container
                     ++ [notice (default JNull (tracking_notice_text settings))])%list)
              else (normal, container)
          end
      end
  end.

(** The body of [renderExternalButtons], inside its [try]: how it ends,
    the children of [container] then, and the texts handed to
    [JSON.parse], in order. [externalLinksData] is [None] for an argument
    that is not a string. *)
Definition renderExternalButtons_body (container : list Node)
    (externalLinksData : option string) (productId : string)
  : completion * list Node * list string :=
  match externalLinksData with
  | None => (normal, container, [])
  | Some data =>
      if JS.falsy data || bool_decide (JS.trim data = "") || bool_decide (data = "[]")
      then (normal, [], [])
      else
        match JSON_parse data with
        | Some externalLinks =>
            (render_parsed externalLinks productId, [data])
        | None =>
            match JSON_parse (decoded data) with
            | Some externalLinks =>
                (render_parsed externalLinks productId, [data; decoded data])
            | None => (normal, [], [data; decoded data])
            end
        end
  end.

(** [renderExternalButtons]: [try { ... } catch (error) { }]. *)
Definition renderExternalButtons (container : list Node)
    (externalLinksData : option string) (productId : string)
  : completion * list Node * list string :=
  match renderExternalButtons_body container externalLinksData productId with
  | (_, container, parsed) => (normal, container, parsed)
  end.

(** The body of the [forEach] of [init], with its [try]/[catch]. *)
Definition init_container (index : nat) (container : Container)
  : Container * list Event :=
  let productId := getAttribute container "data-product-id" in
  let hideAtc := bool_decide (getAttribute container "data-hide-atc" = Some "true") in
  let externalLinksData := getAttribute container "data-external-links" in
  let atcOverrideSelector := getAttribute container "data-atc-override-selector" in
  let hidden := if hideAtc then [hide_atc index productId atcOverrideSelector] else [] in
  match externalLinksData with
  | Some data =>
      if negb (JS.falsy data) && negb (bool_decide (JS.trim data = ""))
         && negb (bool_decide (data = "[]"))
      then
        match target container with
        | lookup_element children =>
            let '(_, children, _) :=
              renderExternalButtons children (Some data) (default "null" productId) in
            (mkContainer (attributes container) (lookup_element children),
             hidden ++ [render index])
        | lookup_null | lookup_throws => (container, hidden)
        end
      else (container, hidden)
  | None => (container, hidden)
  end.

(** [init]: every container found by
    [document.querySelectorAll('.custom-external-button-container')] is
    processed, in document order. *)
Definition init (document : list Container)
  : completion * list Container * list Event :=
  let processed := imap init_container document in
  (normal, fst <$> processed, mjoin (snd <$> processed)).

End Storefront.

(** The children of a rendered target that are buttons. *)
Definition buttons (children : list Node) : list Button :=
  omap (fun n => match n with button b => Some b | notice _ => None end) children.


(** The claim's filter, in its own words: [enabled === true] and a [url]
    that is not blank after trimming. *)
Definition strictly_enabled (link : json) : bool :=
  match JSON.get link "enabled", JSON.get link "url" with
  | Some (Some (JBool true)), Some (Some (JStr s)) =>
      negb (bool_decide (JS.trim s = ""))
  | _, _ => false
  end.

(** The filter of the code on entries it does not throw on: a truthy
    [enabled] and a string [url] that is not blank after trimming. *)
Definition shown (link : json) : bool :=
  match JSON.get link "enabled", JSON.get link "url" with
  | Some e, Some (Some (JStr s)) =>
      JSON.truthy e && negb (bool_decide (JS.trim s = ""))
  | _, _ => false
  end.

(** An entry the filter callback does not throw on: not [null], and if its
    [enabled] is truthy, its [url] is falsy or a string. *)
Definition filterable (link : json) : Prop :=
  ∃ e u, JSON.get link "enabled" = Some e ∧ JSON.get link "url" = Some u
         ∧ (JSON.truthy e = true → JSON.truthy u = false ∨ ∃ s, u = Some (JStr s)).

(** The button made for the entry [link] at position [index] of the
    filtered array, under the preset [preset]. *)
Definition button_of (preset productId : string) (index : nat) (link : json) : Button :=
  {| className := "external-link-button" +:+ " preset-"
                  +:+ JS.of_bytes (replace_first (JS.bytes preset));
     data_external_url := default None (JSON.get link "url");
     data_button_index := index;
     data_product_id := productId;
     textContent :=
       let text := default None (JSON.get link "text") in
       if JSON.truthy text then default JNull text else JStr "External Link" |}.

(** Settings under which [createButton] does not throw: the preset is
    falsy (the default is taken) or a string. *)
Definition usable_preset (settings : BlockSettings) : option string :=
  match (if JSON.truthy (button_preset settings)
         then button_preset settings
         else Some (JStr "primary_medium")) with
  | Some (JStr p) => Some p
  | _ => None
  end.

(** The record of the admin side, as the JSON value it is stored as. *)
Definition to_json (link : ExternalLink) : json :=
  JObj [("url", JStr (url link)); ("text", JStr (text link));
        ("enabled", JBool (enabled link))].

(** Block settings of a page without [data-block-*] surprises. *)
Definition default_settings : string -> option BlockSettings := fun _ =>
  Some (mkSettings (Some (JStr "primary_medium")) (Some (JBool false))
          (Some (JStr "This is an affiliate link - we may earn a commission"))).


(** ** The route's [loader] (revision with the auto-install gate) *)

(** An entry of [configuredProducts]. The fields typed [string] and
    [ExternalLink[]] in the route hold whatever [JSON.parse] gave, so they
    are JSON values here. *)
Record Product := mkProduct {
  product_id : string;
  title : string;
  handle : string;
  externalUrl : json;
  buttonText : json;
  isEnabled : bool;
  product_hideAtc : bool;
  hasMetafields : bool;
  hasMultipleLinks : bool;
  product_externalLinks : json
}.

(** [metafields.forEach(mf => { metafieldMap[mf.key] = mf.value })] *)
Definition metafieldMap (metafields : list MetafieldNode) : gmap string string :=
  foldl (fun m mf => <[mf_key mf := mf_value mf]> m) ∅ metafields.

(** [externalLinks.find(link => link.enabled === true)]: the first entry
    whose [enabled] is [true]; the outer [None] is a [TypeError] on a [null]
    entry met before one is found. *)
Fixpoint find_enabled (items : list json) : option (option json) :=
  match items with
  | [] => Some None
  | link :: rest =>
      match JSON.get link "enabled" with
      | None => None
      | Some (Some (JBool true)) => Some (Some link)
      | Some _ => find_enabled rest
      end
  end.

(** [v || ""] *)
Definition or_empty (v : option json) : json :=
  if JSON.truthy v then default JNull v else JStr "".

(** [s1.includes(s2)] *)
Fixpoint includes_bytes (needle l : list N) : bool :=
  JS.starts_with needle l
  || match l with
     | [] => false
     | _ :: rest => includes_bytes needle rest
     end.

Definition includes (s needle : string) : bool :=
  includes_bytes (JS.bytes needle) (JS.bytes s).

(** [s.replace(pat, '')] for a string pattern: the first occurrence goes. *)
Fixpoint remove_first (pat l : list N) : list N :=
  if JS.starts_with pat l then drop (length pat) l
  else match l with
       | [] => []
       | b :: rest => b :: remove_first pat rest
       end.

(** What the template surgery of [autoInstallAppBlock] (its steps 3 to 5,
    between reading the template and writing it back) comes to. *)
Inductive Patch :=
| invalid_template_json
| already_installed
| no_suitable_section
| patched (body : string)
| patch_throws (error_message : string).

(** [{ success, status, message }] *)
Record InstallResult := mkInstall {
  install_success : bool;
  status : string;
  install_message : string
}.

(** What the loader hands to [json(...)]. *)
Record LoaderData := mkLoaderData {
  themeEditorUrl : option string;
  configuredProducts : list Product;
  shopDomain : string;
  blockAutoInstalled : bool;
  blockInstallationStatus : string
}.

Section Loader.

Variable JSON_parse : string -> option json.

(** [externalLinks.length > 1] for a parsed value that is neither an
    array nor [null] (a string, a number, an object): left to the engine. *)
Variable length_exceeds_one : json -> bool.

(** The template surgery, for the body of the template file; it draws on
    [Date.now()] for the block id. *)
Variable patchTemplate : string -> Patch.

(** [new Date().toISOString()] *)
Variable now : string.

(** The callback of [allProducts.map]; [None] is a [TypeError] that
    leaves the callback ([externalLinks.length] on [null]). *)
Definition productData (product : ProductNode) : option Product :=
  let metafields := default [] (node_metafields product) in
  let map := metafieldMap metafields in
  let legacy :=
    (JArr [],
     JStr (JS.opt_or (map !! "button_text") ""),
     JStr (JS.opt_or (map !! "external_url") ""),
     bool_decide (map !! "is_enabled" = Some "true")) in
  let '(externalLinks, buttonText, externalUrl, isEnabled) :=
    match map !! "external_links" with
    | Some value =>
        if JS.falsy value then legacy
        else
          match JSON_parse value with
          | Some (JArr items) =>
              match find_enabled items with
              | Some (Some enabledLink) =>
                  (JArr items,
                   or_empty (default None (JSON.get enabledLink "text")),
                   or_empty (default None (JSON.get enabledLink "url")),
                   true)
              | _ => (JArr items, JStr "", JStr "", false)
              end
          | Some parsed => (parsed, JStr "", JStr "", false)
          | None => (JArr [], JStr "", JStr "", false)
          end
    | None => legacy
    end in
  hasMultipleLinks ←
    match externalLinks with
    | JArr items => Some (1 <? length items)%nat
    | JNull => None
    | parsed => Some (length_exceeds_one parsed)
    end;
  Some {| product_id := node_id product;
          title := node_title product;
          handle := node_handle product;
          externalUrl := externalUrl;
          buttonText := buttonText;
          isEnabled := isEnabled;
          product_hideAtc := bool_decide (map !! "hide_atc" = Some "true");
          hasMetafields := (0 <? length metafields)%nat;
          hasMultipleLinks := hasMultipleLinks;
          product_externalLinks := externalLinks |}.

(** [configuredProducts] after the products query, inside its [try]. *)
Definition loadProducts : Remote (list Product) :=
  try_catch
    (productsData ← graphql (getProductsWithMetafields "bl_custom_button");
     match errors productsData, data productsData with
     | None, Some (data_products allProducts) =>
         match mapM productData allProducts with
         | Some products => Ret (List.filter hasMetafields products)
         | None => Throw "TypeError"
         end
     | _, _ => Ret []
     end)
    (fun _ => Ret []).

(** [themeEditorUrl] after the themes query. *)
Definition loadThemeEditorUrl (shop : string) : Remote (option string) :=
  try_catch
    (themeData ← graphql getThemes;
     match errors themeData, data themeData with
     | None, Some (data_themes nodes) =>
         match List.find (fun theme => bool_decide (role theme = "MAIN")) nodes with
         | Some activeTheme =>
             let themeId :=
               JS.of_bytes (remove_first (JS.bytes "gid://shopify/Theme/")
                              (JS.bytes (theme_id activeTheme))) in
             Ret (Some ("https://" +:+ shop +:+ "/admin/themes/" +:+ themeId +:+ "/editor"))
         | None => Ret None
         end
     | _, _ => Ret None
     end)
    (fun _ => Ret (Some ("https://" +:+ shop +:+ "/admin/themes"))).

(** [checkAutoInstallStatus]: is the sentinel there? A failure of the
    query counts as "no". *)
Definition checkAutoInstallStatus : Remote bool :=
  try_catch
    (response ← graphql currentAppInstallation_block_installed;
     match data response with
     | Some (data_currentAppInstallation nodes) => Ret (0 <? length nodes)%nat
     | _ => Ret false
     end)
    (fun _ => Ret false).

(** [markAutoInstallComplete]: the reply is not read, a throw is caught. *)
Definition markAutoInstallComplete : Remote unit :=
  try_catch
    (graphql (metafieldsSet
       [mkInput "auto_install" None "block_installed" now "single_line_text_field"]);;
     Ret ())
    (fun _ => Ret ()).

Definition autoInstallAppBlock : Remote InstallResult :=
  try_catch
    (themeData ← graphql themes_MAIN;
     match data themeData with
     | Some (data_themes (activeTheme :: _)) =>
         filesData ← graphql (getThemeFiles (theme_id activeTheme));
         match data filesData with
         | Some (data_theme (Some files)) =>
             let productTemplates :=
               List.filter (fun file => includes (filename file) "product"
                                        && includes (filename file) ".json") files in
             match productTemplates with
             | [] => Ret (mkInstall false "no_product_template" "No product template found")
             | productTemplate :: _ =>
                 match patchTemplate (body productTemplate) with
                 | invalid_template_json =>
                     Ret (mkInstall false "invalid_template_json"
                            "Could not parse template JSON")
                 | already_installed =>
                     markAutoInstallComplete;;
                     Ret (mkInstall true "already_installed"
                            "Block already exists in template")
                 | no_suitable_section =>
                     Ret (mkInstall false "no_suitable_section"
                            "Could not find suitable section to add block")
                 | patch_throws error_message => Throw error_message
                 | patched newBody =>
                     updateData ← graphql (themeFilesUpsert (theme_id activeTheme)
                                             [mkFile (filename productTemplate) newBody]);
                     match data updateData with
                     | Some (data_themeFilesUpsert (e :: _)) =>
                         Ret (mkInstall false "update_failed" (message e))
                     | _ =>
                         markAutoInstallComplete;;
                         Ret (mkInstall true "installed"
                                "App block successfully added to theme")
                     end
                 end
             end
         | _ => Ret (mkInstall false "no_theme_files" "Could not read theme files")
         end
     | _ => Ret (mkInstall false "no_active_theme" "No active theme found")
     end)
    (fun error_message => Ret (mkInstall false "error" error_message)).

(** The auto-install step of the loader: [blockAutoInstalled] and
    [blockInstallationStatus]. *)
Definition autoInstall (configuredProducts : list Product) : Remote (bool * string) :=
  try_catch
    (autoInstallAttempted ← checkAutoInstallStatus;
     if negb autoInstallAttempted && (0 <? length configuredProducts)%nat
     then
       installResult ← autoInstallAppBlock;
       Ret (install_success installResult, status installResult)
     else if autoInstallAttempted then Ret (false, "previously_attempted")
     else Ret (false, "not_attempted"))
    (fun _ => Ret (false, "error")).

(** [export const loader], after authentication, for the shop [shop]. *)
Definition loader (shop : string) : Remote LoaderData :=
  themeEditorUrl ← loadThemeEditorUrl shop;
  configuredProducts ← loadProducts;
  installed ← autoInstall configuredProducts;
  Ret (mkLoaderData themeEditorUrl configuredProducts shop installed.1 installed.2).

End Loader.

(** ** Vocabulary of the statements *)

(** The [metafieldsDelete] call a save issues for the nodes [toDelete]:
    none when there is nothing to delete. *)
Definition delete_requests (productId : string) (toDelete : list MetafieldNode)
  : list Request :=
  if (0 <? length toDelete)%nat
  then [metafieldsDelete
          ((fun mf => mkIdent productId METAFIELD_NAMESPACE (mf_key mf)) <$> toDelete)]
  else [].

(** [formData] is a save request for the product [productId]. *)
Definition save_request (formData : FormData.t) (productId : string) : Prop :=
  FormData.get "actionType" formData = Some "save"
  ∧ FormData.get "productId" formData = Some productId
  ∧ productId ≠ "".

(** [formData] is a delete request for the product [productId]. *)
Definition delete_request (formData : FormData.t) (productId : string) : Prop :=
  FormData.get "actionType" formData = Some "delete"
  ∧ FormData.get "productId" formData = Some productId
  ∧ productId ≠ "".

(** The remote side answers the save's read of the existing metafields with
    [existingData], and its delete call, if one is issued, does not throw. *)
Definition reaches_upsert (env : Env) (productId : string)
    (existingData : GraphQLResponse) : Prop :=
  env [] (getProductMetafields productId) = Json existingData
  ∧ ∀ metafields error_message,
      env [getProductMetafields productId] (metafieldsDelete metafields)
      ≠ Threw error_message.

(** A field name that does not begin with [link_]. *)
Definition plain_name (name : string) : Prop :=
  ∀ rest, name ≠ "link_" +:+ rest.

(** The remote [id] an upsert of [key] carries: that of the existing node
    under [key], if there is one and its id is not empty. *)
Definition update_target (existing : list MetafieldNode) (key : string)
  : option string :=
  match existingMetafieldMap existing !! key with
  | Some mf => if JS.falsy (mf_id mf) then None else Some (mf_id mf)
  | None => None
  end.

(** A sample remote side: the product has a stale [hide_atc] entry next to
    its [external_links], and every mutation is accepted. *)
Definition sample_existing : list MetafieldNode :=
  [ mkNode "gid://shopify/Metafield/1" "hide_atc" "true" "single_line_text_field";
    mkNode "gid://shopify/Metafield/2" "external_links" "[]" "json" ].

Definition sample_env : Env := fun _ q =>
  match q with
  | getProductMetafields _ | getProductMetafieldKeys _ =>
      Json (mkResponse None (Some (data_product (Some ("Mug", sample_existing)))))
  | metafieldsDelete _ => Json (mkResponse None (Some (data_metafieldsDelete [])))
  | productUpdate _ _ => Json (mkResponse None (Some (data_productUpdate [])))
  | _ => Json (mkResponse None None)
  end.

(** The same remote side, except that it refuses every [metafieldsDelete]
    with a user error. *)
Definition refusing_env : Env := fun hist q =>
  match q with
  | metafieldsDelete _ =>
      Json (mkResponse None
              (Some (data_metafieldsDelete [mkError "Access denied for metafieldsDelete"])))
  | _ => sample_env hist q
  end.

(** The sentinel [(auto_install, block_installed)] is there: the remote
    side answers the sentinel query, after the requests [hist], with at
    least one node. *)
Definition sentinel_exists (env : Env) (hist : list Request) : Prop :=
  ∃ response node nodes,
    env hist currentAppInstallation_block_installed = Json response
    ∧ data response = Some (data_currentAppInstallation (node :: nodes)).

(** Requests that read or write a theme. *)
Definition theme_request (q : Request) : bool :=
  match q with
  | getThemes | themes_MAIN | getThemeFiles _ | themeFilesUpsert _ _ => true
  | _ => false
  end.

(** A remote side with one theme and one product template, that keeps the
    sentinel once it has been set. *)
Definition sample_shop : Env := fun hist q =>
  match q with
  | currentAppInstallation_block_installed =>
      Json (mkResponse None (Some (data_currentAppInstallation
        (if existsb (fun q => match q with metafieldsSet _ => true | _ => false end) hist
         then [mkNode "gid://shopify/Metafield/9" "block_installed"
                 "2024-01-15T10:30:00.000Z" "single_line_text_field"]
         else []))))
  | themes_MAIN | getThemes =>
      Json (mkResponse None (Some (data_themes
        [mkTheme "gid://shopify/OnlineStoreTheme/7" "Dawn" "MAIN"])))
  | getThemeFiles _ =>
      Json (mkResponse None (Some (data_theme (Some
        [mkFile "templates/product.json" "{}"]))))
  | themeFilesUpsert _ _ => Json (mkResponse None (Some (data_themeFilesUpsert [])))
  | metafieldsSet _ => Json (mkResponse None (Some (data_metafieldsSet [])))
  | _ => Json (mkResponse None None)
  end.

Definition sample_product : Product :=
  mkProduct "gid://shopify/Product/1" "Mug" "mug" (JStr "") (JStr "") false false
    true false (JArr []).

(** A product that has the legacy keys only. *)
Definition legacy_product : ProductNode :=
  mkProductNode "gid://shopify/Product/1" "Mug" "mug"
    (Some [ mkNode "gid://shopify/Metafield/1" "external_url" "https://a.com"
              "single_line_text_field";
            mkNode "gid://shopify/Metafield/2" "button_text" "Buy at A"
              "single_line_text_field";
            mkNode "gid://shopify/Metafield/3" "is_enabled" "true"
              "single_line_text_field" ]).

(** ** The earlier revision of the save branch (app/routes/app._index.tsx)

    Before the reconciler, a save deleted every metafield of the namespace
    and created the new ones; [external_links] was created only for a
    non-empty array. *)

Module Earlier.

(** [value === "on" || (value === null && hidden === "true")] *)
Definition checked (value hidden : option string) : bool :=
  bool_decide (value = Some "on")
  || (bool_decide (value = None) && bool_decide (hidden = Some "true")).

Definition form_link (formData : FormData.t) (linkIndex : nat) : ExternalLink :=
  {| url := JS.opt_or (FormData.get ("link_" +:+ JS.of_nat linkIndex +:+ "_url") formData) "";
     text := JS.opt_or (FormData.get ("link_" +:+ JS.of_nat linkIndex +:+ "_text") formData) "";
     enabled :=
       checked (FormData.get ("link_" +:+ JS.of_nat linkIndex +:+ "_enabled") formData)
         (FormData.get ("link_" +:+ JS.of_nat linkIndex +:+ "_enabled_hidden") formData) |}.

Definition form_links (formData : FormData.t) : list ExternalLink :=
  let linkCount := JS.parseInt (JS.opt_or (FormData.get "linkCount" formData) "0") in
  form_link formData <$> seq 0 (JS.iterations linkCount).

Definition form_hideAtc (formData : FormData.t) : bool :=
  checked (FormData.get "hideAtc" formData) (FormData.get "hideAtc_hidden" formData).

Definition metafieldsToCreate (externalLinks : list ExternalLink) (hideAtc : bool)
  : list SaveField :=
  (if (0 <? length externalLinks)%nat
   then [mkField None "external_links" (JSON_stringify externalLinks) "json"]
   else [])
  ++ (if hideAtc
      then [mkField None "hide_atc" "true" "single_line_text_field"]
      else []).

(** The read of this revision asks for [nodes { key }] only. *)
Definition save (productId : string) (formData : FormData.t) : Remote ActionData :=
  let hideAtc := form_hideAtc formData in
  let externalLinks := form_links formData in
  deleteData ← graphql (getProductMetafields productId);
  let nodes := product_nodes deleteData in
  (if (0 <? length nodes)%nat
   then graphql (metafieldsDelete
          ((fun mf => mkIdent productId METAFIELD_NAMESPACE (mf_key mf)) <$> nodes));;
        Ret ()
   else Ret ());;
  let toCreate := metafieldsToCreate externalLinks hideAtc in
  if (0 <? length toCreate)%nat
  then
    saveData ← graphql (productUpdate productId (to_input <$> toCreate));
    match errors saveData, productUpdate_userErrors saveData with
    | Some errs, _ =>
        Ret (failed ("Failed to save: " +:+ JS.join ", " (message <$> errs)))
    | None, Some (e :: userErrors) =>
        Ret (failed ("Failed to save: " +:+ JS.join ", " (message <$> e :: userErrors)))
    | None, _ => Ret (ok "Product configuration saved successfully!")
    end
  else Ret (ok "Product configuration saved successfully!").

Definition action (formData : FormData.t) : Remote ActionData :=
  try_catch
    (let actionType := FormData.get "actionType" formData in
     let productId := FormData.get "productId" formData in
     match productId with
     | Some id =>
         if JS.falsy id then Ret (failed "Invalid action")
         else if bool_decide (actionType = Some "save") then save id formData
         else if bool_decide (actionType = Some "delete") then delete id
         else Ret (failed "Invalid action")
     | None => Ret (failed "Invalid action")
     end)
    (fun error_message =>
       Ret (failed ("Failed to delete product configuration: " +:+ error_message))).

End Earlier.

(** ** The editor state (revision with the reconciler)

    [expandedProducts] maps a product id to its [ExpandedProduct]. The
    flags [isExpanded], [isEditing] and [isSaving], which the functions
    below copy unchanged, are not part of the state here. *)

(** The fields of a loaded [Product] the editor reads. *)
Record LoadedProduct := mkLoaded {
  loaded_id : string;
  loaded_links : list ExternalLink;
  loaded_hideAtc : bool
}.

(** The three ways the form calls [updateExternalLink]. *)
Inductive FieldValue :=
| text_value (value : string)
| url_value (value : string)
| enabled_value (checked : bool).

(** [{ ...link, [field]: value }] *)
Definition updatedLink (link : ExternalLink) (value : FieldValue) : ExternalLink :=
  match value with
  | text_value s => mkLink (url link) s (enabled link)
  | url_value s => mkLink s (text link) (enabled link)
  | enabled_value b => mkLink (url link) (text link) b
  end.

(** [updateExternalLink]: the link at [index] takes the value; without an
    entry for the product the state is returned as it is. *)
Definition updateExternalLink (productId : string) (index : nat) (value : FieldValue)
    (prev : gmap string ExpandedProduct) : gmap string ExpandedProduct :=
  match prev !! productId with
  | None => prev
  | Some current =>
      <[productId :=
          mkExpanded
            (imap (fun i link => if bool_decide (i = index) then updatedLink link value
                                 else link)
               (externalLinks current))
            (hideAtc current)]> prev
  end.

(** [addExternalLink]: an empty, enabled row is put before the others. *)
Definition addExternalLink (productId : string) (prev : gmap string ExpandedProduct)
  : gmap string ExpandedProduct :=
  match prev !! productId with
  | None => prev
  | Some current =>
      <[productId :=
          mkExpanded (mkLink "" "" true :: externalLinks current) (hideAtc current)]> prev
  end.

(** [removeExternalLink]: [externalLinks.filter((_, i) => i !== index)]. *)
Definition removeExternalLink (productId : string) (index : nat)
    (prev : gmap string ExpandedProduct) : gmap string ExpandedProduct :=
  match prev !! productId with
  | None => prev
  | Some current =>
      <[productId :=
          mkExpanded
            (omap id (imap (fun i link => if bool_decide (i = index) then None
                                          else Some link)
                        (externalLinks current)))
            (hideAtc current)]> prev
  end.

(** [toggleProductExpansion] for a product without an entry: the entry is
    made from the loaded product. (With an entry only [isExpanded] flips.) *)
Definition toggleProductExpansion (product : LoadedProduct)
    (prev : gmap string ExpandedProduct) : gmap string ExpandedProduct :=
  match prev !! loaded_id product with
  | Some _ => prev
  | None =>
      <[loaded_id product :=
          mkExpanded (loaded_links product) (loaded_hideAtc product)]> prev
  end.

(** [configuredProducts.find(p => p.id === productId)] *)
Definition originalProduct (configuredProducts : list LoadedProduct) (productId : string)
  : option LoadedProduct :=
  List.find (fun p => bool_decide (loaded_id p = productId)) configuredProducts.

(** The state part of [handleSaveBarDiscard]: the entry of the product
    being saved goes back to the loaded links and flag. *)
Definition handleSaveBarDiscard (currentSavingProductId : option string)
    (configuredProducts : list LoadedProduct) (prev : gmap string ExpandedProduct)
  : gmap string ExpandedProduct :=
  match currentSavingProductId with
  | None => prev
  | Some productId =>
      match originalProduct configuredProducts productId with
      | None => prev
      | Some original =>
          <[productId := mkExpanded (loaded_links original) (loaded_hideAtc original)]> prev
      end
  end.

(** The comparison inside the loop of [hasUnsavedChanges]. *)
Definition link_differs (current original : ExternalLink) : bool :=
  negb (bool_decide (url current = url original))
  || negb (bool_decide (text current = text original))
  || negb (bool_decide (enabled current = enabled original)).

(** [hasUnsavedChanges] *)
Definition hasUnsavedChanges (expandedProducts : gmap string ExpandedProduct)
    (configuredProducts : list LoadedProduct) (productId : string) : bool :=
  match expandedProducts !! productId, originalProduct configuredProducts productId with
  | Some expandedProduct, Some original =>
      if negb (bool_decide (hideAtc expandedProduct = loaded_hideAtc original)) then true
      else
        let currentLinks := validLinks (externalLinks expandedProduct) in
        let originalLinks := validLinks (loaded_links original) in
        if negb (bool_decide (length currentLinks = length originalLinks)) then true
        else
          existsb
            (fun i =>
               match currentLinks !! i, originalLinks !! i with
               | Some current, Some original => link_differs current original
               | _, _ => false
               end)
            (seq 0 (length currentLinks))
  | _, _ => false
  end.

(** The forms the product picker submits: one per selected product that
    is not configured yet, in the order of the selection. *)
Definition newProducts (configuredProducts : list LoadedProduct) (selection : list string)
  : list string :=
  List.filter
    (fun selected =>
       negb (bool_decide (is_Some (originalProduct configuredProducts selected))))
    selection.

(** What a render of [Index] hands to the [useCallback] of the picker:
    its dependencies, [shopify] (an object, compared by identity) and
    [isLoadingPicker], and the [configuredProducts] a closure made in
    this render captures. *)
Record Render := mkRender {
  render_shopify : nat;
  render_isLoadingPicker : bool;
  render_configuredProducts : list LoadedProduct
}.

(** The dependencies [[shopify, isLoadingPicker]] of two renders are the
    same. *)
Definition same_deps (a b : Render) : bool :=
  bool_decide (render_shopify a = render_shopify b)
  && bool_decide (render_isLoadingPicker a = render_isLoadingPicker b).

(** [useCallback(fn, [shopify, isLoadingPicker])]: the render whose
    closure is in use after the renders [renders] (oldest first) that
    follow the render [created], in which the closure was made. A render
    keeps the closure unless a dependency differs from the one the closure
    was made with; [configuredProducts] is not a dependency. *)
Fixpoint useCallback (created : Render) (renders : list Render) : Render :=
  match renders with
  | [] => created
  | next :: renders =>
      if same_deps next created then useCallback created renders
      else useCallback next renders
  end.

(** [handleOpenProductPicker], called after the renders [first :: renders]
    with a picker that returns [selection]: the forms it submits, in
    order. It reads [isLoadingPicker] and [configuredProducts] from its
    closure. *)
Definition handleOpenProductPicker (first : Render) (renders : list Render)
    (selection : list string) : list FormData.t :=
  let closure := useCallback first renders in
  if render_isLoadingPicker closure then []
  else addProduct <$> newProducts (render_configuredProducts closure) selection.

(** A string of decimal digits only. *)
Definition digits_only (s : string) : Prop :=
  Forall (fun b => (48 <= b <= 57)%N) (JS.bytes s).

(** The name of the form field of link [index]: [`link_${index}${suffix}`]. *)
Definition link_field (index : nat) (suffix : string) : string :=
  "link_" +:+ JS.of_nat index +:+ suffix.

(** Requests that write: the sentinel, a theme file. *)
Definition is_metafieldsSet (q : Request) : bool :=
  match q with metafieldsSet _ => true | _ => false end.

Definition is_themeFilesUpsert (q : Request) : bool :=
  match q with themeFilesUpsert _ _ => true | _ => false end.

(** [metafields.length > 0] for a node of the products query. *)
Definition has_metafields (product : ProductNode) : bool :=
  (0 <? length (default [] (node_metafields product)))%nat.

(** The product's [external_links] record is not empty and parses to
    [null]. *)
Definition null_links (JSON_parse : string -> option json) (product : ProductNode)
  : Prop :=
  ∃ value,
    metafieldMap (default [] (node_metafields product)) !! "external_links" = Some value
    ∧ JS.falsy value = false
    ∧ JSON_parse value = Some JNull.

(** [sample_shop] with the products [nodes]. *)
Definition catalogue (nodes : list ProductNode) : Env := fun hist q =>
  match q with
  | getProductsWithMetafields _ => Json (mkResponse None (Some (data_products nodes)))
  | _ => sample_shop hist q
  end.

(** A product whose [external_links] record is the text [null]. *)
Definition null_product : ProductNode :=
  mkProductNode "gid://shopify/Product/2" "Cup" "cup"
    (Some [mkNode "gid://shopify/Metafield/4" "external_links" "null" "json"]).

(** The first link that is enabled. *)
Definition first_enabled (links : list ExternalLink) : option ExternalLink :=
  List.find enabled links.

(** A product whose [external_links] record holds a disabled link followed
    by an enabled one. *)
Definition linked_product : ProductNode :=
  mkProductNode "gid://shopify/Product/3" "Pot" "pot"
    (Some [mkNode "gid://shopify/Metafield/5" "external_links"
             (JS.dq "[{'url':'https://a.com','text':'Buy at A','enabled':false},{'url':'https://b.com','text':'Buy at B','enabled':true}]")
             "json"]).

(** A stored link the storefront shows: enabled, with a [url] that is not
    blank. *)
Definition visible (link : ExternalLink) : bool :=
  enabled link && negb (isEmptyLink link).

(** The button the storefront makes for the stored link [link]. *)
Definition storefront_button (preset productId : string) (index : nat)
    (link : ExternalLink) : Button :=
  {| className := "external-link-button" +:+ " preset-"
                  +:+ JS.of_bytes (replace_first (JS.bytes preset));
     data_external_url := Some (JStr (url link));
     data_button_index := index;
     data_product_id := productId;
     textContent := JStr (JS.or_else (text link) "External Link") |}.

(** A container [init] renders: its links attribute is there, is not
    blank and is not the text of the empty array, and its target is
    found. *)
Definition renderable (c : Container) : Prop :=
  ∃ data children,
    getAttribute c "data-external-links" = Some data
    ∧ JS.trim data ≠ "" ∧ data ≠ "[]"
    ∧ target c = lookup_element children.

(** ** Hiding the add-to-cart buttons (custom_button.js, [initHideATC]) *)

(** What the script reads and writes of a button: whether its
    [style.display] is [none], and the mark [data-clearify-hidden] it sets
    together with [visibility: hidden] and [opacity: 0]. *)
Record Style := mkStyle {
  display_none : bool;
  clearify_hidden : bool
}.

Definition defaultSelectors : list string :=
  [ JS.dq ".product-form__buttons button[name='add']";
    ".product-form__cart-submit";
    ".btn.product-form__cart-submit";
    JS.dq ".product-form .btn[type='submit']";
    ".product-form__buttons .product-form__cart-submit";
    ".product-form__buttons button.product-form__cart-submit";
    ".add-to-cart-button";
    ".btn-add-to-cart";
    ".product-add-to-cart";
    ".cart-submit-button";
    ".addtocart-button";
    ".add-cart-button";
    "#add-to-cart";
    "#AddToCart";
    "#product-add-to-cart";
    "#add-to-cart-button";
    "#addToCart";
    "#add_to_cart";
    JS.dq "button[type='submit'][name='add']";
    JS.dq "input[type='submit'][name='add']";
    ".shopify-payment-button__button--unbranded";
    ".product-submit-button";
    ".product-form button.btn";
    JS.dq ".product-form form button[type='submit']";
    JS.dq ".product-single__form button[type='submit']";
    JS.dq ".product-details form button[type='submit']";
    JS.dq ".product-info form button[type='submit']";
    ".add-to-cart";
    ".atc-button";
    ".buy-button";
    ".purchase-button";
    ".cart-button";
    ".buy-now-button";
    ".product-form__add-button";
    ".btn-addtocart";
    ".cart-btn";
    ".product-add";
    ".js-btn-addtocart";
    ".addToCart";
    JS.dq "form[action*='/cart/add'] button[type='submit']";
    JS.dq "form[action*='/cart/add'] input[type='submit']";
    JS.dq "form[action='/cart/add'] button";
    JS.dq "form[action='/cart/add'] input[type='submit']" ].

(** [selectors]: the defaults, after the trimmed custom selector if that
    is not blank. *)
Definition selectors (customSelector : option string) : list string :=
  match customSelector with
  | Some s =>
      if negb (JS.falsy s) && negb (JS.falsy (JS.trim s))
      then JS.trim s :: defaultSelectors
      else defaultSelectors
  | None => defaultSelectors
  end.

(** [detail] of the event [clearifyATCHideComplete]. *)
Record ATCHideComplete := mkComplete {
  hiddenCount : nat;
  attempts : nat;
  detail_productId : option string
}.

Section HideATC.

(** The elements of the page, each with its [Style]. *)
Variable element : Type.

(** [document.querySelectorAll(selector)] does not throw on [selector]. *)
Variable valid : string -> bool.

(** [selector] selects the element. *)
Variable matches : string -> element -> bool.

(** What the page has become when the timer set by attempt number
    [attempts] fires: themes add and change buttons after the script has
    run. *)
Variable later : nat -> list (element * Style) -> list (element * Style).

(** The callback of [buttons.forEach], for an element of the page: the
    element after it, and whether [hiddenCount] went up. *)
Definition hide_button (selector : string) (b : element * Style)
  : (element * Style) * bool :=
  if matches selector b.1 && negb (display_none b.2)
  then ((b.1, mkStyle true true), true)
  else (b, false).

(** The callback of [selectors.forEach], with its [try]/[catch], on the
    page and [hiddenCount]. *)
Definition hide_selector (state : list (element * Style) * nat) (selector : string)
  : list (element * Style) * nat :=
  if valid selector
  then
    let changed := hide_button selector <$> state.1 in
    (fst <$> changed, state.2 + length (List.filter snd changed))
  else state.

(** [hideAttempt], with [attempts] as it is before the call; [fuel] bounds
    the number of timers. *)
Fixpoint hideAttempt (fuel attempts maxAttempts : nat) (selectors : list string)
    (productId : option string) (page : list (element * Style))
  : option (list (element * Style) * ATCHideComplete) :=
  match fuel with
  | O => None
  | S fuel =>
      let attempts := S attempts in
      let '(page, hiddenCount) := foldl hide_selector (page, 0) selectors in
      if (hiddenCount =? 0)%nat && (attempts <? maxAttempts)%nat
      then hideAttempt fuel attempts maxAttempts selectors productId (later attempts page)
      else Some (page, mkComplete hiddenCount attempts productId)
  end.

(** [initHideATC({ productId, customSelector, retryAttempts, retryDelay })]:
    the page when the completion event is dispatched, and the event. *)
Definition initHideATC (productId customSelector : option string) (retryAttempts : nat)
    (page : list (element * Style))
  : option (list (element * Style) * ATCHideComplete) :=
  let maxAttempts := if (retryAttempts =? 0)%nat then 3 else retryAttempts in
  hideAttempt maxAttempts 0 maxAttempts (selectors customSelector) productId page.

(** Some selector of the list that the engine accepts selects the element. *)
Definition targeted (selectors : list string) (e : element) : bool :=
  existsb (fun selector => valid selector && matches selector e) selectors.

(** A button the script has yet to hide. *)
Definition to_hide (selectors : list string) (b : element * Style) : bool :=
  targeted selectors b.1 && negb (display_none b.2).

(** The page after one pass over the selectors. *)
Definition hidden_page (selectors : list string) (page : list (element * Style))
  : list (element * Style) :=
  (fun b => if to_hide selectors b then (b.1, mkStyle true true) else b) <$> page.

End HideATC.

Arguments hide_button {element}.
Arguments hide_selector {element}.
Arguments hideAttempt {element}.
Arguments initHideATC {element}.
Arguments targeted {element}.
Arguments to_hide {element}.
Arguments hidden_page {element}.

(** A sample page for [initHideATC]: elements are named by the one
    selector that selects them. *)
Definition sample_buttons : list (string * Style) :=
  [ ("#AddToCart", mkStyle false false);
    (".gallery", mkStyle false false);
    (".buy-button", mkStyle true false) ].

(** The delete call the earlier revision issues for the nodes [nodes]. *)
Definition wipe (productId : string) (nodes : list MetafieldNode) : Request :=
  metafieldsDelete
    ((fun mf => mkIdent productId METAFIELD_NAMESPACE (mf_key mf)) <$> nodes).

(** A remote side that accepts the delete and answers every
    [productUpdate] with a top-level error. *)
Definition failing_update_env : Env := fun hist q =>
  match q with
  | productUpdate _ _ => Json (mkResponse (Some [mkError "Throttled"]) None)
  | _ => sample_env hist q
  end.

(** A run after the requests [hist] stops at the first request that is
    rejected, and throws what that request threw. *)
Definition stops_at_rejection {A} (env : Env) (hist : list Request)
    (outcome : (string + A) * list Request) : Prop :=
  ∀ i q m,
    outcome.2 !! i = Some q →
    env (hist ++ take i outcome.2) q = Threw m →
    outcome.1 = inl m ∧ length outcome.2 = S i.

(** [sample_env], except that every [productUpdate] is rejected. *)
Definition rejecting_env : Env := fun hist q =>
  match q with
  | productUpdate _ _ => Threw "Network request failed"
  | _ => sample_env hist q
  end.

(** Renders of the page around a first use of the picker: the page loads
    with no product, the picker runs ([isLoadingPicker] goes up and down
    again), and the list then arrives with the product that was added and
    has since been given a link. *)
Definition picker_renders : list Render :=
  [ mkRender 0 true []; mkRender 0 false [] ].

Definition revalidated : Render :=
  mkRender 0 false
    [mkLoaded "gid://shopify/Product/1" [mkLink "https://a.com" "Buy at A" true] false].

(** [sample_shop] with a product template that already holds the app
    block: the template surgery finds the block id in it (step 4). *)
Definition installed_template : string :=
  JS.dq "{'sections':{'main':{'type':'main-product','blocks':{'links':{'type':'shopify://apps/dc-external-links/blocks/external-button-block/b47fbbd7a2798bdefa342301971e612b/external-button-block'}}}}}".

Definition installed_shop : Env := fun hist q =>
  match q with
  | getThemeFiles _ =>
      Json (mkResponse None (Some (data_theme (Some
        [mkFile "templates/product.json" installed_template]))))
  | _ => sample_shop hist q
  end.

(** * Properties *)

(** ** Record model *)

Lemma trim_empty : JS.trim "" = "".
Proof. reflexivity. Qed.

(** [!url || url.trim() === ''] says no more than [url.trim() === '']. *)
Lemma isEmptyLink_blank link : isEmptyLink link = bool_decide (blank link).
Proof.
  unfold isEmptyLink, JS.falsy.
  destruct (bool_decide_reflect (url link = "")) as [E|_]; [|done].
  cbn. symmetry. apply bool_decide_eq_true. unfold blank. by rewrite E.
Qed.

Lemma validLinks_normalize_spec L : validLinks L = normalize_spec L.
Proof.
  unfold validLinks, normalize_spec. apply List.filter_ext. intros link.
  rewrite isEmptyLink_blank. by rewrite bool_decide_not.
Qed.

Lemma elem_of_validLinks link L :
  link ∈ validLinks L ↔ link ∈ L ∧ ¬ blank link.
Proof.
  rewrite validLinks_normalize_spec. unfold normalize_spec.
  rewrite !list_elem_of_In, List.filter_In, bool_decide_eq_true. done.
Qed.

(** C9. The editor's normalisation ([validLinks]) is the filter that keeps,
    unchanged and in order, the links whose url is not empty after trimming:
    it coincides with the specification's [normalize]; a link is in the
    result iff it is in the input and is not blank; normalising twice is
    normalising once; every link of the result has a non-blank url. *)
Theorem normalize_drops_exactly_blank (L : list ExternalLink) :
  validLinks L = normalize_spec L
  ∧ (∀ link, link ∈ validLinks L ↔ link ∈ L ∧ JS.trim (url link) ≠ "")
  ∧ validLinks (validLinks L) = validLinks L
  ∧ Forall (fun link => JS.trim (url link) ≠ "") (validLinks L).
Proof.
  split; [apply validLinks_normalize_spec|].
  split; [intros link; apply elem_of_validLinks|].
  split.
  - induction L as [|link L IH]; [done|].
    cbn. destruct (isEmptyLink link) eqn:E; cbn; [done|].
    rewrite E. cbn. f_equal. exact IH.
  - apply Forall_forall. intros link Hin.
    by apply elem_of_validLinks in Hin as [_ Hnb].
Qed.

Example normalize_scenario :
  validLinks [mkLink "https://a.com" "A" true; mkLink "" "B" true;
              mkLink "https://c.com" "C" false]
  = [mkLink "https://a.com" "A" true; mkLink "https://c.com" "C" false].
Proof. vm_compute. reflexivity. Qed.

(** ** The save branch *)

Lemma falsy_false s : s ≠ "" → JS.falsy s = false.
Proof. intros. unfold JS.falsy. by apply bool_decide_eq_false. Qed.

Lemma action_save formData productId :
  save_request formData productId →
  action formData
  = try_catch (save productId formData)
      (fun error_message =>
         Ret (failed ("Failed to delete product configuration: " +:+ error_message))).
Proof.
  intros (Ha & Hp & Hne). unfold action. rewrite Ha, Hp, (falsy_false _ Hne).
  reflexivity.
Qed.

(** Case distinction on the reply to the next request. *)
Ltac next_reply env :=
  match goal with
  | |- context [env ?hist ?q] =>
      destruct (env hist q) as [?error_message|?response] eqn:?; cbn
  end.

(** The requests of a save that gets as far as the upsert: the read, the
    delete call for the superseded keys if there are any, the upsert. *)
Lemma save_trace env formData productId existingData :
  save_request formData productId →
  reaches_upsert env productId existingData →
  (run env [] (action formData)).2
  = getProductMetafields productId
    :: delete_requests productId
         (metafieldsToDelete (product_nodes existingData) (form_hideAtc formData))
    ++ [productUpdate productId
          (to_input <$> metafieldsToSave (product_nodes existingData)
                          (form_links formData) (form_hideAtc formData))].
Proof.
  intros Hreq [Hread Hdel]. rewrite (action_save _ _ Hreq).
  unfold save, delete_requests. cbv zeta. cbn. rewrite Hread. cbn.
  destruct (metafieldsToDelete (product_nodes existingData) (form_hideAtc formData))
    as [|mf toDelete]; cbn; swap 1 2.
  - next_reply env.
    { exfalso. eapply Hdel. eassumption. }
    next_reply env; [done|].
    destruct (errors _); cbn; [done|].
    destruct (productUpdate_userErrors _) as [[|]|]; done.
  - next_reply env; [done|].
    destruct (errors _); cbn; [done|].
    destruct (productUpdate_userErrors _) as [[|]|]; done.
Qed.

Lemma metafieldsToDelete_keeps_external_links existing hideAtc mf :
  mf ∈ metafieldsToDelete existing hideAtc → mf_key mf ≠ "external_links".
Proof.
  unfold metafieldsToDelete. rewrite list_elem_of_In, List.filter_In.
  intros [_ H] E. apply negb_true_iff, bool_decide_eq_false in H. apply H.
  rewrite E. unfold keysToKeep. destruct hideAtc; set_solver.
Qed.

Lemma saveProductConfiguration_empty productId expandedProduct :
  validLinks (externalLinks expandedProduct) = [] →
  hideAtc expandedProduct = false →
  saveProductConfiguration productId expandedProduct = addProduct productId.
Proof.
  intros Hl Hh. unfold saveProductConfiguration, addProduct. by rewrite Hl, Hh.
Qed.

Lemma addProduct_save_request productId :
  productId ≠ "" → save_request (addProduct productId) productId.
Proof. done. Qed.

Lemma addProduct_links productId : form_links (addProduct productId) = [].
Proof. reflexivity. Qed.

Lemma addProduct_hideAtc productId : form_hideAtc (addProduct productId) = false.
Proof. reflexivity. Qed.

Lemma to_input_field existing key value type :
  to_input (mkField (existing_id (existingMetafieldMap existing !! key)) key value type)
  = mkInput "bl_custom_button" (update_target existing key) key value type.
Proof.
  unfold to_input, update_target. cbn.
  by destruct (existingMetafieldMap existing !! key).
Qed.

(** C1. A save from the editor whose links all have a blank url, with
    "hide add to cart" off, still writes [external_links]: provided the read
    of the existing metafields is answered and the delete call does not
    throw, the requests are the read, a delete call for the other existing
    keys only (never for [external_links]), and a [productUpdate] whose only
    metafield is [external_links] with the value ["[]"] and type [json]. *)
Theorem empty_links_still_upserted env productId expandedProduct existingData :
  productId ≠ "" →
  validLinks (externalLinks expandedProduct) = [] →
  hideAtc expandedProduct = false →
  reaches_upsert env productId existingData →
  let existing := product_nodes existingData in
  (run env [] (action (saveProductConfiguration productId expandedProduct))).2
  = getProductMetafields productId
    :: delete_requests productId (metafieldsToDelete existing false)
    ++ [productUpdate productId
          [mkInput "bl_custom_button" (update_target existing "external_links")
             "external_links" "[]" "json"]]
  ∧ Forall (fun mf => mf_key mf ≠ "external_links") (metafieldsToDelete existing false).
Proof.
  intros Hne Hl Hh Henv existing.
  rewrite (saveProductConfiguration_empty _ _ Hl Hh).
  rewrite (save_trace env _ productId existingData (addProduct_save_request _ Hne) Henv).
  rewrite addProduct_links, addProduct_hideAtc.
  split.
  - unfold metafieldsToSave. cbn [fmap list_fmap app]. by rewrite to_input_field.
  - apply Forall_forall. intros mf. apply metafieldsToDelete_keeps_external_links.
Qed.

Lemma empty_links_still_upserted_witness :
  (run (fun _ _ => Json (mkResponse None None)) []
     (action (saveProductConfiguration "gid://shopify/Product/1"
                (mkExpanded [mkLink "  " "B" true] false)))).2
  = [getProductMetafields "gid://shopify/Product/1";
     productUpdate "gid://shopify/Product/1"
       [mkInput "bl_custom_button" None "external_links" "[]" "json"]].
Proof.
  apply (empty_links_still_upserted (fun _ _ => Json (mkResponse None None))
           "gid://shopify/Product/1"
           (mkExpanded [mkLink "  " "B" true] false) (mkResponse None None)).
  - done.
  - reflexivity.
  - reflexivity.
  - split; [reflexivity | done].
Defined.

(** ** The hide flag *)

Lemma metafieldsToSave_hide_atc existing links input :
  input ∈ to_input <$> metafieldsToSave existing links false →
  in_key input ≠ "hide_atc".
Proof.
  unfold metafieldsToSave. cbn. rewrite list_elem_of_singleton. by intros ->.
Qed.

Lemma metafieldsToDelete_stale_hide_atc existing mf :
  mf ∈ existing → mf_key mf = "hide_atc" → mf ∈ metafieldsToDelete existing false.
Proof.
  intros Hin Hk. unfold metafieldsToDelete.
  rewrite list_elem_of_In, List.filter_In, <- list_elem_of_In. split; [done|].
  apply negb_true_iff, bool_decide_eq_false. rewrite Hk. cbn. set_solver.
Qed.

Lemma elem_of_delete_requests productId toDelete mf :
  mf ∈ toDelete →
  ∃ metafields,
    metafieldsDelete metafields ∈ delete_requests productId toDelete
    ∧ mkIdent productId "bl_custom_button" (mf_key mf) ∈ metafields.
Proof.
  intros Hin. unfold delete_requests.
  destruct toDelete as [|mf0 toDelete]; [by apply elem_of_nil in Hin|]. cbn [length Nat.ltb Nat.leb].
  eexists. split; [apply list_elem_of_here|].
  by apply (list_elem_of_fmap_2 (fun mf => mkIdent productId METAFIELD_NAMESPACE (mf_key mf))).
Qed.

Lemma delete_requests_no_update productId toDelete id metafields :
  productUpdate id metafields ∉ delete_requests productId toDelete.
Proof.
  unfold delete_requests. destruct (0 <? length toDelete)%nat;
    [by rewrite list_elem_of_singleton | apply not_elem_of_nil].
Qed.

(** C2. For every save request that gets as far as the upsert: with the
    hide flag on, the [productUpdate] carries [hide_atc] with the value
    ["true"]; with the flag off, no [productUpdate] carries a [hide_atc]
    entry, and if the product has a [hide_atc] metafield in the namespace,
    a [metafieldsDelete] is issued that names it. *)
Theorem hide_atc_follows_flag env formData productId existingData :
  save_request formData productId →
  reaches_upsert env productId existingData →
  let trace := (run env [] (action formData)).2 in
  let existing := product_nodes existingData in
  (form_hideAtc formData = true →
     ∃ metafields,
       productUpdate productId metafields ∈ trace
       ∧ mkInput "bl_custom_button" (update_target existing "hide_atc")
           "hide_atc" "true" "single_line_text_field" ∈ metafields)
  ∧ (form_hideAtc formData = false →
     (∀ id metafields input,
        productUpdate id metafields ∈ trace → input ∈ metafields →
        in_key input ≠ "hide_atc")
     ∧ ((∃ mf, mf ∈ existing ∧ mf_key mf = "hide_atc") →
        ∃ metafields,
          metafieldsDelete metafields ∈ trace
          ∧ mkIdent productId "bl_custom_button" "hide_atc" ∈ metafields)).
Proof.
  intros Hreq Henv trace existing. subst trace.
  rewrite (save_trace env formData productId existingData Hreq Henv).
  fold existing. split; [intros Hh | intros Hh; split]; rewrite Hh.
  - eexists. split.
    + apply list_elem_of_further, elem_of_app. right. apply list_elem_of_here.
    + unfold metafieldsToSave. cbn [fmap list_fmap app].
      rewrite !to_input_field. set_solver.
  - intros id metafields input Hin Hinput.
    apply elem_of_cons in Hin as [Hin | Hin]; [done|].
    apply elem_of_app in Hin as [Hin | Hin];
      [by destruct (delete_requests_no_update _ _ _ _ Hin)|].
    apply list_elem_of_singleton in Hin. simplify_eq.
    by apply metafieldsToSave_hide_atc in Hinput.
  - intros (mf & Hin & Hk).
    destruct (elem_of_delete_requests productId (metafieldsToDelete existing false) mf)
      as (metafields & Hreq' & Hid);
      [by apply metafieldsToDelete_stale_hide_atc|].
    exists metafields. rewrite Hk in Hid. split; [|done].
    apply list_elem_of_further, elem_of_app. by left.
Qed.

Lemma hide_atc_follows_flag_witness :
  let trace := (run sample_env [] (action (addProduct "gid://shopify/Product/1"))).2 in
  let existing := sample_existing in
  (form_hideAtc (addProduct "gid://shopify/Product/1") = true →
     ∃ metafields,
       productUpdate "gid://shopify/Product/1" metafields ∈ trace
       ∧ mkInput "bl_custom_button" (update_target existing "hide_atc")
           "hide_atc" "true" "single_line_text_field" ∈ metafields)
  ∧ (form_hideAtc (addProduct "gid://shopify/Product/1") = false →
     (∀ id metafields input,
        productUpdate id metafields ∈ trace → input ∈ metafields →
        in_key input ≠ "hide_atc")
     ∧ ((∃ mf, mf ∈ existing ∧ mf_key mf = "hide_atc") →
        ∃ metafields,
          metafieldsDelete metafields ∈ trace
          ∧ mkIdent "gid://shopify/Product/1" "bl_custom_button" "hide_atc" ∈ metafields)).
Proof.
  apply (hide_atc_follows_flag sample_env (addProduct "gid://shopify/Product/1")
           "gid://shopify/Product/1"
           (mkResponse None (Some (data_product (Some ("Mug", sample_existing)))))).
  - split; [reflexivity | split; [reflexivity | done]].
  - split; [reflexivity | done].
Defined.

(** Scenario: the flag is turned off while a [hide_atc] entry exists. *)
Example toggle_hide_atc_off :
  run sample_env [] (action (addProduct "gid://shopify/Product/1"))
  = (inr (ok "Product configuration saved successfully!"),
     [ getProductMetafields "gid://shopify/Product/1";
       metafieldsDelete [mkIdent "gid://shopify/Product/1" "bl_custom_button" "hide_atc"];
       productUpdate "gid://shopify/Product/1"
         [mkInput "bl_custom_button" (Some "gid://shopify/Metafield/2")
            "external_links" "[]" "json"] ]).
Proof. vm_compute. reflexivity. Qed.

(** ** The delete branch *)

Lemma action_delete formData productId :
  delete_request formData productId →
  action formData
  = try_catch (delete productId)
      (fun error_message =>
         Ret (failed ("Failed to delete product configuration: " +:+ error_message))).
Proof.
  intros (Ha & Hp & Hne). unfold action. rewrite Ha, Hp, (falsy_false _ Hne).
  reflexivity.
Qed.

(** C10. A delete request for a product whose namespace holds no metafield
    (the read is answered without [errors] and with no node) issues the read
    and nothing else (no [metafieldsDelete]) and returns a success result
    saying that the configuration was already removed. *)
Theorem delete_without_metafields env formData productId metafieldsData :
  delete_request formData productId →
  env [] (getProductMetafieldKeys productId) = Json metafieldsData →
  errors metafieldsData = None →
  product_nodes metafieldsData = [] →
  run env [] (action formData)
  = (inr (mkActionData true (Some "Product configuration was already removed.") None),
     [getProductMetafieldKeys productId]).
Proof.
  intros Hreq Hread Herr Hnodes. rewrite (action_delete _ _ Hreq).
  unfold delete. cbn. rewrite Hread. cbn. rewrite Herr, Hnodes. reflexivity.
Qed.

Lemma delete_without_metafields_witness :
  run (fun _ _ => Json (mkResponse None (Some (data_product (Some ("Mug", []))))))
    [] (action [("actionType", "delete"); ("productId", "gid://shopify/Product/1")])
  = (inr (mkActionData true (Some "Product configuration was already removed.") None),
     [getProductMetafieldKeys "gid://shopify/Product/1"]).
Proof.
  apply (delete_without_metafields _ _ "gid://shopify/Product/1"
           (mkResponse None (Some (data_product (Some ("Mug", [])))))).
  - split; [reflexivity | split; [reflexivity | done]].
  - reflexivity.
  - reflexivity.
  - reflexivity.
Defined.

(** Deleting twice: the second request finds nothing and still succeeds. *)
Example delete_twice :
  let env : Env := fun hist q =>
    match hist, q with
    | [], getProductMetafieldKeys _ =>
        Json (mkResponse None (Some (data_product (Some ("Mug", sample_existing)))))
    | _, getProductMetafieldKeys _ =>
        Json (mkResponse None (Some (data_product (Some ("Mug", [])))))
    | _, _ => Json (mkResponse None (Some (data_metafieldsDelete [])))
    end in
  let formData := [("actionType", "delete"); ("productId", "gid://shopify/Product/1")] in
  let first := run env [] (action formData) in
  let second := run env first.2 (action formData) in
  first.1 = inr (ok (JS.dq "Configuration for 'Mug' has been removed successfully."))
  ∧ second.1 = inr (ok "Product configuration was already removed.")
  ∧ second.2 = [getProductMetafieldKeys "gid://shopify/Product/1"].
Proof. vm_compute. done. Qed.

(** ** Failures during a save *)

(** A transport error of the delete call ends the save before the upsert;
    the message is reported behind the fixed prefix of the catch block. *)
Lemma save_aborts_when_delete_throws env formData productId existingData error_message :
  save_request formData productId →
  env [] (getProductMetafields productId) = Json existingData →
  let toDelete := metafieldsToDelete (product_nodes existingData) (form_hideAtc formData) in
  toDelete ≠ [] →
  (∀ metafields,
     env [getProductMetafields productId] (metafieldsDelete metafields)
     = Threw error_message) →
  run env [] (action formData)
  = (inr (failed ("Failed to delete product configuration: " +:+ error_message)),
     getProductMetafields productId :: delete_requests productId toDelete).
Proof.
  intros Hreq Hread toDelete Hne Hthrow. rewrite (action_save _ _ Hreq).
  unfold save, delete_requests. cbv zeta. cbn. rewrite Hread. cbn.
  subst toDelete.
  destruct (metafieldsToDelete (product_nodes existingData) (form_hideAtc formData))
    as [|mf toDelete]; [done|]. cbn.
  by rewrite Hthrow.
Qed.

(** Errors of the upsert, top-level or user errors, fail the save with
    their messages joined after ["Failed to save: "]. *)
Lemma save_reports_upsert_errors env formData productId existingData :
  save_request formData productId →
  reaches_upsert env productId existingData →
  ∀ saveData errs,
    (∀ hist metafields, env hist (productUpdate productId metafields) = Json saveData) →
    (errors saveData = Some errs
     ∨ errors saveData = None ∧ productUpdate_userErrors saveData = Some errs ∧ errs ≠ []) →
    (run env [] (action formData)).1
    = inr (failed ("Failed to save: " +:+ JS.join ", " (message <$> errs))).
Proof.
  intros Hreq [Hread Hdel] saveData errs Hup Herrs. rewrite (action_save _ _ Hreq).
  unfold save. cbv zeta. cbn. rewrite Hread. cbn.
  destruct (metafieldsToDelete (product_nodes existingData) (form_hideAtc formData))
    as [|mf toDelete]; cbn.
  - rewrite Hup. cbn.
    destruct Herrs as [-> | (-> & -> & Hne)]; [done|]. by destruct errs.
  - next_reply env; [by edestruct Hdel|].
    rewrite Hup. cbn.
    destruct Herrs as [-> | (-> & -> & Hne)]; [done|]. by destruct errs.
Qed.

(** C5 (the code departs from the claim). The remote side refuses the
    delete of the stale [hide_atc] entry with a user error. The save does not
    read the reply of its delete call: it goes on to the upsert and reports
    success, and the refusal appears nowhere in the result. *)
Theorem save_continues_after_refused_delete :
  run refusing_env [] (action (addProduct "gid://shopify/Product/1"))
  = (inr (ok "Product configuration saved successfully!"),
     [ getProductMetafields "gid://shopify/Product/1";
       metafieldsDelete [mkIdent "gid://shopify/Product/1" "bl_custom_button" "hide_atc"];
       productUpdate "gid://shopify/Product/1"
         [mkInput "bl_custom_button" (Some "gid://shopify/Metafield/2")
            "external_links" "[]" "json"] ]).
Proof. vm_compute. reflexivity. Qed.

(** The delete branch of the same action does read that reply. *)
Example delete_stops_at_refused_delete :
  run refusing_env []
    (action [("actionType", "delete"); ("productId", "gid://shopify/Product/1")])
  = (inr (failed "Failed to delete product configuration"),
     [ getProductMetafieldKeys "gid://shopify/Product/1";
       metafieldsDelete
         [ mkIdent "gid://shopify/Product/1" "bl_custom_button" "hide_atc";
           mkIdent "gid://shopify/Product/1" "bl_custom_button" "external_links" ] ]).
Proof. vm_compute. reflexivity. Qed.

(** ** The storefront filter *)

Lemma get_not_null link key v :
  JSON.get link key = Some v → ∀ key', ∃ v', JSON.get link key' = Some v'.
Proof. destruct link; cbn; intros H key'; try done; eauto. Qed.

Lemma enabled_link_filterable link :
  filterable link → enabled_link link = Some (shown link).
Proof.
  intros (e & u & He & Hu & Hshape). unfold enabled_link, shown.
  rewrite He, Hu. destruct (JSON.truthy e) eqn:Et; cbn.
  - destruct (Hshape eq_refl) as [Hf | [s ->]].
    + rewrite Hf. cbn. destruct u as [[| | |s| |]|]; try done.
      cbn in Hf. apply negb_false_iff, bool_decide_eq_true in Hf. by subst s.
    + cbn. destruct (JS.falsy s) eqn:Ef; cbn; [|done].
      unfold JS.falsy in Ef. apply bool_decide_eq_true in Ef. by subst s.
  - by destruct u as [[]|].
Qed.

Lemma filter_links_filterable items :
  Forall filterable items → filter_links items = Some (List.filter shown items).
Proof.
  induction 1 as [|link items Hlink _ IH]; [done|].
  cbn. rewrite (enabled_link_filterable _ Hlink), IH. cbn.
  by destruct (shown link).
Qed.

(** An entry the callback throws on ends the whole filter. *)
Lemma filter_links_throws items link :
  link ∈ items → enabled_link link = None → filter_links items = None.
Proof.
  induction items as [|x items IH]; [by intros ?%elem_of_nil|].
  intros [-> | Hin]%elem_of_cons Hthrow; cbn.
  - by rewrite Hthrow.
  - destruct (enabled_link x); [|done]. cbn. by rewrite (IH Hin Hthrow).
Qed.

Section Rendering.

Variable blockSettings : string -> option BlockSettings.
Variables (productId : string) (settings : BlockSettings) (preset : string).
Hypothesis found : blockSettings (product_selector productId) = Some settings.
Hypothesis usable : usable_preset settings = Some preset.

Lemma createButton_filterable link index :
  filterable link →
  createButton blockSettings link index productId
  = Some (button_of preset productId index link).
Proof using found usable.
  intros (e & u & He & Hu & _). unfold createButton, button_of.
  destruct (get_not_null _ _ _ Hu "text") as [t Ht].
  rewrite Hu, Ht, found. cbn.
  unfold usable_preset in usable. rewrite usable. reflexivity.
Qed.

Lemma append_buttons_filterable links index container :
  Forall filterable links →
  append_buttons blockSettings links index productId container
  = (normal,
     container ++ (button <$> imap (fun k => button_of preset productId (index + k)) links)).
Proof using found usable.
  intros Hall. revert index container.
  induction Hall as [|link links Hlink _ IH]; intros index container.
  - cbn. by rewrite app_nil_r.
  - cbn. rewrite (createButton_filterable _ _ Hlink), IH.
    rewrite <- app_assoc. cbn. rewrite Nat.add_0_r. do 4 f_equal.
    apply imap_ext. intros k x _. cbn. f_equal. lia.
Qed.

Lemma buttons_app_notice children text :
  buttons (children ++ [notice text]) = buttons children.
Proof. unfold buttons. rewrite omap_app. cbn. by rewrite app_nil_r. Qed.

Lemma buttons_fmap_button (l : list Button) : buttons (button <$> l) = l.
Proof. induction l; [done|]. unfold buttons in *. cbn. by f_equal. Qed.

Lemma render_parsed_filterable items :
  Forall filterable items →
  buttons (render_parsed blockSettings (JArr items) productId).2
  = imap (button_of preset productId) (List.filter shown items).
Proof using found usable.
  intros Hall. unfold render_parsed. cbn.
  rewrite (filter_links_filterable _ Hall).
  assert (Forall filterable (List.filter shown items)) as Hsub.
  { apply Forall_forall. intros x Hx%list_elem_of_In%List.filter_In.
    rewrite Forall_forall in Hall. apply Hall, list_elem_of_In, Hx. }
  destruct (List.filter shown items) as [|link links] eqn:E; [done|].
  rewrite found, (append_buttons_filterable _ 0 [] Hsub). cbn [app].
  destruct (JSON.truthy (show_tracking_notice settings)
            && JSON.truthy (tracking_notice_text settings)); cbn [snd].
  - by rewrite buttons_app_notice, buttons_fmap_button.
  - by rewrite buttons_fmap_button.
Qed.

End Rendering.

(** C3, as the claim states it, fails: an entry whose [enabled] is [1] is
    not [=== true], yet it gets a button. *)
Lemma truthy_enabled_is_rendered :
  let items :=
    [JObj [("url", JStr "https://d.com"); ("text", JStr "D"); ("enabled", JNum 1 0)]] in
  List.filter strictly_enabled items = []
  ∧ buttons (render_parsed default_settings (JArr items) "42").2
    = [mkButton "external-link-button preset-primary-medium"
         (Some (JStr "https://d.com")) 0 "42" (JStr "D")].
Proof. vm_compute. done. Qed.

(** C3, amended. For a parsed array whose entries the filter callback can
    evaluate (none is [null]; a truthy [url] next to a truthy [enabled] is a
    string), on a page whose block settings are found and hold a usable
    preset, the renderer makes one button exactly for the entries whose
    [enabled] is truthy and whose [url] is a string that is not blank after
    trimming, in the order of the array. *)
Theorem renders_truthy_enabled_links blockSettings productId settings preset items :
  blockSettings (product_selector productId) = Some settings →
  usable_preset settings = Some preset →
  Forall filterable items →
  buttons (render_parsed blockSettings (JArr items) productId).2
  = imap (button_of preset productId) (List.filter shown items).
Proof.
  intros Hfound Husable Hall.
  exact (render_parsed_filterable _ _ _ _ Hfound Husable _ Hall).
Qed.

Lemma renders_truthy_enabled_links_witness :
  buttons (render_parsed default_settings
             (JArr [ to_json (mkLink "https://a.com" "A" true);
                     to_json (mkLink "" "B" true);
                     JObj [("url", JStr "https://d.com"); ("enabled", JStr "yes")];
                     to_json (mkLink "https://c.com" "C" false) ]) "42").2
  = [ mkButton "external-link-button preset-primary-medium"
        (Some (JStr "https://a.com")) 0 "42" (JStr "A");
      mkButton "external-link-button preset-primary-medium"
        (Some (JStr "https://d.com")) 1 "42" (JStr "External Link") ].
Proof.
  apply (renders_truthy_enabled_links default_settings "42"
           (mkSettings (Some (JStr "primary_medium")) (Some (JBool false))
              (Some (JStr "This is an affiliate link - we may earn a commission")))
           "primary_medium").
  - reflexivity.
  - reflexivity.
  - repeat constructor; eexists _, _; (split; [reflexivity|]); (split; [reflexivity|]);
      cbn; eauto.
Defined.

(** If the callback throws on an entry, nothing is rendered. *)
Lemma render_parsed_throws blockSettings productId items link :
  link ∈ items → enabled_link link = None →
  render_parsed blockSettings (JArr items) productId = (abrupt, []).
Proof.
  intros Hin Hthrow. unfold render_parsed. cbn.
  by rewrite (filter_links_throws _ _ Hin Hthrow).
Qed.

(** On the records the admin side stores ([enabled] a boolean, [url] a
    string) the filter of the code and the filter of the claim agree. *)
Lemma shown_to_json link : shown (to_json link) = strictly_enabled (to_json link).
Proof. by destruct link as [u t []]. Qed.

Lemma filterable_to_json link : filterable (to_json link).
Proof. destruct link as [u t e]. eexists _, _. cbn. eauto. Qed.

(** ** The storefront parse step *)


(** The same with the reference parser, at the three inputs of the claim. *)
Example parse_empty :
  renderExternalButtons JSON.parse_text default_settings [] (Some "") "42"
  = (normal, [], []).
Proof. reflexivity. Qed.

Example parse_empty_array :
  renderExternalButtons JSON.parse_text default_settings [] (Some "[]") "42"
  = (normal, [], []).
Proof. reflexivity. Qed.

Example parse_garbage :
  renderExternalButtons JSON.parse_text default_settings [] (Some "{not json") "42"
  = (normal, [], ["{not json"; "{not json"]).
Proof. vm_compute. reflexivity. Qed.

(** The legacy serialization is read at the second attempt. *)
Example parse_legacy :
  let data := "[{&quot;url&quot;=&gt;&quot;https://a.com&quot;, text=&gt;&quot;A&quot;, enabled=&gt;true}]" in
  decoded data = JS.dq "[{'url':'https://a.com', 'text':'A', 'enabled':true}]"
  ∧ JSON.parse_text data = None
  ∧ buttons (renderExternalButtons JSON.parse_text default_settings [] (Some data) "42").1.2
    = [mkButton "external-link-button preset-primary-medium"
         (Some (JStr "https://a.com")) 0 "42" (JStr "A")].
Proof. vm_compute. done. Qed.

(** ** Calling [init] again *)


Section Init.

Variable JSON_parse : string -> option json.
Variable blockSettings : string -> option BlockSettings.




End Init.



(** ** The auto-install gate *)

Section Gate.

Variable patchTemplate : string -> Patch.
Variable now : string.

Lemma autoInstall_sentinel env hist configuredProducts :
  sentinel_exists env hist →
  run env hist (autoInstall patchTemplate now configuredProducts)
  = (inr (false, "previously_attempted"), [currentAppInstallation_block_installed]).
Proof.
  intros (response & node & nodes & Hreply & Hdata).
  unfold autoInstall, checkAutoInstallStatus. cbn. rewrite Hreply. cbn.
  rewrite Hdata. reflexivity.
Qed.

Lemma autoInstall_no_products env hist :
  ∃ status,
    run env hist (autoInstall patchTemplate now [])
    = (inr (false, status), [currentAppInstallation_block_installed]).
Proof.
  unfold autoInstall, checkAutoInstallStatus. cbn.
  destruct (env hist currentAppInstallation_block_installed) as [m|response]; cbn;
    [by eexists|].
  destruct (data response) as [[]|]; cbn; try by eexists.
  destruct nodes; cbn; by eexists.
Qed.

End Gate.

(** C6. The auto-install step issues the sentinel query and nothing else,
    and installs nothing, whenever the sentinel exists or there is no
    configured product. Hence, if the sentinel exists after a first call, a
    second call is that query alone: no theme is read or written. *)
Theorem auto_install_is_one_shot patchTemplate now env hist configuredProducts :
  (sentinel_exists env hist ∨ configuredProducts = [] →
   ∃ status,
     run env hist (autoInstall patchTemplate now configuredProducts)
     = (inr (false, status), [currentAppInstallation_block_installed]))
  ∧ (let first := run env hist (autoInstall patchTemplate now configuredProducts) in
     sentinel_exists env (hist ++ first.2) →
     let second :=
       run env (hist ++ first.2) (autoInstall patchTemplate now configuredProducts) in
     second = (inr (false, "previously_attempted"),
               [currentAppInstallation_block_installed])
     ∧ Forall (fun q => theme_request q = false) second.2).
Proof.
  split.
  - intros [Hsentinel | ->].
    + eexists. by apply autoInstall_sentinel.
    + apply autoInstall_no_products.
  - intros first Hsentinel second. subst second.
    rewrite (autoInstall_sentinel _ _ _ _ _ Hsentinel). split; [done|].
    by repeat constructor.
Qed.

Lemma auto_install_is_one_shot_witness :
  let install :=
    autoInstall (fun _ => already_installed) "2024-01-15T10:30:00.000Z" [sample_product] in
  let first := run installed_shop [] install in
  includes installed_template "b47fbbd7a2798bdefa342301971e612b/external-button-block"
  = true
  ∧ first = (inr (true, "already_installed"),
             [ currentAppInstallation_block_installed; themes_MAIN;
               getThemeFiles "gid://shopify/OnlineStoreTheme/7";
               metafieldsSet [mkInput "auto_install" None "block_installed"
                                "2024-01-15T10:30:00.000Z" "single_line_text_field"] ])
  ∧ run installed_shop first.2 install
    = (inr (false, "previously_attempted"), [currentAppInstallation_block_installed]).
Proof.
  intros install first. split; [by vm_compute|]. split; [reflexivity|].
  apply (auto_install_is_one_shot (fun _ => already_installed) "2024-01-15T10:30:00.000Z"
           installed_shop [] [sample_product]).
  eexists _, _, _. split; reflexivity.
Defined.

(** ** The legacy fallback of the loader *)

Lemma metafieldMap_lookup_None key metafields (m : gmap string string) :
  m !! key = None →
  Forall (fun mf => mf_key mf ≠ key) metafields →
  foldl (fun m mf => <[mf_key mf := mf_value mf]> m) m metafields !! key = None.
Proof.
  intros Hm Hall. revert m Hm.
  induction Hall as [|mf metafields Hne _ IH]; intros m Hm; [done|].
  cbn. apply IH. by rewrite lookup_insert_ne.
Qed.

(** C7, as the claim states it, fails: for a product with the three legacy
    keys only, the links of the loaded product are the empty array, not the
    array of the one legacy link. *)
Lemma legacy_links_stay_empty :
  product_externalLinks <$> productData JSON.parse_text (fun _ => false) legacy_product
  = Some (JArr [])
  ∧ JArr [] ≠ JArr [to_json (mkLink "https://a.com" "Buy at A" true)].
Proof. split; [vm_compute; reflexivity | discriminate]. Qed.

(** C7, amended. For a product without an [external_links] metafield the
    loader fills the display fields of the product from the legacy keys
    ([external_url], [button_text], and [is_enabled] compared with the
    string ["true"]; a missing or empty one gives [""] or [false]) and leaves
    its links empty; and a save writes no key other than [external_links]
    and [hide_atc]. *)
Theorem legacy_keys_fill_display_fields JSON_parse length_exceeds_one product metafields :
  node_metafields product = Some metafields →
  Forall (fun mf => mf_key mf ≠ "external_links") metafields →
  let legacy := metafieldMap metafields in
  productData JSON_parse length_exceeds_one product
  = Some {| product_id := node_id product;
            title := node_title product;
            handle := node_handle product;
            externalUrl := JStr (JS.opt_or (legacy !! "external_url") "");
            buttonText := JStr (JS.opt_or (legacy !! "button_text") "");
            isEnabled := bool_decide (legacy !! "is_enabled" = Some "true");
            product_hideAtc := bool_decide (legacy !! "hide_atc" = Some "true");
            hasMetafields := (0 <? length metafields)%nat;
            hasMultipleLinks := false;
            product_externalLinks := JArr [] |}
  ∧ ∀ existing links hideAtc input,
      input ∈ to_input <$> metafieldsToSave existing links hideAtc →
      in_key input = "external_links" ∨ in_key input = "hide_atc".
Proof.
  intros Hnodes Hall legacy. split.
  - assert (metafieldMap metafields !! "external_links" = None) as Hnone
      by by apply metafieldMap_lookup_None.
    unfold productData. rewrite Hnodes.
    change (default [] (Some metafields)) with metafields. cbv zeta.
    rewrite Hnone. reflexivity.
  - intros existing links hideAtc input. unfold metafieldsToSave.
    destruct hideAtc; cbn.
    + intros [-> | [-> | []%elem_of_nil]%elem_of_cons]%elem_of_cons; [by left | by right].
    + intros ->%list_elem_of_singleton. by left.
Qed.

Lemma legacy_keys_fill_display_fields_witness :
  productData JSON.parse_text (fun _ => false) legacy_product
  = Some (mkProduct "gid://shopify/Product/1" "Mug" "mug"
            (JStr "https://a.com") (JStr "Buy at A") true false true false (JArr [])).
Proof.
  apply (legacy_keys_fill_display_fields JSON.parse_text (fun _ => false) legacy_product
           (default [] (node_metafields legacy_product))).
  - reflexivity.
  - by repeat constructor.
Defined.

(** ** The earlier revision of the save branch *)

(** Before the reconciler an empty configuration was stored as no
    metafield at all: the save deleted what was there and wrote nothing. *)
Example earlier_save_writes_nothing :
  run sample_env [] (Earlier.action (addProduct "gid://shopify/Product/1"))
  = (inr (ok "Product configuration saved successfully!"),
     [ getProductMetafields "gid://shopify/Product/1";
       metafieldsDelete
         [ mkIdent "gid://shopify/Product/1" "bl_custom_button" "hide_atc";
           mkIdent "gid://shopify/Product/1" "bl_custom_button" "external_links" ] ]).
Proof. vm_compute. reflexivity. Qed.

Lemma earlier_metafieldsToCreate_empty :
  Earlier.metafieldsToCreate [] false = [].
Proof. reflexivity. Qed.

(** ** The editor's form carries the hide flag *)

Lemma get_remove_ne name n formData :
  n ≠ name → FormData.get name (FormData.remove n formData) = FormData.get name formData.
Proof.
  intros Hne. unfold FormData.remove.
  induction formData as [|[k v] formData IH]; [done|].
  cbn [List.filter FormData.get fst].
  destruct (bool_decide_reflect (k = n)) as [->|Hk]; cbn [negb FormData.get].
  - rewrite IH. by rewrite bool_decide_eq_false_2.
  - by rewrite IH.
Qed.

Lemma get_set_eq name value formData :
  FormData.get name (FormData.set name value formData) = Some value.
Proof.
  induction formData as [|[k v] formData IH]; cbn.
  - by rewrite bool_decide_eq_true_2.
  - destruct (bool_decide_reflect (k = name)) as [->|Hk]; cbn.
    + by rewrite bool_decide_eq_true_2.
    + by rewrite bool_decide_eq_false_2.
Qed.

Lemma get_set_ne name n value formData :
  n ≠ name →
  FormData.get name (FormData.set n value formData) = FormData.get name formData.
Proof.
  intros Hne. induction formData as [|[k v] formData IH]; cbn.
  - by rewrite bool_decide_eq_false_2.
  - destruct (bool_decide_reflect (k = n)) as [->|Hk]; cbn.
    + rewrite !bool_decide_eq_false_2 by done. by apply get_remove_ne.
    + by rewrite IH.
Qed.

Lemma get_set_link name formData entry :
  plain_name name →
  FormData.get name (set_link formData entry) = FormData.get name formData.
Proof.
  intros Hplain. destruct entry as [index link]. unfold set_link.
  destruct (enabled link); rewrite !get_set_ne; try done;
    intros E; by apply (Hplain _ (eq_sym E)).
Qed.

Lemma get_foldl_set_link name formData entries :
  plain_name name →
  FormData.get name (foldl set_link formData entries) = FormData.get name formData.
Proof.
  intros Hplain. revert formData.
  induction entries as [|entry entries IH]; intros formData; [done|].
  cbn. by rewrite IH, get_set_link.
Qed.

Lemma saveProductConfiguration_get name productId expandedProduct :
  plain_name name → name ≠ "hideAtc" →
  FormData.get name (saveProductConfiguration productId expandedProduct)
  = FormData.get name
      (FormData.set "linkCount"
         (JS.of_nat (length (validLinks (externalLinks expandedProduct))))
         (FormData.set "productId" productId (FormData.set "actionType" "save" []))).
Proof.
  intros Hplain Hne. unfold saveProductConfiguration.
  destruct (hideAtc expandedProduct).
  - rewrite get_set_ne by done. by apply get_foldl_set_link.
  - by apply get_foldl_set_link.
Qed.

(** What the editor submits is a save request, and the action reads the
    hide flag of the editor from it. *)
Lemma saveProductConfiguration_save_request productId expandedProduct :
  productId ≠ "" →
  save_request (saveProductConfiguration productId expandedProduct) productId
  ∧ form_hideAtc (saveProductConfiguration productId expandedProduct)
    = hideAtc expandedProduct.
Proof.
  intros Hne. split; [split; [|split; [|done]]|].
  - by rewrite saveProductConfiguration_get.
  - by rewrite saveProductConfiguration_get.
  - unfold form_hideAtc, saveProductConfiguration.
    destruct (hideAtc expandedProduct).
    + by rewrite get_set_eq.
    + by rewrite get_foldl_set_link.
Qed.

(** ** The editor: unsaved changes *)

Lemma link_differs_false current original :
  link_differs current original = false ↔ current = original.
Proof.
  destruct current as [u t e], original as [u' t' e']. unfold link_differs. cbn.
  rewrite !orb_false_iff, !negb_false_iff, !bool_decide_eq_true.
  split; [intros [[-> ->] ->]; done | intros [= -> -> ->]; done].
Qed.

(** The index loop of the dirty check finds a difference iff the two
    arrays, of the same length, are not equal. *)
Lemma links_loop_false (currentLinks originalLinks : list ExternalLink) :
  length currentLinks = length originalLinks →
  existsb
    (fun i =>
       match currentLinks !! i, originalLinks !! i with
       | Some current, Some original => link_differs current original
       | _, _ => false
       end)
    (seq 0 (length currentLinks)) = false
  ↔ currentLinks = originalLinks.
Proof.
  intros Hlen. split.
  - intros Hloop. apply list_eq_same_length with (length currentLinks); [done..|].
    intros i x y Hi Hx Hy.
    apply link_differs_false.
    destruct (link_differs x y) eqn:Hd; [|done].
    assert (existsb
      (fun i => match currentLinks !! i, originalLinks !! i with
                | Some current, Some original => link_differs current original
                | _, _ => false
                end) (seq 0 (length currentLinks)) = true) as Htrue; [|congruence].
    apply existsb_exists. exists i. split.
    + apply in_seq. lia.
    + by rewrite Hx, Hy.
  - intros <-. apply not_true_iff_false. intros (i & _ & Hi)%existsb_exists.
    destruct (currentLinks !! i) as [x|]; [|done].
    by rewrite (proj2 (link_differs_false x x) eq_refl) in Hi.
Qed.

Lemma clean_iff expandedProducts configuredProducts productId expandedProduct original :
  expandedProducts !! productId = Some expandedProduct →
  originalProduct configuredProducts productId = Some original →
  hasUnsavedChanges expandedProducts configuredProducts productId = false
  ↔ hideAtc expandedProduct = loaded_hideAtc original
    ∧ validLinks (externalLinks expandedProduct) = validLinks (loaded_links original).
Proof.
  intros He Ho. unfold hasUnsavedChanges. rewrite He, Ho.
  destruct (bool_decide_reflect (hideAtc expandedProduct = loaded_hideAtc original))
    as [Hh|Hh]; cbn [negb]; [|split; [done | by intros [? _]]].
  destruct (bool_decide_reflect
              (length (validLinks (externalLinks expandedProduct))
               = length (validLinks (loaded_links original)))) as [Hl|Hl]; cbn [negb].
  - rewrite (links_loop_false _ _ Hl). split; [done | by intros [_ ?]].
  - split; [done|]. intros [_ E]. by rewrite E in Hl.
Qed.

(** The dirty check reports no change exactly when the hide flag is the
    loaded one and the links, blank rows aside, are the loaded ones. *)
Theorem hasUnsavedChanges_false expandedProducts configuredProducts productId
    expandedProduct original :
  expandedProducts !! productId = Some expandedProduct →
  originalProduct configuredProducts productId = Some original →
  hasUnsavedChanges expandedProducts configuredProducts productId = false
  ↔ hideAtc expandedProduct = loaded_hideAtc original
    ∧ validLinks (externalLinks expandedProduct) = validLinks (loaded_links original).
Proof. apply clean_iff. Qed.

Lemma hasUnsavedChanges_false_witness :
  hasUnsavedChanges
    {["gid://shopify/Product/1" :=
        mkExpanded [mkLink "" "" true; mkLink "https://a.com" "A" true] false]}
    [mkLoaded "gid://shopify/Product/1" [mkLink "https://a.com" "A" true] false]
    "gid://shopify/Product/1" = false.
Proof.
  apply (hasUnsavedChanges_false _ _ _
           (mkExpanded [mkLink "" "" true; mkLink "https://a.com" "A" true] false)
           (mkLoaded "gid://shopify/Product/1" [mkLink "https://a.com" "A" true] false)).
  - reflexivity.
  - reflexivity.
  - split; reflexivity.
Defined.

(** Without an entry in the editor, or without a loaded product of that
    id, the dirty check reports no change. *)
Lemma hasUnsavedChanges_missing expandedProducts configuredProducts productId :
  expandedProducts !! productId = None
  ∨ originalProduct configuredProducts productId = None →
  hasUnsavedChanges expandedProducts configuredProducts productId = false.
Proof.
  unfold hasUnsavedChanges. intros [-> | ->]; [done|].
  by destruct (expandedProducts !! productId).
Qed.

Lemma validLinks_blank_row links :
  validLinks (mkLink "" "" true :: links) = validLinks links.
Proof. reflexivity. Qed.

(** An empty row added in the editor is not an unsaved change, and a save
    submits the same form with it as without it. *)
Theorem addExternalLink_is_not_a_change expandedProducts configuredProducts productId
    expandedProduct :
  expandedProducts !! productId = Some expandedProduct →
  let added := addExternalLink productId expandedProducts in
  hasUnsavedChanges added configuredProducts productId
  = hasUnsavedChanges expandedProducts configuredProducts productId
  ∧ ∃ withRow,
      added !! productId = Some withRow
      ∧ length (externalLinks withRow) = S (length (externalLinks expandedProduct))
      ∧ saveProductConfiguration productId withRow
        = saveProductConfiguration productId expandedProduct.
Proof.
  intros He added. subst added. unfold addExternalLink. rewrite He. split.
  - unfold hasUnsavedChanges. rewrite lookup_insert_eq, He. cbn [externalLinks hideAtc].
    by rewrite validLinks_blank_row.
  - eexists. rewrite lookup_insert_eq. split; [reflexivity|]. split; [done|].
    unfold saveProductConfiguration. cbn [externalLinks hideAtc].
    by rewrite validLinks_blank_row.
Qed.

Lemma addExternalLink_is_not_a_change_witness :
  hasUnsavedChanges
    (addExternalLink "gid://shopify/Product/1"
       {["gid://shopify/Product/1" := mkExpanded [mkLink "https://a.com" "A" true] false]})
    [mkLoaded "gid://shopify/Product/1" [mkLink "https://a.com" "A" true] false]
    "gid://shopify/Product/1"
  = hasUnsavedChanges
      {["gid://shopify/Product/1" := mkExpanded [mkLink "https://a.com" "A" true] false]}
      [mkLoaded "gid://shopify/Product/1" [mkLink "https://a.com" "A" true] false]
      "gid://shopify/Product/1".
Proof.
  apply (addExternalLink_is_not_a_change _ _ _
           (mkExpanded [mkLink "https://a.com" "A" true] false)).
  reflexivity.
Defined.

(** When the dirty check reports no change, a save would submit exactly
    the form of the loaded configuration. *)
Theorem clean_state_saves_loaded_form expandedProducts configuredProducts productId
    expandedProduct original :
  expandedProducts !! productId = Some expandedProduct →
  originalProduct configuredProducts productId = Some original →
  hasUnsavedChanges expandedProducts configuredProducts productId = false →
  saveProductConfiguration productId expandedProduct
  = saveProductConfiguration productId
      (mkExpanded (loaded_links original) (loaded_hideAtc original)).
Proof.
  intros He Ho [Hh Hl]%(clean_iff _ _ _ _ _ He Ho).
  unfold saveProductConfiguration. cbn [externalLinks hideAtc]. by rewrite Hh, Hl.
Qed.

Lemma clean_state_saves_loaded_form_witness :
  saveProductConfiguration "gid://shopify/Product/1"
    (mkExpanded [mkLink "" "" true; mkLink "https://a.com" "A" true] false)
  = saveProductConfiguration "gid://shopify/Product/1"
      (mkExpanded [mkLink "https://a.com" "A" true] false).
Proof.
  apply (clean_state_saves_loaded_form
           {["gid://shopify/Product/1" :=
               mkExpanded [mkLink "" "" true; mkLink "https://a.com" "A" true] false]}
           [mkLoaded "gid://shopify/Product/1" [mkLink "https://a.com" "A" true] false]
           "gid://shopify/Product/1" _
           (mkLoaded "gid://shopify/Product/1" [mkLink "https://a.com" "A" true] false)).
  - reflexivity.
  - reflexivity.
  - reflexivity.
Defined.

(** After a discard, and right after a product is first expanded, the
    dirty check reports no change. *)
Theorem discard_restores_loaded_state expandedProducts configuredProducts productId original :
  originalProduct configuredProducts productId = Some original →
  hasUnsavedChanges
    (handleSaveBarDiscard (Some productId) configuredProducts expandedProducts)
    configuredProducts productId = false
  ∧ (expandedProducts !! productId = None → loaded_id original = productId →
     hasUnsavedChanges (toggleProductExpansion original expandedProducts)
       configuredProducts productId = false).
Proof.
  intros Ho. split.
  - unfold handleSaveBarDiscard. rewrite Ho.
    eapply clean_iff; [apply lookup_insert_eq | done | done].
  - intros Hnone Hid. unfold toggleProductExpansion. rewrite Hid, Hnone.
    eapply clean_iff; [apply lookup_insert_eq | done | done].
Qed.

Lemma discard_restores_loaded_state_witness :
  hasUnsavedChanges
    (handleSaveBarDiscard (Some "gid://shopify/Product/1")
       [mkLoaded "gid://shopify/Product/1" [mkLink "https://a.com" "A" true] false]
       {["gid://shopify/Product/1" := mkExpanded [mkLink "https://b.com" "B" true] true]})
    [mkLoaded "gid://shopify/Product/1" [mkLink "https://a.com" "A" true] false]
    "gid://shopify/Product/1" = false.
Proof.
  apply (discard_restores_loaded_state
           {["gid://shopify/Product/1" := mkExpanded [mkLink "https://b.com" "B" true] true]}
           [mkLoaded "gid://shopify/Product/1" [mkLink "https://a.com" "A" true] false]
           "gid://shopify/Product/1"
           (mkLoaded "gid://shopify/Product/1" [mkLink "https://a.com" "A" true] false)).
  reflexivity.
Defined.

(** ** The editor: row operations *)

Lemma omap_imap_all {A} (g : nat → A → option A) (l : list A) :
  (∀ i x, g i x = Some x) → omap id (imap g l) = l.
Proof.
  revert g. induction l as [|x l IH]; intros g Hg; [done|].
  rewrite imap_cons. cbn. rewrite Hg. cbn. f_equal. apply IH. intros i y. apply Hg.
Qed.

Lemma remove_row {A} (l : list A) (index : nat) :
  omap id (imap (fun i link => if bool_decide (i = index) then None else Some link) l)
  = base.delete index l.
Proof.
  revert index. induction l as [|x l IH]; intros index; [by destruct index|].
  rewrite imap_cons. destruct index as [|index]; cbn.
  - apply omap_imap_all. intros i y. cbn. by rewrite bool_decide_eq_false_2.
  - f_equal. rewrite <- IH. f_equal. apply imap_ext. intros i y _. cbn.
    by rewrite (bool_decide_ext (S i = S index) (i = index)) by lia.
Qed.

Lemma imap_all {A} (g : nat → A → A) (l : list A) :
  (∀ i x, g i x = x) → imap g l = l.
Proof.
  revert g. induction l as [|x l IH]; intros g Hg; [done|].
  rewrite imap_cons, Hg. f_equal. apply IH. intros i y. apply Hg.
Qed.

Lemma update_row {A} (f : A → A) (l : list A) (index : nat) :
  imap (fun i link => if bool_decide (i = index) then f link else link) l
  = alter f index l.
Proof.
  revert index. induction l as [|x l IH]; intros index; [done|].
  rewrite imap_cons. destruct index as [|index]; cbn.
  - f_equal. apply imap_all. intros i y. cbn. by rewrite bool_decide_eq_false_2.
  - f_equal. rewrite <- IH. apply imap_ext. intros i y _. cbn.
    by rewrite (bool_decide_ext (S i = S index) (i = index)) by lia.
Qed.

Lemma delete_beyond {A} (l : list A) (index : nat) :
  (length l ≤ index)%nat → base.delete index l = l.
Proof.
  revert index. induction l as [|x l IH]; intros [|index] Hlen; cbn in *; try done;
    [lia|]. f_equal. apply IH. lia.
Qed.

Lemma alter_beyond {A} (f : A → A) (l : list A) (index : nat) :
  (length l ≤ index)%nat → alter f index l = l.
Proof.
  revert index. induction l as [|x l IH]; intros [|index] Hlen; cbn in *; try done;
    [lia|]. f_equal. apply IH. lia.
Qed.

(** Removing a row deletes the link at that index and updating one
    changes the link at that index only; an index beyond the rows changes
    no link; other products are left alone; removing the row that was just
    added gives back the state before. *)
Theorem editor_row_operations expandedProducts productId expandedProduct index value :
  expandedProducts !! productId = Some expandedProduct →
  let links := externalLinks expandedProduct in
  removeExternalLink productId index expandedProducts !! productId
  = Some (mkExpanded (base.delete index links) (hideAtc expandedProduct))
  ∧ updateExternalLink productId index value expandedProducts !! productId
    = Some (mkExpanded (alter (fun link => updatedLink link value) index links)
              (hideAtc expandedProduct))
  ∧ ((length links ≤ index)%nat →
     removeExternalLink productId index expandedProducts = expandedProducts
     ∧ updateExternalLink productId index value expandedProducts = expandedProducts)
  ∧ (∀ other, other ≠ productId →
     removeExternalLink productId index expandedProducts !! other
     = expandedProducts !! other
     ∧ updateExternalLink productId index value expandedProducts !! other
       = expandedProducts !! other
     ∧ addExternalLink productId expandedProducts !! other = expandedProducts !! other)
  ∧ removeExternalLink productId 0 (addExternalLink productId expandedProducts)
    = expandedProducts.
Proof.
  intros He links.
  assert (∀ l, l = links → <[productId := mkExpanded l (hideAtc expandedProduct)]>
                             expandedProducts = expandedProducts) as Hsame.
  { intros l ->. apply insert_id. rewrite He. by destruct expandedProduct. }
  unfold removeExternalLink, updateExternalLink, addExternalLink. rewrite He.
  fold links. rewrite remove_row, update_row.
  split; [apply lookup_insert_eq|]. split; [apply lookup_insert_eq|]. split; [|split].
  - intros Hlen. split; apply Hsame.
    + by apply delete_beyond.
    + by apply alter_beyond.
  - intros other Hne. by rewrite !lookup_insert_ne.
  - rewrite lookup_insert_eq. cbn [externalLinks hideAtc].
    rewrite remove_row. cbn [base.delete list_delete]. rewrite insert_insert_eq.
    by apply Hsame.
Qed.

Lemma editor_row_operations_witness :
  removeExternalLink "p" 0
    {["p" := mkExpanded [mkLink "https://a.com" "A" true; mkLink "https://b.com" "B" true]
               false]} !! "p"
  = Some (mkExpanded [mkLink "https://b.com" "B" true] false).
Proof.
  refine (proj1 (editor_row_operations
           {["p" := mkExpanded [mkLink "https://a.com" "A" true;
                                mkLink "https://b.com" "B" true] false]}
           "p"
           (mkExpanded [mkLink "https://a.com" "A" true;
                        mkLink "https://b.com" "B" true] false)
           0 (text_value "") _)).
  reflexivity.
Defined.

(** ** The form round trip: what the action reads is what the editor wrote *)

Lemma bytes_String c s : JS.bytes (String c s) = N_of_ascii c :: JS.bytes s.
Proof. reflexivity. Qed.

Lemma pretty_N_char_byte y :
  (y < 10)%N → N_of_ascii (pretty_N_char y) = (48 + y)%N.
Proof.
  intros Hy.
  assert (y = 0 ∨ y = 1 ∨ y = 2 ∨ y = 3 ∨ y = 4 ∨ y = 5 ∨ y = 6 ∨ y = 7 ∨ y = 8 ∨ y = 9)%N
    as Hcases by lia.
  repeat (destruct Hcases as [-> | Hcases]; [reflexivity|]). by subst y.
Qed.

Lemma digit_byte y : (y < 10)%N → JS.digit (48 + y) = Some y.
Proof.
  intros Hy. unfold JS.digit.
  destruct (N.leb_spec 48 (48 + y)); [|lia].
  destruct (N.leb_spec (48 + y) 57); [|lia].
  cbn. f_equal. lia.
Qed.

(** Reading the digits that [pretty] writes gives the number back. *)
Lemma digits_pretty_N_go x s :
  JS.digits (JS.bytes (pretty_N_go x s)) None
  = JS.digits (JS.bytes s) (if decide (x = 0)%N then None else Some x).
Proof.
  revert s. induction (N.lt_wf_0 x) as [x _ IH]; intros s.
  destruct (decide (x = 0)%N) as [->|Hx]; [by rewrite pretty_N_go_0|].
  rewrite pretty_N_go_step by lia.
  rewrite IH by (apply N.div_lt; lia).
  rewrite bytes_String, pretty_N_char_byte by (apply N.mod_lt; lia).
  cbn [JS.digits]. rewrite digit_byte by (apply N.mod_lt; lia).
  f_equal. f_equal.
  pose proof (N.div_mod x 10 ltac:(lia)) as Hdm.
  destruct (decide (x `div` 10 = 0)%N) as [E|E]; cbn [default from_option id].
  - rewrite E in Hdm. lia.
  - lia.
Qed.

Lemma digits_only_pretty_N_go x s :
  digits_only s → digits_only (pretty_N_go x s).
Proof.
  revert s. induction (N.lt_wf_0 x) as [x _ IH]; intros s Hs.
  destruct (decide (x = 0)%N) as [->|Hx]; [by rewrite pretty_N_go_0|].
  rewrite pretty_N_go_step by lia. apply IH; [apply N.div_lt; lia|].
  unfold digits_only. rewrite bytes_String. constructor; [|done].
  rewrite pretty_N_char_byte by (apply N.mod_lt; lia).
  pose proof (N.mod_lt x 10 ltac:(lia)) as Hlt. cbn beta.
  revert Hlt. generalize (x `mod` 10)%N. intros y Hy. lia.
Qed.

Lemma pretty_N_go_length x s :
  (String.length s ≤ String.length (pretty_N_go x s))%nat.
Proof.
  revert s. induction (N.lt_wf_0 x) as [x _ IH]; intros s.
  destruct (decide (x = 0)%N) as [->|Hx]; [by rewrite pretty_N_go_0|].
  rewrite pretty_N_go_step by lia.
  etrans; [|apply IH; apply N.div_lt; lia]. cbn. lia.
Qed.

Lemma length_bytes s : length (JS.bytes s) = String.length s.
Proof. induction s as [|c s IH]; [done|]. rewrite bytes_String. cbn. by rewrite IH. Qed.

Lemma digits_only_of_nat n : digits_only (JS.of_nat n).
Proof.
  unfold JS.of_nat, pretty, pretty_nat, pretty, pretty_N.
  destruct (decide (N.of_nat n = 0)%N) as [_|Hn].
  - by repeat constructor.
  - apply digits_only_pretty_N_go. constructor.
Qed.

(** The decimal form of an index begins with a digit. *)
Lemma of_nat_head n :
  ∃ d rest, JS.bytes (JS.of_nat n) = d :: rest ∧ (48 <= d <= 57)%N.
Proof.
  pose proof (digits_only_of_nat n) as Hd. unfold digits_only in Hd.
  assert (0 < length (JS.bytes (JS.of_nat n)))%nat as Hlen.
  { rewrite length_bytes. unfold JS.of_nat, pretty, pretty_nat, pretty, pretty_N.
    destruct (decide (N.of_nat n = 0)%N) as [_|Hn]; [cbn; lia|].
    rewrite pretty_N_go_step by lia.
    eapply Nat.lt_le_trans; [|apply pretty_N_go_length]. cbn. lia. }
  destruct (JS.bytes (JS.of_nat n)) as [|d rest]; [cbn in Hlen; lia|].
  exists d, rest. split; [done|]. by inversion Hd.
Qed.

(** No white space is stripped from a text that begins with a digit. *)
Lemma trimStart_digit d rest :
  (48 <= d <= 57)%N → JS.trimStart (d :: rest) = d :: rest.
Proof.
  intros Hd.
  assert (d = 48 ∨ d = 49 ∨ d = 50 ∨ d = 51 ∨ d = 52 ∨ d = 53 ∨ d = 54 ∨ d = 55
          ∨ d = 56 ∨ d = 57)%N as Hcases by lia.
  repeat (destruct Hcases as [-> | Hcases]; [reflexivity|]). by subst d.
Qed.

(** [parseInt] reads back the length the editor wrote. *)
Lemma parseInt_of_nat n : JS.iterations (JS.parseInt (JS.of_nat n)) = n.
Proof.
  destruct (of_nat_head n) as (d & rest & Hbytes & Hd).
  unfold JS.parseInt. rewrite Hbytes, (trimStart_digit _ _ Hd).
  assert (JS.digits (d :: rest) None = Some (N.of_nat n)) as Hdigits.
  { rewrite <- Hbytes. unfold JS.of_nat, pretty, pretty_nat, pretty, pretty_N.
    destruct (decide (N.of_nat n = 0)%N) as [E|Hn]; [by rewrite E|].
    rewrite digits_pretty_N_go. cbn. by rewrite decide_False. }
  assert (match d :: rest with
          | 45%N :: l => (fun n => (- Z.of_N n)%Z) <$> JS.digits l None
          | 43%N :: l => Z.of_N <$> JS.digits l None
          | l => Z.of_N <$> JS.digits l None
          end = Z.of_N <$> JS.digits (d :: rest) None) as ->.
  { assert (d = 48 ∨ d = 49 ∨ d = 50 ∨ d = 51 ∨ d = 52 ∨ d = 53 ∨ d = 54 ∨ d = 55
            ∨ d = 56 ∨ d = 57)%N as Hcases by lia.
    repeat (destruct Hcases as [-> | Hcases]; [reflexivity|]). by subst d. }
  rewrite Hdigits. cbn. lia.
Qed.

Lemma digits_only_String c s :
  digits_only (String c s) ↔ (48 <= N_of_ascii c <= 57)%N ∧ digits_only s.
Proof.
  unfold digits_only. rewrite bytes_String.
  split; [by intros H; inversion H | by intros [? ?]; constructor].
Qed.

Lemma digits_suffix_inj a b t t' :
  digits_only a → digits_only b →
  a +:+ String "_" t = b +:+ String "_" t' → a = b ∧ t = t'.
Proof.
  revert b. induction a as [|c a IH]; intros [|c' b] Ha Hb E; cbn in E.
  - by simplify_eq.
  - apply digits_only_String in Hb as [Hc _]. simplify_eq. cbn in Hc. lia.
  - apply digits_only_String in Ha as [Hc _]. simplify_eq. cbn in Hc. lia.
  - apply digits_only_String in Ha as [_ Ha]. apply digits_only_String in Hb as [_ Hb].
    injection E as -> E. destruct (IH _ Ha Hb E) as [-> ->]. done.
Qed.

(** Two field names of links are equal only for the same index and the
    same suffix. *)
Lemma link_field_inj i j t t' :
  link_field i (String "_" t) = link_field j (String "_" t') → i = j ∧ t = t'.
Proof.
  unfold link_field. intros E. cbn in E. simplify_eq.
  match goal with H : _ +:+ _ = _ +:+ _ |- _ =>
    apply digits_suffix_inj in H as [Hn ->]; [|apply digits_only_of_nat..] end.
  split; [|done]. by apply (inj pretty).
Qed.

Lemma get_set_link_other name formData index link :
  (∀ t, name ≠ link_field index (String "_" t)) →
  FormData.get name (set_link formData (index, link)) = FormData.get name formData.
Proof.
  intros Hne. unfold set_link.
  destruct (enabled link); rewrite !get_set_ne; try done;
    intros E; by apply (Hne _ (eq_sym E)).
Qed.

Lemma get_foldl_other name formData (entries : list (nat * ExternalLink)) :
  (∀ e t, e ∈ entries → name ≠ link_field e.1 (String "_" t)) →
  FormData.get name (foldl set_link formData entries) = FormData.get name formData.
Proof.
  revert formData. induction entries as [|[index link] entries IH]; intros formData Hne;
    [done|].
  cbn [foldl]. rewrite IH.
  - apply get_set_link_other. intros t. apply (Hne (index, link)). apply list_elem_of_here.
  - intros e t He. apply Hne. by apply list_elem_of_further.
Qed.

Lemma link_field_ne i j t t' : i ≠ j ∨ t ≠ t' →
  link_field i (String "_" t) ≠ link_field j (String "_" t').
Proof. intros Hne E. apply link_field_inj in E as [-> ->]. by destruct Hne. Qed.

(** What one link leaves in the form under its three names. *)
Lemma get_set_link_own formData index link :
  FormData.get (link_field index "_url") (set_link formData (index, link))
  = Some (url link)
  ∧ FormData.get (link_field index "_text") (set_link formData (index, link))
    = Some (text link)
  ∧ FormData.get (link_field index "_enabled") (set_link formData (index, link))
    = if enabled link then Some "on"
      else FormData.get (link_field index "_enabled") formData.
Proof.
  assert (∀ s, JS.or_else s "" = s) as Hor.
  { intros s. unfold JS.or_else, JS.falsy. by case_bool_decide. }
  unfold set_link. fold (link_field index "_url") (link_field index "_text")
    (link_field index "_enabled"). rewrite !Hor.
  destruct (enabled link).
  - rewrite get_set_eq.
    rewrite (get_set_ne (link_field index "_url")), (get_set_ne (link_field index "_url")),
      get_set_eq, (get_set_ne (link_field index "_text")), get_set_eq;
      [done | apply link_field_ne; by right ..].
  - rewrite (get_set_ne (link_field index "_url")), get_set_eq, get_set_eq,
      !(get_set_ne (link_field index "_enabled"));
      [done | apply link_field_ne; by right ..].
Qed.

Lemma get_foldl_set_link_entry links : ∀ first formData k link,
  links !! k = Some link →
  let written :=
    foldl set_link formData (imap (fun j l => (first + j, l)) links) in
  FormData.get (link_field (first + k) "_url") written = Some (url link)
  ∧ FormData.get (link_field (first + k) "_text") written = Some (text link)
  ∧ FormData.get (link_field (first + k) "_enabled") written
    = if enabled link then Some "on"
      else FormData.get (link_field (first + k) "_enabled") formData.
Proof.
  induction links as [|x links IH]; intros first formData k link Hk; [done|].
  rewrite imap_cons. cbn [foldl].
  rewrite (imap_ext _ (fun j l => (S first + j, l)) links)
    by (intros j y _; cbn; f_equal; lia).
  destruct k as [|k].
  - injection Hk as ->. cbn zeta. rewrite !Nat.add_0_r.
    rewrite !get_foldl_other.
    + apply get_set_link_own.
    + intros [j l] t (i & y & [= -> ->] & _)%elem_of_lookup_imap_1.
      apply link_field_ne. left. cbn. lia.
    + intros [j l] t (i & y & [= -> ->] & _)%elem_of_lookup_imap_1.
      apply link_field_ne. left. cbn. lia.
    + intros [j l] t (i & y & [= -> ->] & _)%elem_of_lookup_imap_1.
      apply link_field_ne. left. cbn. lia.
  - cbn in Hk. replace (first + S k) with (S first + k) by lia.
    destruct (IH (S first) (set_link formData (first + 0, x)) k link Hk) as (Hu & Ht & He).
    split; [done|]. split; [done|]. cbn zeta in *. rewrite He.
    destruct (enabled link); [done|].
    apply get_set_link_other. intros t. apply link_field_ne. left. lia.
Qed.

Lemma form_round_trip productId expandedProduct :
  form_links (saveProductConfiguration productId expandedProduct)
  = validLinks (externalLinks expandedProduct).
Proof.
  set (links := validLinks (externalLinks expandedProduct)).
  set (base := FormData.set "linkCount" (JS.of_nat (length links))
                 (FormData.set "productId" productId
                    (FormData.set "actionType" "save" []))).
  set (written := foldl set_link base (imap (fun index link => (index, link)) links)).
  assert (∀ name, (∀ t, name ≠ String "h" t) →
            FormData.get name (saveProductConfiguration productId expandedProduct)
            = FormData.get name written) as Hget.
  { intros name Hname. unfold saveProductConfiguration. fold links base written.
    destruct (hideAtc expandedProduct); [|done].
    apply get_set_ne. intros E. by apply (Hname _ (eq_sym E)). }
  unfold form_links. rewrite Hget by done.
  assert (FormData.get "linkCount" written = Some (JS.of_nat (length links))) as ->.
  { unfold written. rewrite get_foldl_other; [done|]. by intros e t _. }
  assert (JS.opt_or (Some (JS.of_nat (length links))) "0" = JS.of_nat (length links)) as ->.
  { unfold JS.opt_or, JS.or_else, JS.falsy. case_bool_decide as E; [|done].
    destruct (of_nat_head (length links)) as (d & rest & Hbytes & _).
    by rewrite E in Hbytes. }
  rewrite parseInt_of_nat.
  rewrite <- (imap_seq_0 links (form_link _)).
  rewrite (imap_ext _ (fun _ link => link) links); [by apply imap_all|].
  intros i link Hi. unfold form_link.
  fold (link_field i "_url") (link_field i "_text") (link_field i "_enabled").
  rewrite !Hget by (intros t E; unfold link_field in E; by cbn in E).
  destruct (get_foldl_set_link_entry links 0 base i link Hi) as (Hu & Ht & He).
  cbn zeta in *. change (0 + i) with i in *.
  change (imap (fun j l => (0 + j, l)) links)
    with (imap (fun index link => (index, link)) links) in *.
  fold written in Hu, Ht, He. rewrite Hu, Ht, He.
  assert (FormData.get (link_field i "_enabled") base = None) as ->.
  { unfold base. rewrite !get_set_ne; [done|..];
      intros E; unfold link_field in E; by cbn in E. }
  assert (∀ s, JS.opt_or (Some s) "" = s) as Hor.
  { intros s. unfold JS.opt_or, JS.or_else, JS.falsy. by case_bool_decide. }
  rewrite !Hor. destruct link as [u t []]; done.
Qed.

(** The form the editor builds is read back by the action as what the
    editor holds: a save, for that product, with exactly the links the
    editor kept, in their order, whatever their urls and texts are, and
    with its hide flag. *)
Theorem form_links_saveProductConfiguration productId expandedProduct :
  let formData := saveProductConfiguration productId expandedProduct in
  FormData.get "actionType" formData = Some "save"
  ∧ FormData.get "productId" formData = Some productId
  ∧ form_links formData = validLinks (externalLinks expandedProduct)
  ∧ form_hideAtc formData = hideAtc expandedProduct.
Proof.
  intros formData. subst formData.
  split; [by rewrite saveProductConfiguration_get|].
  split; [by rewrite saveProductConfiguration_get|].
  split; [apply form_round_trip|].
  unfold form_hideAtc, saveProductConfiguration.
  destruct (hideAtc expandedProduct).
  - by rewrite get_set_eq.
  - by rewrite get_foldl_set_link.
Qed.

(** What is persisted by a save from the editor: the links it kept, in
    order, as one JSON value under [external_links] (and [hide_atc] with the
    flag), after the superseded keys are deleted. *)
Theorem editor_save_persists_kept_links env productId expandedProduct existingData :
  productId ≠ "" →
  reaches_upsert env productId existingData →
  let existing := product_nodes existingData in
  (run env [] (action (saveProductConfiguration productId expandedProduct))).2
  = getProductMetafields productId
    :: delete_requests productId (metafieldsToDelete existing (hideAtc expandedProduct))
    ++ [productUpdate productId
          (mkInput "bl_custom_button" (update_target existing "external_links")
             "external_links"
             (JSON_stringify (validLinks (externalLinks expandedProduct))) "json"
           :: if hideAtc expandedProduct
              then [mkInput "bl_custom_button" (update_target existing "hide_atc")
                      "hide_atc" "true" "single_line_text_field"]
              else [])].
Proof.
  intros Hne Henv existing.
  destruct (saveProductConfiguration_save_request productId expandedProduct Hne)
    as [Hreq Hflag].
  rewrite (save_trace env _ productId existingData Hreq Henv).
  rewrite Hflag, form_round_trip. fold existing.
  unfold metafieldsToSave. destruct (hideAtc expandedProduct);
    cbn [fmap list_fmap app]; by rewrite !to_input_field.
Qed.

Lemma editor_save_persists_kept_links_witness :
  (run sample_env []
     (action (saveProductConfiguration "gid://shopify/Product/1"
                (mkExpanded [ mkLink "https://a.com" "A" true; mkLink "" "B" true;
                              mkLink "https://c.com" "C" false ] false)))).2
  = [ getProductMetafields "gid://shopify/Product/1";
      metafieldsDelete [mkIdent "gid://shopify/Product/1" "bl_custom_button" "hide_atc"];
      productUpdate "gid://shopify/Product/1"
        [mkInput "bl_custom_button" (Some "gid://shopify/Metafield/2") "external_links"
           (JS.dq "[{'url':'https://a.com','text':'A','enabled':true},{'url':'https://c.com','text':'C','enabled':false}]")
           "json"] ].
Proof.
  apply (editor_save_persists_kept_links sample_env "gid://shopify/Product/1"
           (mkExpanded [ mkLink "https://a.com" "A" true; mkLink "" "B" true;
                         mkLink "https://c.com" "C" false ] false)
           (mkResponse None (Some (data_product (Some ("Mug", sample_existing)))))).
  - done.
  - split; [reflexivity | done].
Defined.

(** ** What never leaves a handler *)

Lemma run_bind {A B} env (p : Remote A) (f : A → Remote B) hist :
  run env hist (p ≫= f)
  = match run env hist p with
    | (inl e, trace) => (inl e, trace)
    | (inr a, trace) =>
        let '(res, rest) := run env (hist ++ trace) (f a) in (res, trace ++ rest)
      end.
Proof.
  revert hist. induction p as [a|e|q k IH]; intros hist.
  - cbn. rewrite app_nil_r. by destruct (run env hist (f a)).
  - done.
  - change (Graphql q k ≫= f) with (Graphql q (fun r => k r ≫= f)).
    cbn [run]. rewrite IH. destruct (run env (hist ++ [q]) (k (env hist q))) as [[e|a] trace].
    + done.
    + rewrite <- app_assoc. cbn. by destruct (run env _ (f a)).
Qed.

Lemma run_try_catch {A} env (p : Remote A) (h : string → A) hist :
  run env hist (try_catch p (fun e => Ret (h e)))
  = match run env hist p with
    | (inl e, trace) => (inr (h e), trace)
    | (inr a, trace) => (inr a, trace)
    end.
Proof.
  revert hist. induction p as [a|e|q k IH]; intros hist; [done..|].
  cbn [try_catch run]. rewrite IH.
  by destruct (run env (hist ++ [q]) (k (env hist q))) as [[e|a] trace].
Qed.

Lemma stops_at_rejection_nil {A} env hist (res : string + A) :
  stops_at_rejection env hist (res, []).
Proof. by intros i q m ?. Qed.

Lemma stops_at_rejection_Graphql {A} env hist q (k : Reply → Remote A) :
  (∀ e, run env (hist ++ [q]) (k (Threw e)) = (inl e, [])) →
  (∀ r, env hist q = Json r →
        stops_at_rejection env (hist ++ [q]) (run env (hist ++ [q]) (k (Json r)))) →
  stops_at_rejection env hist (run env hist (Graphql q k)).
Proof.
  intros Hthrow Hrest. cbn [run].
  destruct (env hist q) as [e|r] eqn:Hreply.
  - rewrite Hthrow. intros [|i] q' m; cbn; [|done].
    intros [= <-]. rewrite app_nil_r, Hreply. by intros [= <-].
  - specialize (Hrest r eq_refl).
    destruct (run env (hist ++ [q]) (k (Json r))) as [res rest].
    intros [|i] q' m; cbn.
    + intros [= <-]. rewrite app_nil_r, Hreply. done.
    + intros Hq Hm. rewrite (cons_middle q), app_assoc in Hm.
      destruct (Hrest i q' m Hq Hm) as [Hres Hlen]. cbn in Hres, Hlen.
      by rewrite Hres, Hlen.
Qed.

(** The program of the goal, brought to its first request or result. *)
Ltac head_program :=
  lazymatch goal with
  | |- stops_at_rejection ?env ?hist (run ?env ?hist ?p) =>
      let p' := eval hnf in p in
      change (stops_at_rejection env hist (run env hist p'))
  end.

Ltac next_request :=
  head_program;
  apply stops_at_rejection_Graphql;
    [intros; reflexivity | intros ? _; cbn [bind mbind Remote_bind]].

Ltac returns := head_program; exact (stops_at_rejection_nil _ _ _).

Lemma save_stops_at_rejection env hist productId formData :
  stops_at_rejection env hist (run env hist (save productId formData)).
Proof.
  unfold save. cbv zeta. next_request.
  destruct (0 <? length (metafieldsToDelete _ _))%nat.
  - next_request.
    destruct (0 <? length (metafieldsToSave _ _ _))%nat; [|returns].
    next_request.
    destruct (errors _); [returns|].
    destruct (productUpdate_userErrors _) as [[|]|]; returns.
  - cbn [bind mbind Remote_bind].
    destruct (0 <? length (metafieldsToSave _ _ _))%nat; [|returns].
    next_request.
    destruct (errors _); [returns|].
    destruct (productUpdate_userErrors _) as [[|]|]; returns.
Qed.

Lemma delete_stops_at_rejection env hist productId :
  stops_at_rejection env hist (run env hist (delete productId)).
Proof.
  unfold delete. next_request.
  destruct (errors _) as [[|e errs]|]; [returns..|].
  destruct (0 <? length (product_nodes _))%nat; [|returns].
  next_request.
  destruct (errors _) as [[|e errs]|]; [returns..|].
  destruct (0 <? length (metafieldsDelete_userErrors _))%nat; returns.
Qed.

Lemma try_catch_reports {A} env (p : Remote A) (h : string → A) :
  stops_at_rejection env [] (run env [] p) →
  let outcome := run env [] (try_catch p (fun e => Ret (h e))) in
  ∀ i q m,
    outcome.2 !! i = Some q →
    env (take i outcome.2) q = Threw m →
    outcome.1 = inr (h m) ∧ length outcome.2 = S i.
Proof.
  intros Hstops outcome i q m. subst outcome. rewrite run_try_catch.
  destruct (run env [] p) as [[e|a] trace]; cbn; intros Hq Hm;
    destruct (Hstops i q m Hq Hm) as [Hres Hlen]; cbn in Hres, Hlen;
    [|done].
  injection Hres as ->. by rewrite Hlen.
Qed.

(** A remote call of the action that is rejected with an error ends the
    action at once: nothing is requested after it, and the action
    answers with the failure "Failed to delete product configuration: "
    followed by the message of the error, in the save branch as in the
    delete branch. Without a product id, or with an action type other
    than [save] and [delete], the action answers "Invalid action"
    without a single request. *)
Theorem action_reports_rejections env formData :
  let outcome := run env [] (action formData) in
  (∀ i q m,
     outcome.2 !! i = Some q →
     env (take i outcome.2) q = Threw m →
     outcome.1 = inr (failed ("Failed to delete product configuration: " +:+ m))
     ∧ length outcome.2 = S i)
  ∧ ((FormData.get "productId" formData = None
      ∨ FormData.get "productId" formData = Some ""
      ∨ (FormData.get "actionType" formData ≠ Some "save"
         ∧ FormData.get "actionType" formData ≠ Some "delete")) →
     outcome = (inr (failed "Invalid action"), [])).
Proof.
  intros outcome. subst outcome. split.
  - unfold action.
    apply (try_catch_reports env _
             (fun m => failed ("Failed to delete product configuration: " +:+ m))).
    destruct (FormData.get "productId" formData) as [id|];
      [|apply stops_at_rejection_nil].
    destruct (JS.falsy id); [apply stops_at_rejection_nil|].
    case_bool_decide; [apply save_stops_at_rejection|].
    case_bool_decide; [apply delete_stops_at_rejection|].
    apply stops_at_rejection_nil.
  - unfold action. intros [-> | [-> | [Hs Hd]]]; [done..|].
    destruct (FormData.get "productId" formData) as [id|]; [|done].
    destruct (JS.falsy id); [done|].
    by rewrite !bool_decide_eq_false_2.
Qed.

(** A save whose upsert is rejected: the failure names a delete. *)
Example rejected_upsert_is_reported :
  run rejecting_env [] (action (addProduct "gid://shopify/Product/1"))
  = (inr (failed "Failed to delete product configuration: Network request failed"),
     [ getProductMetafields "gid://shopify/Product/1";
       metafieldsDelete [mkIdent "gid://shopify/Product/1" "bl_custom_button" "hide_atc"];
       productUpdate "gid://shopify/Product/1"
         [mkInput "bl_custom_button" (Some "gid://shopify/Metafield/2")
            "external_links" "[]" "json"] ]).
Proof. vm_compute. reflexivity. Qed.

(** ** The reconciler *)

Lemma existingMetafieldMap_lookup existing key :
  (∀ mf, existingMetafieldMap existing !! key = Some mf →
         mf ∈ existing ∧ mf_key mf = key)
  ∧ ((∃ mf, mf ∈ existing ∧ mf_key mf = key) →
     is_Some (existingMetafieldMap existing !! key)).
Proof.
  unfold existingMetafieldMap.
  assert (∀ l (m : gmap string MetafieldNode),
            (∀ mf, foldl (fun m mf => <[mf_key mf := mf]> m) m l !! key = Some mf →
                   (mf ∈ l ∧ mf_key mf = key) ∨ m !! key = Some mf)
            ∧ ((∃ mf, mf ∈ l ∧ mf_key mf = key) ∨ is_Some (m !! key) →
               is_Some (foldl (fun m mf => <[mf_key mf := mf]> m) m l !! key))) as Hgen.
  { induction l as [|x l IH]; intros m.
    - split; [by right|]. intros [(mf & []%elem_of_nil & _) | H]; done.
    - cbn [foldl]. destruct (IH (<[mf_key x := x]> m)) as [IH1 IH2]. split.
      + intros mf [[Hin Hk] | Hm]%IH1.
        * left. split; [by apply list_elem_of_further | done].
        * destruct (decide (mf_key x = key)) as [E|E].
          -- rewrite E, lookup_insert_eq in Hm. injection Hm as ->.
             left. split; [apply list_elem_of_here | done].
          -- rewrite lookup_insert_ne in Hm by done. by right.
      + intros H. apply IH2.
        destruct (decide (mf_key x = key)) as [E|E].
        * right. rewrite E, lookup_insert_eq. eauto.
        * rewrite lookup_insert_ne by done.
          destruct H as [(mf & [-> | Hin]%elem_of_cons & Hk) | H]; [done | |by right].
          left. eauto. }
  destruct (Hgen existing ∅) as [H1 H2]. split.
  - intros mf [H | H]%H1; [done | by rewrite lookup_empty in H].
  - intros H. apply H2. by left.
Qed.

Lemma elem_of_metafieldsToDelete existing hideAtc mf :
  mf ∈ metafieldsToDelete existing hideAtc
  ↔ mf ∈ existing ∧ mf_key mf ≠ "external_links"
    ∧ (hideAtc = true → mf_key mf ≠ "hide_atc").
Proof.
  unfold metafieldsToDelete, keysToKeep.
  rewrite list_elem_of_In, List.filter_In, <- list_elem_of_In, negb_true_iff,
    bool_decide_eq_false.
  destruct hideAtc; [rewrite elem_of_union|]; rewrite !elem_of_singleton;
    intuition congruence.
Qed.

(** What the reconciler plans, for any existing nodes: an existing node is
    deleted iff its key is not kept; the keys written are [external_links]
    and, with the flag only, [hide_atc], none of them among the deleted; an
    [id] on a written entry is the id of an existing node of that key, and
    an existing key with non-empty ids is updated, not created. *)
Theorem reconciler_plan existing links hideAtc :
  (∀ mf, mf ∈ metafieldsToDelete existing hideAtc
         ↔ mf ∈ existing ∧ mf_key mf ≠ "external_links"
           ∧ (hideAtc = true → mf_key mf ≠ "hide_atc"))
  ∧ field_key <$> metafieldsToSave existing links hideAtc
    = "external_links" :: (if hideAtc then ["hide_atc"] else [])
  ∧ (∀ mf field, mf ∈ metafieldsToDelete existing hideAtc →
                 field ∈ metafieldsToSave existing links hideAtc →
                 mf_key mf ≠ field_key field)
  ∧ (∀ input id, input ∈ to_input <$> metafieldsToSave existing links hideAtc →
                 in_id input = Some id →
                 ∃ mf, mf ∈ existing ∧ mf_key mf = in_key input ∧ mf_id mf = id)
  ∧ (∀ input, input ∈ to_input <$> metafieldsToSave existing links hideAtc →
              Forall (fun mf => mf_id mf ≠ "") existing →
              (∃ mf, mf ∈ existing ∧ mf_key mf = in_key input) →
              is_Some (in_id input)).
Proof.
  assert (∀ mf, mf ∈ metafieldsToDelete existing hideAtc
                ↔ mf ∈ existing ∧ mf_key mf ≠ "external_links"
                  ∧ (hideAtc = true → mf_key mf ≠ "hide_atc")) as Hdel.
  { intros mf. apply elem_of_metafieldsToDelete. }
  assert (∀ input, input ∈ to_input <$> metafieldsToSave existing links hideAtc →
            in_id input = update_target existing (in_key input)
            ∧ (in_key input = "external_links"
               ∨ in_key input = "hide_atc" ∧ hideAtc = true)) as Hsave.
  { intros input. unfold metafieldsToSave.
    destruct hideAtc; cbn [fmap list_fmap app]; rewrite !to_input_field.
    - intros [-> | [-> | []%elem_of_nil]%elem_of_cons]%elem_of_cons; cbn; auto.
    - intros ->%list_elem_of_singleton. cbn. auto. }
  split; [done|]. split; [by destruct hideAtc|]. split; [|split].
  - intros mf field [_ [Hne Hh]]%Hdel. unfold metafieldsToSave.
    destruct hideAtc.
    + intros [-> | [-> | []%elem_of_nil]%elem_of_cons]%elem_of_cons; cbn; auto.
    + intros ->%list_elem_of_singleton. done.
  - intros input id [Hid _]%Hsave. rewrite Hid. unfold update_target.
    destruct (existingMetafieldMap existing !! in_key input) as [mf|] eqn:E; [|done].
    apply (proj1 (existingMetafieldMap_lookup existing _)) in E as [Hin Hk].
    destruct (JS.falsy (mf_id mf)); [done|]. intros [= <-]. eauto.
  - intros input [Hid _]%Hsave Hids Hex. rewrite Hid. unfold update_target.
    destruct (proj2 (existingMetafieldMap_lookup existing _) Hex) as [mf E]. rewrite E.
    apply (proj1 (existingMetafieldMap_lookup existing _)) in E as [Hin _].
    rewrite Forall_forall in Hids. rewrite (falsy_false _ (Hids _ Hin)). eauto.
Qed.

(** A save over a store that holds nothing but the keys to keep deletes
    nothing: its requests are the read and the upsert. *)
Theorem no_delete_when_nothing_is_stale env formData productId existingData :
  save_request formData productId →
  env [] (getProductMetafields productId) = Json existingData →
  Forall (fun mf => mf_key mf = "external_links"
                    ∨ (mf_key mf = "hide_atc" ∧ form_hideAtc formData = true))
    (product_nodes existingData) →
  (run env [] (action formData)).2
  = [ getProductMetafields productId;
      productUpdate productId
        (to_input <$> metafieldsToSave (product_nodes existingData)
                        (form_links formData) (form_hideAtc formData)) ].
Proof.
  intros Hreq Hread Hall.
  assert (metafieldsToDelete (product_nodes existingData) (form_hideAtc formData) = [])
    as Hnone.
  { destruct (metafieldsToDelete _ _) as [|mf l] eqn:E; [done|]. exfalso.
    assert (mf ∈ metafieldsToDelete (product_nodes existingData) (form_hideAtc formData))
      as Hin by (rewrite E; apply list_elem_of_here).
    apply elem_of_metafieldsToDelete in Hin as (Hin & Hne & Hh).
    rewrite Forall_forall in Hall.
    destruct (Hall _ Hin) as [Hk | [Hk Ht]]; [by apply Hne | by apply Hh]. }
  rewrite (action_save _ _ Hreq). unfold save. cbv zeta. cbn. rewrite Hread. cbn.
  rewrite Hnone. cbn.
  destruct (env _ (productUpdate _ _)) as [m|r]; cbn; [done|].
  destruct (errors r); cbn; [done|].
  destruct (productUpdate_userErrors r) as [[|]|]; done.
Qed.

Lemma no_delete_when_nothing_is_stale_witness :
  (run (fun _ _ => Json (mkResponse None (Some (data_product (Some ("Mug",
          [mkNode "gid://shopify/Metafield/2" "external_links" "[]" "json"]))))))
     [] (action (addProduct "gid://shopify/Product/1"))).2
  = [ getProductMetafields "gid://shopify/Product/1";
      productUpdate "gid://shopify/Product/1"
        [mkInput "bl_custom_button" (Some "gid://shopify/Metafield/2")
           "external_links" "[]" "json"] ].
Proof.
  apply (no_delete_when_nothing_is_stale _ (addProduct "gid://shopify/Product/1")
           "gid://shopify/Product/1"
           (mkResponse None (Some (data_product (Some ("Mug",
              [mkNode "gid://shopify/Metafield/2" "external_links" "[]" "json"])))))).
  - split; [reflexivity | split; [reflexivity | done]].
  - reflexivity.
  - repeat constructor.
Defined.

(** ** The delete branch, with metafields to delete *)

(** A delete request for a product with metafields issues the read and
    one [metafieldsDelete] naming every key found, in order; it succeeds
    iff that call is answered without [errors] and without user errors. If
    the read comes back with [errors], nothing is deleted. *)
Theorem delete_removes_every_key env formData productId metafieldsData :
  delete_request formData productId →
  env [] (getProductMetafieldKeys productId) = Json metafieldsData →
  let nodes := product_nodes metafieldsData in
  let deletion :=
    metafieldsDelete
      ((fun mf => mkIdent productId "bl_custom_button" (mf_key mf)) <$> nodes) in
  let outcome := run env [] (action formData) in
  (∀ e errs, errors metafieldsData = Some (e :: errs) →
     outcome = (inr (failed ("Failed to fetch metafields: " +:+ message e)),
                [getProductMetafieldKeys productId]))
  ∧ (errors metafieldsData = None → nodes ≠ [] →
     outcome.2 = [getProductMetafieldKeys productId; deletion]
     ∧ ∃ result, outcome.1 = inr result
       ∧ (success result = true
          ↔ ∃ deleteData,
              env [getProductMetafieldKeys productId] deletion = Json deleteData
              ∧ errors deleteData = None
              ∧ metafieldsDelete_userErrors deleteData = [])).
Proof.
  intros Hreq Hread. cbv zeta.
  rewrite (action_delete _ _ Hreq). unfold delete, METAFIELD_NAMESPACE. cbn.
  rewrite Hread. cbn. split.
  - by intros e errs ->.
  - intros -> Hnodes.
    destruct (product_nodes metafieldsData) as [|mf nodes] eqn:E; [done|]. cbn.
    match goal with |- context [env ?h ?q] =>
      destruct (env h q) as [m|deleteData] eqn:Hdel end; cbn.
    { split; [done|]. eexists. split; [done|]. cbn.
      split; [done|]. intros (x & Hx & _). discriminate. }
    destruct (errors deleteData) as [[|e errs]|] eqn:Eerr; cbn.
    + split; [done|]. eexists. split; [done|]. cbn.
      split; [done|]. intros (x & [= <-] & ? & _). congruence.
    + split; [done|]. eexists. split; [done|]. cbn.
      split; [done|]. intros (x & [= <-] & ? & _). congruence.
    + destruct (metafieldsDelete_userErrors deleteData) as [|u us] eqn:Eu; cbn.
      * split; [done|]. eexists. split; [done|]. cbn. split; [|done].
        intros _. by exists deleteData.
      * split; [done|]. eexists. split; [done|]. cbn.
        split; [done|]. intros (x & [= <-] & _ & ?). congruence.
Qed.

Lemma delete_removes_every_key_witness :
  (run sample_env []
     (action [("actionType", "delete"); ("productId", "gid://shopify/Product/1")])).2
  = [ getProductMetafieldKeys "gid://shopify/Product/1";
      metafieldsDelete
        [ mkIdent "gid://shopify/Product/1" "bl_custom_button" "hide_atc";
          mkIdent "gid://shopify/Product/1" "bl_custom_button" "external_links" ] ].
Proof.
  refine (proj1 (proj2 (delete_removes_every_key sample_env
            [("actionType", "delete"); ("productId", "gid://shopify/Product/1")]
            "gid://shopify/Product/1"
            (mkResponse None (Some (data_product (Some ("Mug", sample_existing)))))
            _ _) _ _)).
  - split; [reflexivity | split; [reflexivity | done]].
  - reflexivity.
  - reflexivity.
  - done.
Defined.

(** ** The installation procedure *)

Ltac split_cases :=
  repeat (cbn;
          match goal with
          | |- context [match ?x with _ => _ end] =>
              lazymatch x with
              | context [run] => fail
              | _ => destruct x eqn:?
              end
          end).

(** Whatever the remote side and the template surgery do, the install
    procedure returns a result (it never throws); it issues the write of
    the sentinel iff it reports success, which is iff its status is
    [installed] or [already_installed]; it issues a theme file write at most
    once, and does so whenever it reports [installed] and never when it
    reports [already_installed]. *)
Theorem install_marks_sentinel_iff_success patchTemplate now env hist :
  let outcome := run env hist (autoInstallAppBlock patchTemplate now) in
  match outcome.1 with
  | inl _ => False
  | inr result =>
      (install_success result = true ↔ existsb is_metafieldsSet outcome.2 = true)
      ∧ (install_success result = true
         ↔ status result = "installed" ∨ status result = "already_installed")
      ∧ (length (List.filter is_themeFilesUpsert outcome.2) ≤ 1)%nat
      ∧ (status result = "installed" → existsb is_themeFilesUpsert outcome.2 = true)
      ∧ (status result = "already_installed" →
         existsb is_themeFilesUpsert outcome.2 = false)
  end.
Proof.
  cbv zeta. unfold autoInstallAppBlock, markAutoInstallComplete.
  rewrite run_try_catch.
  split_cases; cbn;
    repeat split; first [lia | discriminate | intros [|]; discriminate | auto].
Qed.

(** ** The loader *)

Lemma loadThemeEditorUrl_run env hist shop :
  ∃ themeEditorUrl,
    run env hist (loadThemeEditorUrl shop) = (inr themeEditorUrl, [getThemes]).
Proof.
  unfold loadThemeEditorUrl. rewrite run_try_catch.
  split_cases; cbn; eauto.
Qed.

Lemma loadProducts_run JSON_parse length_exceeds_one env hist allProducts :
  env hist (getProductsWithMetafields "bl_custom_button")
  = Json (mkResponse None (Some (data_products allProducts))) →
  run env hist (loadProducts JSON_parse length_exceeds_one)
  = (inr match mapM (productData JSON_parse length_exceeds_one) allProducts with
         | Some products => List.filter hasMetafields products
         | None => []
         end,
     [getProductsWithMetafields "bl_custom_button"]).
Proof.
  intros Hreply. unfold loadProducts. rewrite run_try_catch. cbn. rewrite Hreply. cbn.
  by destruct (mapM _ allProducts).
Qed.

Lemma loadProducts_never_throws JSON_parse length_exceeds_one env hist :
  ∃ products,
    run env hist (loadProducts JSON_parse length_exceeds_one)
    = (inr products, [getProductsWithMetafields "bl_custom_button"]).
Proof.
  unfold loadProducts. rewrite run_try_catch.
  split_cases; cbn; eauto.
Qed.

Lemma checkAutoInstallStatus_run env hist :
  ∃ attempted,
    run env hist checkAutoInstallStatus
    = (inr attempted, [currentAppInstallation_block_installed]).
Proof.
  unfold checkAutoInstallStatus. rewrite run_try_catch.
  split_cases; cbn; eauto.
Qed.

Lemma autoInstall_never_throws patchTemplate now env hist configuredProducts :
  ∃ installed rest,
    run env hist (autoInstall patchTemplate now configuredProducts)
    = (inr installed, currentAppInstallation_block_installed :: rest).
Proof.
  unfold autoInstall. rewrite run_try_catch, run_bind.
  destruct (checkAutoInstallStatus_run env hist) as [attempted ->].
  destruct (run env (hist ++ _) _) as [[e|a] trace]; eauto.
Qed.

Lemma productData_None JSON_parse length_exceeds_one product :
  productData JSON_parse length_exceeds_one product = None
  ↔ null_links JSON_parse product.
Proof.
  unfold productData, null_links. cbv zeta.
  destruct (metafieldMap _ !! "external_links") as [value|]; cycle 1.
  { split; [done | by intros (? & ? & _)]. }
  destruct (JS.falsy value) eqn:Hfalsy.
  { split; [done | intros (? & [= <-] & ? & _); congruence]. }
  destruct (JSON_parse value) as [parsed|] eqn:Hparse; cycle 1.
  { split; [done | intros (? & [= <-] & _ & ?); congruence]. }
  destruct parsed; try (split; [done | intros (? & [= <-] & _ & ?); congruence]).
  - split; [eauto | done].
  - destruct (find_enabled _) as [[link|]|];
      (split; [done | intros (? & [= <-] & _ & ?); congruence]).
Qed.

Lemma productData_Some JSON_parse length_exceeds_one product row :
  productData JSON_parse length_exceeds_one product = Some row →
  product_id row = node_id product ∧ hasMetafields row = has_metafields product.
Proof.
  unfold productData, has_metafields. cbv zeta.
  set (fields := match metafieldMap _ !! "external_links" with
                 | Some _ => _
                 | None => _
                 end).
  destruct fields as [[[externalLinks buttonText] externalUrl] isEnabled].
  destruct externalLinks; cbn; try done; by intros [= <-].
Qed.

Lemma filter_rows JSON_parse length_exceeds_one allProducts products :
  mapM (productData JSON_parse length_exceeds_one) allProducts = Some products →
  product_id <$> List.filter hasMetafields products
  = node_id <$> List.filter has_metafields allProducts.
Proof.
  intros Hall%mapM_Some_1.
  induction Hall as [|product row allProducts products Hrow _ IH]; [done|].
  apply productData_Some in Hrow as [Hid Hhas]. cbn [List.filter]. rewrite Hhas.
  destruct (has_metafields product); rewrite ?fmap_cons; congruence.
Qed.

Lemma loader_run JSON_parse length_exceeds_one patchTemplate now env hist shop :
  ∃ themeEditorUrl products installed rest,
    run env hist (loader JSON_parse length_exceeds_one patchTemplate now shop)
    = (inr (mkLoaderData themeEditorUrl products shop installed.1 installed.2),
       getThemes :: getProductsWithMetafields "bl_custom_button"
       :: currentAppInstallation_block_installed :: rest)
    ∧ run env (hist ++ [getThemes]) (loadProducts JSON_parse length_exceeds_one)
      = (inr products, [getProductsWithMetafields "bl_custom_button"]).
Proof.
  unfold loader. rewrite run_bind.
  destruct (loadThemeEditorUrl_run env hist shop) as [themeEditorUrl ->].
  rewrite run_bind.
  destruct (loadProducts_never_throws JSON_parse length_exceeds_one env (hist ++ [getThemes]))
    as [products Hproducts].
  rewrite Hproducts. rewrite run_bind.
  destruct (autoInstall_never_throws patchTemplate now env
              ((hist ++ [getThemes]) ++ [getProductsWithMetafields "bl_custom_button"])
              products) as (installed & rest & ->).
  cbn [run]. exists themeEditorUrl, products, installed, rest.
  by rewrite app_nil_r.
Qed.

(** The loader never throws: whatever the remote side does (throwing
    included), it returns its data for the shop, after asking for the
    themes, then for the products, then for the sentinel; and every product
    it lists has a metafield in the namespace. *)
Theorem loader_never_throws
    JSON_parse length_exceeds_one patchTemplate now env hist shop :
  ∃ loaded rest,
    run env hist (loader JSON_parse length_exceeds_one patchTemplate now shop)
    = (inr loaded,
       getThemes :: getProductsWithMetafields "bl_custom_button"
       :: currentAppInstallation_block_installed :: rest)
    ∧ shopDomain loaded = shop
    ∧ Forall (fun product => hasMetafields product = true) (configuredProducts loaded).
Proof.
  destruct (loader_run JSON_parse length_exceeds_one patchTemplate now env hist shop)
    as (themeEditorUrl & products & installed & rest & -> & Hproducts).
  eexists _, rest. split; [reflexivity|]. split; [done|]. cbn [configuredProducts].
  revert Hproducts. unfold loadProducts. rewrite run_try_catch.
  cbn. split_cases; cbn; intros [= <-]; try by constructor.
  apply Forall_forall. intros product Hin%list_elem_of_In%filter_In. tauto.
Qed.

(** When the products query is answered with [allProducts], the list the
    loader returns is empty as soon as one product's [external_links]
    record parses to [null], whatever the other products hold; otherwise it
    is, in order, the products that have a metafield in the namespace. *)
Theorem null_record_empties_product_list
    JSON_parse length_exceeds_one patchTemplate now env hist shop allProducts :
  env (hist ++ [getThemes]) (getProductsWithMetafields "bl_custom_button")
  = Json (mkResponse None (Some (data_products allProducts))) →
  ∃ loaded trace,
    run env hist (loader JSON_parse length_exceeds_one patchTemplate now shop)
    = (inr loaded, trace)
    ∧ (Exists (null_links JSON_parse) allProducts → configuredProducts loaded = [])
    ∧ (Forall (fun product => ¬ null_links JSON_parse product) allProducts →
       product_id <$> configuredProducts loaded
       = node_id <$> List.filter has_metafields allProducts).
Proof.
  intros Hreply.
  destruct (loader_run JSON_parse length_exceeds_one patchTemplate now env hist shop)
    as (themeEditorUrl & products & installed & rest & -> & Hproducts).
  eexists _, _. split; [reflexivity|].
  rewrite (loadProducts_run _ _ _ _ allProducts Hreply) in Hproducts.
  injection Hproducts as <-. cbn [configuredProducts]. split.
  - intros Hnull.
    rewrite (mapM_None_2 (productData JSON_parse length_exceeds_one) allProducts); [done|].
    eapply Exists_impl; [exact Hnull|]. intros product. apply productData_None.
  - intros Hfine.
    destruct (mapM _ allProducts) as [rows|] eqn:Hrows.
    + by eapply filter_rows.
    + apply mapM_None_1 in Hrows. apply Exists_exists in Hrows as (product & Hin & Hnone).
      rewrite Forall_forall in Hfine. destruct (Hfine product Hin).
      by apply productData_None in Hnone.
Qed.

Lemma null_record_empties_product_list_witness :
  ∃ loaded trace,
    run (catalogue [legacy_product; null_product]) []
      (loader JSON.parse_text (fun _ => false) (fun _ => already_installed)
         "2024-01-15T10:30:00.000Z" "shop.example")
    = (inr loaded, trace)
    ∧ (Exists (null_links JSON.parse_text) [legacy_product; null_product] →
       configuredProducts loaded = [])
    ∧ (Forall (fun product => ¬ null_links JSON.parse_text product)
         [legacy_product; null_product] →
       product_id <$> configuredProducts loaded
       = node_id <$> List.filter has_metafields [legacy_product; null_product]).
Proof.
  apply (null_record_empties_product_list JSON.parse_text (fun _ => false)
           (fun _ => already_installed) "2024-01-15T10:30:00.000Z"
           (catalogue [legacy_product; null_product]) [] "shop.example"
           [legacy_product; null_product]).
  reflexivity.
Defined.

Lemma find_enabled_to_json links :
  find_enabled (to_json <$> links) = Some (to_json <$> first_enabled links).
Proof.
  induction links as [|[url text [|]] links IH]; [done| |]; cbn; [done|].
  exact IH.
Qed.

Lemma get_to_json_text link :
  default None (JSON.get (to_json link) "text") = Some (JStr (text link)).
Proof. reflexivity. Qed.

Lemma get_to_json_url link :
  default None (JSON.get (to_json link) "url") = Some (JStr (url link)).
Proof. reflexivity. Qed.

Lemma or_empty_string s : or_empty (Some (JStr s)) = JStr s.
Proof.
  unfold or_empty, JSON.truthy, JS.falsy. cbn.
  case_bool_decide; by subst.
Qed.

(** A product whose [external_links] record parses to the links [links]
    is listed with the text and the url of the first enabled link, as
    enabled iff there is one, as having several links iff [links] has more
    than one entry, and with [links] themselves; the legacy keys are not
    read. *)
Theorem stored_links_fill_product_row
    JSON_parse length_exceeds_one product value links :
  metafieldMap (default [] (node_metafields product)) !! "external_links" = Some value →
  JS.falsy value = false →
  JSON_parse value = Some (JArr (to_json <$> links)) →
  productData JSON_parse length_exceeds_one product
  = Some {| product_id := node_id product;
            title := node_title product;
            handle := node_handle product;
            externalUrl := JStr (from_option url "" (first_enabled links));
            buttonText := JStr (from_option text "" (first_enabled links));
            isEnabled := bool_decide (is_Some (first_enabled links));
            product_hideAtc :=
              bool_decide (metafieldMap (default [] (node_metafields product))
                           !! "hide_atc" = Some "true");
            hasMetafields := has_metafields product;
            hasMultipleLinks := (1 <? length links)%nat;
            product_externalLinks := JArr (to_json <$> links) |}.
Proof.
  intros Hlinks Hfalsy Hparse. unfold productData. cbv zeta.
  rewrite Hlinks, Hfalsy, Hparse, find_enabled_to_json.
  destruct (first_enabled links) as [link|].
  - cbn [fmap option_fmap option_map mbind option_bind from_option].
    rewrite get_to_json_text, get_to_json_url, !or_empty_string, length_fmap.
    rewrite (bool_decide_true (is_Some (Some link))) by (by exists link). reflexivity.
  - cbn. rewrite length_fmap. reflexivity.
Qed.

Lemma stored_links_fill_product_row_witness :
  productData JSON.parse_text (fun _ => false) linked_product
  = Some (mkProduct "gid://shopify/Product/3" "Pot" "pot"
            (JStr "https://b.com") (JStr "Buy at B") true false true true
            (JArr (to_json <$> [mkLink "https://a.com" "Buy at A" false;
                                mkLink "https://b.com" "Buy at B" true]))).
Proof.
  apply (stored_links_fill_product_row JSON.parse_text (fun _ => false) linked_product
           (JS.dq "[{'url':'https://a.com','text':'Buy at A','enabled':false},{'url':'https://b.com','text':'Buy at B','enabled':true}]")
           [mkLink "https://a.com" "Buy at A" false;
            mkLink "https://b.com" "Buy at B" true]).
  - reflexivity.
  - reflexivity.
  - vm_compute. reflexivity.
Defined.

(** ** From the stored record to the storefront *)

Lemma shown_visible link : shown (to_json link) = visible link.
Proof.
  unfold visible. rewrite isEmptyLink_blank. by destruct link as [u t []].
Qed.

Lemma filter_shown_to_json links :
  List.filter shown (to_json <$> links) = to_json <$> List.filter visible links.
Proof.
  induction links as [|link links IH]; [done|].
  cbn [fmap list_fmap List.filter]. rewrite shown_visible.
  destruct (visible link); [rewrite fmap_cons|]; by rewrite <- IH.
Qed.

Lemma button_of_to_json preset productId index link :
  button_of preset productId index (to_json link)
  = storefront_button preset productId index link.
Proof.
  unfold button_of, storefront_button. f_equal.
  rewrite get_to_json_text. unfold JSON.truthy, JS.or_else.
  by destruct (JS.falsy (text link)).
Qed.

(** What the storefront shows for a stored record. On a page whose block
    settings are found and hold a usable preset, a data attribute that is
    not blank and not the text of the empty array, and that parses to the
    stored links [links], makes the renderer replace what the container
    held by one button for each enabled link with a url that is not blank,
    in the order of the record and numbered from 0, with the link's url
    and its text, or [External Link] for an empty text; the tracking notice
    follows once if the settings ask for it and there is a button; the
    text is parsed as it is, once. *)
Theorem storefront_shows_enabled_stored_links
    JSON_parse blockSettings productId settings preset container data links :
  blockSettings (product_selector productId) = Some settings →
  usable_preset settings = Some preset →
  JS.trim data ≠ "" →
  data ≠ "[]" →
  JSON_parse data = Some (JArr (to_json <$> links)) →
  renderExternalButtons JSON_parse blockSettings container (Some data) productId
  = (normal,
     (button <$> imap (storefront_button preset productId) (List.filter visible links))
     ++ (if (0 <? length (List.filter visible links))%nat
            && JSON.truthy (show_tracking_notice settings)
            && JSON.truthy (tracking_notice_text settings)
         then [notice (default JNull (tracking_notice_text settings))]
         else []),
     [data]).
Proof.
  intros Hfound Husable Hblank Hempty Hparse.
  unfold renderExternalButtons, renderExternalButtons_body.
  assert (JS.falsy data = false) as ->.
  { unfold JS.falsy. apply bool_decide_eq_false. intros ->. by apply Hblank. }
  rewrite (bool_decide_eq_false_2 _ Hblank), (bool_decide_eq_false_2 _ Hempty).
  cbn [orb]. rewrite Hparse. unfold render_parsed, enabledLinks.
  rewrite filter_links_filterable
    by (apply Forall_fmap, Forall_forall; intros; apply filterable_to_json).
  rewrite filter_shown_to_json.
  destruct (List.filter visible links) as [|link shown_links] eqn:Hshown; [done|].
  rewrite fmap_cons. cbv beta iota. rewrite <- fmap_cons, Hfound.
  rewrite (append_buttons_filterable blockSettings productId settings preset Hfound Husable
             _ 0 [])
    by (apply Forall_fmap, Forall_forall; intros; apply filterable_to_json).
  cbn [app]. rewrite imap_fmap.
  rewrite (imap_ext _ (storefront_button preset productId))
    by (intros; apply button_of_to_json).
  cbn [length Nat.ltb Nat.leb andb].
  destruct (JSON.truthy (show_tracking_notice settings)
            && JSON.truthy (tracking_notice_text settings)); [done|].
  by rewrite app_nil_r.
Qed.

Lemma storefront_shows_enabled_stored_links_witness :
  renderExternalButtons JSON.parse_text default_settings [notice (JStr "stale")]
    (Some (JS.dq "[{'url':'https://a.com','text':'Buy at A','enabled':false},{'url':'https://b.com','text':'','enabled':true}]"))
    "42"
  = (normal,
     [button (mkButton "external-link-button preset-primary-medium"
                (Some (JStr "https://b.com")) 0 "42" (JStr "External Link"))],
     [JS.dq "[{'url':'https://a.com','text':'Buy at A','enabled':false},{'url':'https://b.com','text':'','enabled':true}]"]).
Proof.
  apply (storefront_shows_enabled_stored_links JSON.parse_text default_settings "42"
           (mkSettings (Some (JStr "primary_medium")) (Some (JBool false))
              (Some (JStr "This is an affiliate link - we may earn a commission")))
           "primary_medium" [notice (JStr "stale")]
           (JS.dq "[{'url':'https://a.com','text':'Buy at A','enabled':false},{'url':'https://b.com','text':'','enabled':true}]")
           [mkLink "https://a.com" "Buy at A" false; mkLink "https://b.com" "" true]).
  - reflexivity.
  - reflexivity.
  - by vm_compute.
  - by vm_compute.
  - vm_compute. reflexivity.
Defined.

(** ** What [init] touches *)

Lemma init_container_events JSON_parse blockSettings index c e :
  e ∈ (init_container JSON_parse blockSettings index c).2
  ↔ (getAttribute c "data-hide-atc" = Some "true"
     ∧ e = hide_atc index (getAttribute c "data-product-id")
             (getAttribute c "data-atc-override-selector"))
    ∨ (renderable c ∧ e = render index).
Proof.
  unfold init_container, renderable. cbv zeta.
  set (hidden := if bool_decide (getAttribute c "data-hide-atc" = Some "true")
                 then _ else _).
  assert (e ∈ hidden
          ↔ getAttribute c "data-hide-atc" = Some "true"
            ∧ e = hide_atc index (getAttribute c "data-product-id")
                    (getAttribute c "data-atc-override-selector")) as Hhidden.
  { subst hidden. case_bool_decide as Hhide.
    - rewrite list_elem_of_singleton. tauto.
    - split; [by intros ?%elem_of_nil | tauto]. }
  destruct (getAttribute c "data-external-links") as [data|]; cycle 1.
  { cbn [snd]. rewrite Hhidden. split; [tauto|].
    intros [? | [(? & ? & ? & _) _]]; [tauto | done]. }
  destruct (bool_decide_reflect (JS.trim data = "")) as [Hblank|Hblank].
  { rewrite andb_false_r. cbn [andb snd]. rewrite Hhidden. split; [tauto|].
    intros [? | [(? & ? & [= <-] & ? & _) _]]; [tauto | done]. }
  destruct (bool_decide_reflect (data = "[]")) as [Hempty|Hempty].
  { rewrite andb_false_r. cbn [snd]. rewrite Hhidden. split; [tauto|].
    intros [? | [(? & ? & [= <-] & _ & ? & _) _]]; [tauto | done]. }
  assert (JS.falsy data = false) as ->.
  { unfold JS.falsy. apply bool_decide_eq_false. intros ->. by apply Hblank. }
  cbn [negb andb].
  destruct (target c) as [| |children] eqn:Htarget.
  - cbn [snd]. rewrite Hhidden. split; [tauto|].
    intros [? | [(? & ? & _ & _ & _ & ?) _]]; [tauto | done].
  - cbn [snd]. rewrite Hhidden. split; [tauto|].
    intros [? | [(? & ? & _ & _ & _ & ?) _]]; [tauto | done].
  - destruct (renderExternalButtons _ _ _ _ _) as [[? ?] ?]. cbn [snd].
    rewrite elem_of_app, Hhidden, list_elem_of_singleton. split.
    + intros [? | ->]; [tauto|]. right. split; [|done]. by exists data, children.
    + tauto.
Qed.

Lemma init_container_attributes JSON_parse blockSettings index c :
  attributes (init_container JSON_parse blockSettings index c).1 = attributes c.
Proof.
  unfold init_container. cbv zeta.
  repeat match goal with
         | |- context [match ?x with _ => _ end] => destruct x
         end; done.
Qed.

Lemma init_container_untouched JSON_parse blockSettings index c :
  ¬ renderable c → (init_container JSON_parse blockSettings index c).1 = c.
Proof.
  intros Hnot. unfold init_container. cbv zeta.
  destruct (getAttribute c "data-external-links") as [data|] eqn:Hdata; [|done].
  destruct (negb (JS.falsy data) && negb (bool_decide (JS.trim data = ""))
            && negb (bool_decide (data = "[]"))) eqn:Hcond; [|done].
  destruct (target c) as [| |children] eqn:Htarget; [done..|].
  destruct Hnot. exists data, children.
  apply andb_prop in Hcond as [[_ Hblank]%andb_prop Hempty].
  apply negb_true_iff, bool_decide_eq_false in Hblank, Hempty. done.
Qed.

(** What one run of [init] does to a page. It keeps the containers and
    their attributes. It asks for the add-to-cart buttons to be hidden
    exactly for the containers whose [data-hide-atc] is the string [true],
    with their product id and override selector, whether or not they have
    links to show. It renders exactly the containers that have a links
    attribute that is neither blank nor the text of the empty array and
    whose target is found, and leaves every other container as it is. *)
Theorem init_hides_atc_regardless_of_links JSON_parse blockSettings document :
  let '(_, page, events) := init JSON_parse blockSettings document in
  attributes <$> page = attributes <$> document
  ∧ (∀ index productId customSelector,
       hide_atc index productId customSelector ∈ events
       ↔ ∃ c, document !! index = Some c
              ∧ getAttribute c "data-hide-atc" = Some "true"
              ∧ productId = getAttribute c "data-product-id"
              ∧ customSelector = getAttribute c "data-atc-override-selector")
  ∧ (∀ index,
       render index ∈ events ↔ ∃ c, document !! index = Some c ∧ renderable c)
  ∧ (∀ index c,
       document !! index = Some c → ¬ renderable c → page !! index = Some c).
Proof.
  unfold init. cbv zeta.
  assert (∀ e, e ∈ mjoin ((imap (init_container JSON_parse blockSettings) document).*2)
               ↔ ∃ index c, document !! index = Some c
                   ∧ e ∈ (init_container JSON_parse blockSettings index c).2) as Hevents.
  { intros e. rewrite list_elem_of_join. split.
    - intros (l & He & (x & -> & (index & c & -> & Hc)%elem_of_lookup_imap)%list_elem_of_fmap).
      eauto.
    - intros (index & c & Hc & He). eexists. split; [exact He|].
      apply list_elem_of_fmap. eexists. split; [reflexivity|].
      apply elem_of_lookup_imap. eauto. }
  split; [|split; [|split]].
  - rewrite !fmap_imap. apply list_eq. intros index.
    rewrite list_lookup_imap, list_lookup_fmap.
    destruct (document !! index) as [c|]; [|done]. cbn.
    by rewrite init_container_attributes.
  - intros index productId customSelector. rewrite Hevents. split.
    + intros (index' & c & Hc & [[Hhide [= -> -> ->]] | [_ [=]]]%init_container_events).
      eauto.
    + intros (c & Hc & Hhide & -> & ->). exists index, c. split; [done|].
      apply init_container_events. by left.
  - intros index. rewrite Hevents. split.
    + intros (index' & c & Hc & [[_ [=]] | [Hrender [= ->]]]%init_container_events).
      eauto.
    + intros (c & Hc & Hrender). exists index, c. split; [done|].
      apply init_container_events. by right.
  - intros index c Hc Hnot. rewrite list_lookup_fmap, list_lookup_imap, Hc. cbn.
    by rewrite init_container_untouched.
Qed.

(** ** Hiding the add-to-cart buttons *)

Lemma filter_none {A} (P : A → bool) (l : list A) :
  Forall (fun x => P x = false) l → List.filter P l = [].
Proof. induction 1 as [|x l Hx _ IH]; [done|]. cbn. by rewrite Hx. Qed.

Section HideATC_facts.

Context {element : Type}.
Variable valid : string -> bool.
Variable matches : string -> element -> bool.

Lemma hide_selector_page selector (page : list (element * Style)) count :
  hide_selector valid matches (page, count) selector
  = (hidden_page valid matches [selector] page,
     count + length (List.filter (to_hide valid matches [selector]) page)).
Proof.
  unfold hide_selector, hidden_page, to_hide, targeted, hide_button. cbn [existsb fst snd].
  destruct (valid selector); cbn [andb orb].
  - f_equal.
    + rewrite <- list_fmap_compose. apply list_fmap_ext. intros _ [e style] _. cbn.
      rewrite orb_false_r. by destruct (matches selector e && negb (display_none style)).
    + f_equal. induction page as [|[e style] page IH]; [done|]. cbn.
      rewrite orb_false_r.
      destruct (matches selector e && negb (display_none style)); cbn; by rewrite IH.
  - f_equal.
    + symmetry. etransitivity; [|apply list_fmap_id]. by apply list_fmap_ext.
    + rewrite filter_none; [cbn; lia|]. by apply Forall_forall.
Qed.

Lemma hide_step selector selectors (b : element * Style) :
  let once := if to_hide valid matches [selector] b then (b.1, mkStyle true true) else b in
  (if to_hide valid matches selectors once then (once.1, mkStyle true true) else once)
  = (if to_hide valid matches (selector :: selectors) b
     then (b.1, mkStyle true true) else b)
  ∧ (Nat.b2n (to_hide valid matches [selector] b)
     + Nat.b2n (to_hide valid matches selectors once)
     = Nat.b2n (to_hide valid matches (selector :: selectors) b))%nat.
Proof.
  cbv zeta. destruct b as [e [hidden marked]].
  assert (∀ style, to_hide valid matches selectors (e, style)
                   = targeted valid matches selectors e && negb (display_none style))
    as Hrest by done.
  assert (∀ sels, to_hide valid matches (selector :: sels) (e, mkStyle hidden marked)
                  = (valid selector && matches selector e
                     || targeted valid matches sels e) && negb hidden)
    as Hfirst by done.
  rewrite !Hfirst. clear Hfirst. cbn [targeted existsb].
  rewrite orb_false_r.
  destruct (valid selector && matches selector e), hidden; cbn [orb andb negb fst snd];
    rewrite ?Hrest; cbn [display_none negb];
    by destruct (targeted valid matches selectors e).
Qed.

Lemma length_filter_b2n {A} (P : A → bool) (l : list A) :
  length (List.filter P l) = foldr (fun x n => Nat.b2n (P x) + n)%nat 0%nat l.
Proof. induction l as [|x l IH]; [done|]. cbn. destruct (P x); cbn; by rewrite IH. Qed.

Lemma hide_all_page selectors (page : list (element * Style)) count :
  foldl (hide_selector valid matches) (page, count) selectors
  = (hidden_page valid matches selectors page,
     count + length (List.filter (to_hide valid matches selectors) page)).
Proof.
  revert page count. induction selectors as [|selector selectors IH]; intros page count.
  - cbn. f_equal.
    + unfold hidden_page. symmetry. etransitivity; [|apply list_fmap_id].
      by apply list_fmap_ext.
    + rewrite filter_none; [cbn; lia|]. by apply Forall_forall.
  - cbn [foldl]. rewrite hide_selector_page, IH. f_equal.
    + unfold hidden_page. rewrite <- list_fmap_compose. apply list_fmap_ext.
      intros _ b _. apply (hide_step selector selectors b).
    + rewrite <- Nat.add_assoc. f_equal. rewrite !length_filter_b2n.
      unfold hidden_page. induction page as [|b page IHpage]; [done|].
      rewrite fmap_cons. cbn [foldr].
      pose proof (proj2 (hide_step selector selectors b)) as Hstep. cbv zeta in Hstep.
      lia.
Qed.

Lemma hidden_page_done selectors (page : list (element * Style)) :
  Forall (fun b => to_hide valid matches selectors b = false)
    (hidden_page valid matches selectors page).
Proof.
  apply Forall_fmap, Forall_forall. intros [e style] _. cbn.
  destruct (to_hide valid matches selectors (e, style)) eqn:Hhide; [|done].
  unfold to_hide. cbn. apply andb_false_r.
Qed.

Lemma hideAttempt_completes later fuel done maxAttempts selectors productId
    (page : list (element * Style)) :
  (0 < fuel)%nat →
  (done + fuel = maxAttempts)%nat →
  ∃ final event,
    hideAttempt valid matches later fuel done maxAttempts selectors productId page
    = Some (final, event)
    ∧ detail_productId event = productId
    ∧ (done < attempts event ≤ maxAttempts)%nat
    ∧ (hiddenCount event = 0%nat → attempts event = maxAttempts)
    ∧ Forall (fun b => to_hide valid matches selectors b = false) final.
Proof.
  revert done page. induction fuel as [|fuel IH]; intros done page Hfuel Hsum; [lia|].
  cbn [hideAttempt]. rewrite hide_all_page. cbn [Nat.add].
  destruct (length (List.filter _ page) =? 0)%nat eqn:Hcount; cbn [andb].
  - destruct (S done <? maxAttempts)%nat eqn:Hmore.
    + apply Nat.ltb_lt in Hmore.
      destruct (IH (S done) (later (S done) (hidden_page valid matches selectors page)))
        as (final & event & -> & Hid & Hn & Hzero & Hall); [lia..|].
      exists final, event. repeat split; try done; lia.
    + apply Nat.ltb_ge in Hmore. eexists _, _. split; [reflexivity|]. cbn.
      repeat split; try lia. apply hidden_page_done.
  - apply Nat.eqb_neq in Hcount. eexists _, _. split; [reflexivity|]. cbn.
    repeat split; try lia. apply hidden_page_done.
Qed.

End HideATC_facts.

(** [initHideATC] completes, however the page changes between its
    attempts: it dispatches its event after at least one and at most
    [retryAttempts] attempts (3 when that is 0), with the product id it was
    given; it gives up with a count of 0 only after the last attempt; and
    when the event is dispatched no element that an accepted selector of
    the list selects is still displayed. *)
Theorem hide_atc_completes {element : Type} valid matches later
    productId customSelector retryAttempts (page : list (element * Style)) :
  let maxAttempts := if (retryAttempts =? 0)%nat then 3%nat else retryAttempts in
  ∃ final event,
    initHideATC valid matches later productId customSelector retryAttempts page
    = Some (final, event)
    ∧ detail_productId event = productId
    ∧ (1 ≤ attempts event ≤ maxAttempts)%nat
    ∧ (hiddenCount event = 0%nat → attempts event = maxAttempts)
    ∧ Forall (fun b => targeted valid matches (selectors customSelector) b.1 = true →
                       display_none b.2 = true) final.
Proof.
  intros maxAttempts. unfold initHideATC. fold maxAttempts.
  destruct (hideAttempt_completes valid matches later maxAttempts 0 maxAttempts
              (selectors customSelector) productId page)
    as (final & event & -> & Hid & Hn & Hzero & Hall).
  { subst maxAttempts. destruct retryAttempts; cbn; lia. }
  { done. }
  exists final, event. repeat split; try done; try lia.
  eapply Forall_impl; [exact Hall|]. intros [e style]. unfold to_hide. cbn.
  intros Hhide Htarget. rewrite Htarget in Hhide. by destruct (display_none style).
Qed.

(** On a page that does not change, one call hides every displayed
    element that an accepted selector selects, marks it, and touches
    nothing else; it reports how many it hid, after one attempt if it hid
    any and after all its attempts if there was nothing to hide. A second
    call on the page it leaves changes nothing. *)
Theorem hide_atc_on_static_page {element : Type} valid matches
    productId customSelector retryAttempts (page : list (element * Style)) :
  let maxAttempts := if (retryAttempts =? 0)%nat then 3%nat else retryAttempts in
  let selectors := selectors customSelector in
  let count := length (List.filter (to_hide valid matches selectors) page) in
  let final := hidden_page valid matches selectors page in
  initHideATC valid matches (fun _ page => page) productId customSelector retryAttempts page
  = Some (final,
          mkComplete count (if (count =? 0)%nat then maxAttempts else 1%nat) productId)
  ∧ initHideATC valid matches (fun _ page => page) productId customSelector
      retryAttempts final
    = Some (final, mkComplete 0 maxAttempts productId).
Proof.
  intros maxAttempts sels count final.
  assert (∀ fuel done (page : list (element * Style)),
            (0 < fuel)%nat → (done + fuel = maxAttempts)%nat →
            hideAttempt valid matches (fun _ page => page) fuel done maxAttempts sels
              productId page
            = Some (hidden_page valid matches sels page,
                    let count := length (List.filter (to_hide valid matches sels) page) in
                    mkComplete count (if (count =? 0)%nat then maxAttempts else S done)
                      productId)) as Hrun.
  { clear page count final. induction fuel as [|fuel IH]; intros done page Hfuel Hsum; [lia|].
    cbn [hideAttempt]. rewrite hide_all_page. cbn [Nat.add]. cbv zeta.
    destruct (length (List.filter _ page) =? 0)%nat eqn:Hcount; cbn [andb]; [|done].
    destruct (S done <? maxAttempts)%nat eqn:Hmore.
    - apply Nat.ltb_lt in Hmore. rewrite IH by lia.
      assert (hidden_page valid matches sels (hidden_page valid matches sels page)
              = hidden_page valid matches sels page) as ->.
      { unfold hidden_page at 1. etransitivity; [|apply list_fmap_id].
        apply list_fmap_ext. intros i b Hb.
        pose proof (hidden_page_done valid matches sels page) as Hdone.
        rewrite Forall_forall in Hdone.
        by rewrite (Hdone b (list_elem_of_lookup_2 _ _ _ Hb)). }
      assert (List.filter (to_hide valid matches sels) (hidden_page valid matches sels page)
              = []) as ->.
      { apply filter_none, hidden_page_done. }
      apply Nat.eqb_eq in Hcount. by rewrite Hcount.
    - apply Nat.ltb_ge in Hmore. apply Nat.eqb_eq in Hcount. rewrite Hcount.
      cbn. do 3 f_equal. lia. }
  assert (0 < maxAttempts)%nat as Hpos.
  { subst maxAttempts. destruct retryAttempts; cbn; lia. }
  unfold initHideATC. fold maxAttempts sels. split.
  - by rewrite Hrun.
  - rewrite Hrun by done. cbv zeta.
    assert (hidden_page valid matches sels final = final) as ->.
    { subst final. unfold hidden_page at 1. etransitivity; [|apply list_fmap_id].
      apply list_fmap_ext. intros i b Hb.
      pose proof (hidden_page_done valid matches sels page) as Hdone.
      rewrite Forall_forall in Hdone.
      by rewrite (Hdone b (list_elem_of_lookup_2 _ _ _ Hb)). }
    assert (List.filter (to_hide valid matches sels) final = []) as ->.
    { apply filter_none, hidden_page_done. }
    done.
Qed.

(** ** The earlier revision: delete, then create *)

Lemma earlier_action_save formData productId :
  save_request formData productId →
  Earlier.action formData
  = try_catch (Earlier.save productId formData)
      (fun error_message =>
         Ret (failed ("Failed to delete product configuration: " +:+ error_message))).
Proof.
  intros (Ha & Hp & Hne). unfold Earlier.action. rewrite Ha, Hp, (falsy_false _ Hne).
  reflexivity.
Qed.

(** In the earlier revision a save of a product that has metafields
    begins by deleting every one of them, whatever the form holds; what it
    then writes carries no id (it creates, never updates); and when that
    write is answered with top-level errors, the save reports the failure
    after the delete call has been made and answered. *)
Theorem earlier_save_deletes_before_it_writes env formData productId existingData :
  save_request formData productId →
  env [] (getProductMetafields productId) = Json existingData →
  product_nodes existingData ≠ [] →
  let delete_all := wipe productId (product_nodes existingData) in
  let toCreate :=
    to_input <$> Earlier.metafieldsToCreate (Earlier.form_links formData)
                   (Earlier.form_hideAtc formData) in
  let outcome := run env [] (Earlier.action formData) in
  take 2 outcome.2 = [getProductMetafields productId; delete_all]
  ∧ Forall (fun input => in_id input = None) toCreate
  ∧ ∀ response errs data,
      env [getProductMetafields productId] delete_all = Json response →
      toCreate ≠ [] →
      env [getProductMetafields productId; delete_all] (productUpdate productId toCreate)
      = Json (mkResponse (Some errs) data) →
      outcome
      = (inr (failed ("Failed to save: " +:+ JS.join ", " (message <$> errs))),
         [getProductMetafields productId; delete_all; productUpdate productId toCreate]).
Proof.
  intros Hreq Hread Hnodes delete_all toCreate outcome.
  assert (Forall (fun input => in_id input = None) toCreate) as Hcreate.
  { subst toCreate. unfold Earlier.metafieldsToCreate.
    destruct (0 <? length _)%nat, (Earlier.form_hideAtc formData); cbn;
      repeat constructor. }
  subst outcome. rewrite (earlier_action_save _ _ Hreq), run_try_catch.
  unfold Earlier.save. cbv zeta. fold METAFIELD_NAMESPACE.
  subst toCreate.
  remember (Earlier.metafieldsToCreate (Earlier.form_links formData)
              (Earlier.form_hideAtc formData)) as fields eqn:Hfields.
  clear Hfields.
  cbn. rewrite Hread. cbn.
  destruct (product_nodes existingData) as [|mf nodes] eqn:Hexisting; [done|].
  cbn [length Nat.ltb Nat.leb]. cbn.
  change (metafieldsDelete _) with delete_all.
  destruct (env [getProductMetafields productId] delete_all) as [e|response] eqn:Hdelete.
  { cbn. split; [done|]. split; [done|]. by intros ? ? ? [=]. }
  cbn.
  destruct fields as [|field fields].
  { cbn. split; [done|]. split; [done|]. by intros ? ? ? _ ?. }
  cbn [length Nat.ltb Nat.leb]. cbn.
  change (metafieldsDelete _) with delete_all.
  match goal with
  | |- context [env ?hist (productUpdate ?id ?inputs)] =>
      destruct (env hist (productUpdate id inputs)) as [e|saveData] eqn:Hupdate
  end.
  { cbn. split; [done|]. split; [done|]. by intros ? ? ? _ _ [=]. }
  cbn. split.
  { destruct (errors saveData); [done|].
    by destruct (productUpdate_userErrors saveData) as [[|]|]. }
  split; [done|].
  intros ? errs data _ _ [= ->]. reflexivity.
Qed.

Lemma earlier_save_deletes_before_it_writes_witness :
  run failing_update_env []
    (Earlier.action
       [("actionType", "save"); ("productId", "gid://shopify/Product/1");
        ("linkCount", "0"); ("hideAtc", "on")])
  = (inr (failed "Failed to save: Throttled"),
     [ getProductMetafields "gid://shopify/Product/1";
       metafieldsDelete
         [ mkIdent "gid://shopify/Product/1" "bl_custom_button" "hide_atc";
           mkIdent "gid://shopify/Product/1" "bl_custom_button" "external_links" ];
       productUpdate "gid://shopify/Product/1"
         [mkInput "bl_custom_button" None "hide_atc" "true" "single_line_text_field"] ]).
Proof.
  refine (proj2 (proj2
    (earlier_save_deletes_before_it_writes failing_update_env
       [("actionType", "save"); ("productId", "gid://shopify/Product/1");
        ("linkCount", "0"); ("hideAtc", "on")]
       "gid://shopify/Product/1"
       (mkResponse None (Some (data_product (Some ("Mug", sample_existing)))))
       _ _ _))
    (mkResponse None (Some (data_metafieldsDelete []))) [mkError "Throttled"] None _ _ _).
  - by repeat split.
  - reflexivity.
  - done.
  - reflexivity.
  - done.
  - reflexivity.
Defined.

(** The sample page: the displayed add-to-cart button is hidden and
    marked at the first attempt; the element no selector selects and the
    button the theme had hidden stay as they are. *)
Example hide_atc_sample :
  initHideATC (fun _ => true) (fun selector e => bool_decide (selector = e))
    (fun _ page => page) (Some "42") None 3 sample_buttons
  = Some ([ ("#AddToCart", mkStyle true true);
            (".gallery", mkStyle false false);
            (".buy-button", mkStyle true false) ],
          mkComplete 1 1 (Some "42")).
Proof. vm_compute. reflexivity. Qed.

(** ** The product picker *)

Lemma originalProduct_is_Some configuredProducts productId :
  is_Some (originalProduct configuredProducts productId)
  ↔ productId ∈ loaded_id <$> configuredProducts.
Proof.
  unfold originalProduct.
  induction configuredProducts as [|p configuredProducts IH].
  - cbn. split; [by intros [? ?] | by intros ?%elem_of_nil].
  - cbn [List.find]. rewrite fmap_cons, elem_of_cons. case_bool_decide as Hid.
    + split; [by left | eauto].
    + rewrite IH. split; [by right | by intros [? | ?]].
Qed.

Lemma useCallback_app created renders next :
  useCallback created (renders ++ [next])
  = if same_deps next (useCallback created renders)
    then useCallback created renders
    else next.
Proof.
  revert created. induction renders as [|r renders IH]; intros created; [done|].
  cbn [app useCallback]. by destruct (same_deps r created).
Qed.

Lemma elem_of_newProducts configuredProducts selection productId :
  productId ∈ newProducts configuredProducts selection
  ↔ productId ∈ selection ∧ productId ∉ (loaded_id <$> configuredProducts).
Proof.
  unfold newProducts.
  rewrite list_elem_of_In, filter_In, <- list_elem_of_In, negb_true_iff,
    bool_decide_eq_false, originalProduct_is_Some. done.
Qed.

(** The picker tells new products from configured ones by the list its
    closure captured, and the closure is made anew only when [shopify] or
    [isLoadingPicker] changes: a render that brings a new list under the
    same dependencies leaves the closure as it is. A product that was
    not in the list when the closure was made is therefore submitted when
    it is selected, configured in the latest render or not; the forms
    submitted are exactly the saves with no links and the hide flag off
    for the selected products that the captured list lacks; and such a
    save, once its read is answered, stores [external_links] as ["[]"]
    over whatever links the product has. *)
Theorem picker_uses_captured_products first renders next selection productId :
  let closure := useCallback first renders in
  same_deps next closure = true →
  render_isLoadingPicker closure = false →
  productId ∈ selection →
  productId ∉ (loaded_id <$> render_configuredProducts closure) →
  useCallback first (renders ++ [next]) = closure
  ∧ addProduct productId ∈ handleOpenProductPicker first (renders ++ [next]) selection
  ∧ (∀ formData,
       formData ∈ handleOpenProductPicker first (renders ++ [next]) selection
       ↔ ∃ selected,
           formData = addProduct selected
           ∧ selected ∈ selection
           ∧ (selected ∉ loaded_id <$> render_configuredProducts closure)
           ∧ FormData.get "actionType" formData = Some "save"
           ∧ FormData.get "productId" formData = Some selected
           ∧ form_links formData = []
           ∧ form_hideAtc formData = false)
  ∧ ∀ env existingData,
      productId ≠ "" →
      reaches_upsert env productId existingData →
      (run env [] (action (addProduct productId))).2
      = getProductMetafields productId
        :: delete_requests productId
             (metafieldsToDelete (product_nodes existingData) false)
        ++ [productUpdate productId
              [mkInput "bl_custom_button"
                 (update_target (product_nodes existingData) "external_links")
                 "external_links" "[]" "json"]].
Proof.
  intros closure Hdeps Hidle Hsel Hnew.
  assert (useCallback first (renders ++ [next]) = closure) as Hclosure.
  { rewrite useCallback_app. fold closure. by rewrite Hdeps. }
  assert (∀ formData,
            formData ∈ handleOpenProductPicker first (renders ++ [next]) selection
            ↔ ∃ selected,
                formData = addProduct selected
                ∧ selected ∈ selection
                ∧ (selected ∉ loaded_id <$> render_configuredProducts closure)
                ∧ FormData.get "actionType" formData = Some "save"
                ∧ FormData.get "productId" formData = Some selected
                ∧ form_links formData = []
                ∧ form_hideAtc formData = false) as Hforms.
  { intros formData. unfold handleOpenProductPicker. cbv zeta.
    rewrite Hclosure, Hidle, list_elem_of_fmap. split.
    - intros (selected & -> & [? ?]%elem_of_newProducts). by exists selected.
    - intros (selected & -> & ? & ? & _). exists selected. split; [done|].
      by apply elem_of_newProducts. }
  split; [done|]. split; [|split; [done|]].
  - apply Hforms. by exists productId.
  - intros env existingData Hne Henv.
    rewrite (save_trace env _ productId existingData (addProduct_save_request _ Hne) Henv).
    rewrite addProduct_links, addProduct_hideAtc.
    unfold metafieldsToSave. cbn [fmap list_fmap app]. by rewrite to_input_field.
Qed.

Lemma picker_uses_captured_products_witness :
  useCallback (mkRender 0 false []) (picker_renders ++ [revalidated])
  = mkRender 0 false []
  ∧ addProduct "gid://shopify/Product/1"
    ∈ handleOpenProductPicker (mkRender 0 false []) (picker_renders ++ [revalidated])
        ["gid://shopify/Product/1"].
Proof.
  pose proof (picker_uses_captured_products (mkRender 0 false []) picker_renders
                revalidated ["gid://shopify/Product/1"] "gid://shopify/Product/1") as H.
  cbv zeta in H.
  destruct H as (Hclosure & Hform & _).
  - reflexivity.
  - reflexivity.
  - apply list_elem_of_here.
  - by intros ?%elem_of_nil.
  - split; [exact Hclosure | exact Hform].
Defined.
